(** * xbr-video-upscaler: a shallow embedding of [main.py]

    The script extracts the frames of a video into a staging directory,
    runs an external image resizer on every frame through a thread pool,
    checks that every upscaled frame exists and hands the sequence to
    ffmpeg.  The embedding below follows [main.py] function by function.

    - Python [float] is IEEE binary64, modelled with the Standard
      Library's [spec_float] at precision 53 and maximal exponent 1024.
    - The filesystem is a finite map from path strings to node kinds.
    - Effects (filesystem, printed lines, spawned subprocesses, the
      cancellation flag) are threaded through a state-and-exception monad;
      [sys.exit] raises [SystemExit] as it does in Python.
    - External collaborators (OpenCV, the resizer, ffmpeg, [shutil.which],
      [os.access], the builtin parser and printer of floats) are fields of
      an environment record. *)

From Stdlib Require Import ZArith Bool List Ascii String Lia.
From Stdlib Require Import Floats.SpecFloat.
From stdpp Require Import base option list sorting gmap strings pretty fin_maps fin_sets.


(** ** Python floats *)

Module PyFloat.

Definition float := spec_float.

(** The binary64 format: 53 bits of precision, exponents below 1024. *)
Definition prec : Z := 53.
Definition emax : Z := 1024.

(** [float(z)] for a Python [int]: round to nearest even; an integer too
    large for a double raises [OverflowError] (here [None]). *)
Definition of_int (z : Z) : option float :=
  match binary_normalize prec emax z 0 false with
  | S754_infinity _ => None
  | f => Some f
  end.

Definition mul (x y : float) : float := SFmul prec emax x y.
Definition div (x y : float) : float := SFdiv prec emax x y.

(** Python's [x == y] and [x != y] on floats. *)
Definition eqb (x y : float) : bool := SFeqb x y.
Definition neqb (x y : float) : bool := negb (SFeqb x y).

(** Why [int(x)] can fail. *)
Variant int_error := IntOfNaN | IntOfInfinity.

(** [int(x)]: truncation toward zero. *)
Definition to_int (x : float) : int_error + Z :=
  match x with
  | S754_zero _ => inr 0%Z
  | S754_infinity _ => inl IntOfInfinity
  | S754_nan => inl IntOfNaN
  | S754_finite s m e =>
      let mag := match e with
                 | Z0 => Zpos m
                 | Zpos p => Z.shiftl (Zpos m) (Zpos p)
                 | Zneg p => Z.shiftr (Zpos m) (Zpos p)
                 end in
      inr (if s then Z.opp mag else mag)
  end.

Definition hundred : float := binary_normalize prec emax 100 0 false.

End PyFloat.

(** ** Strings and paths *)

Module PyStr.

(** [sep.join(l)] *)
Fixpoint join (sep : string) (l : list string) : string :=
  match l with
  | [] => ""
  | [x] => x
  | x :: rest => x +:+ sep +:+ join sep rest
  end.

(** [s.split(' ')]: split at every space, keeping empty fields. *)
Fixpoint split_space_go (cur : string) (s : string) : list string :=
  match s with
  | EmptyString => [String.rev cur]
  | String c rest =>
      if Ascii.eqb c " "%char
      then String.rev cur :: split_space_go "" rest
      else split_space_go (String c cur) rest
  end.
Definition split_space (s : string) : list string := split_space_go "" s.

(** [str(z)] for a Python [int]. *)
Definition of_Z (z : Z) : string := pretty z.
Definition of_nat (n : nat) : string := pretty n.

Fixpoint zeros (n : nat) : string :=
  match n with O => "" | S k => String "0"%char (zeros k) end.

(** [f"{i:05}"] for a non-negative [i]: at least five digits, padded on
    the left with zeros. *)
Definition fmt05 (i : nat) : string :=
  let s := of_nat i in zeros (5 - String.length s) +:+ s.

(** [str(l)] for a list of Python ints: [[0, 1, 2]]. *)
Definition of_nat_list (l : list nat) : string :=
  "[" +:+ join ", " (map of_nat l) +:+ "]".

Definition ends_with_slash (s : string) : bool :=
  match String.rev s with
  | String c _ => Ascii.eqb c "/"%char
  | EmptyString => false
  end.

Definition starts_with_slash (s : string) : bool :=
  match s with
  | String c _ => Ascii.eqb c "/"%char
  | EmptyString => false
  end.

End PyStr.

(** ** [os.path] (POSIX flavour) *)

Module OsPath.

(** [os.path.join(a, b)]: an absolute [b] discards [a]; otherwise the two
    are joined with one separator unless [a] is empty or already ends
    with one. *)
Definition join (a b : string) : string :=
  if PyStr.starts_with_slash b then b
  else if (String.eqb a "" || PyStr.ends_with_slash a)%bool then a +:+ b
  else a +:+ "/" +:+ b.

(** [p.rfind(c)] as the number of characters before the last [c]. *)
Fixpoint rfind (c : ascii) (p : string) : option nat :=
  match p with
  | EmptyString => None
  | String d rest =>
      match rfind c rest with
      | Some k => Some (S k)
      | None => if Ascii.eqb d c then Some 0 else None
      end
  end.

Fixpoint take (n : nat) (p : string) : string :=
  match n, p with
  | S k, String c rest => String c (take k rest)
  | _, _ => ""
  end.

Fixpoint drop (n : nat) (p : string) : string :=
  match n, p with
  | S k, String _ rest => drop k rest
  | _, _ => p
  end.

(** The loop of [genericpath._splitext] that skips leading dots: is there
    a character other than [.] at an index in [[from, from + len)]? *)
Fixpoint has_non_dot (p : string) (from len : nat) : bool :=
  match len with
  | O => false
  | S k =>
      match String.get from p with
      | Some c => if Ascii.eqb c "."%char then has_non_dot p (S from) k else true
      | None => true
      end
  end.

(** [os.path.splitext(p)] *)
Definition splitext (p : string) : string * string :=
  let filenameIndex := match rfind "/"%char p with Some k => S k | None => O end in
  match rfind "."%char p with
  | Some dotIndex =>
      if (filenameIndex <=? dotIndex)%nat
      then if has_non_dot p filenameIndex (dotIndex - filenameIndex)
           then (take dotIndex p, drop dotIndex p)
           else (p, "")
      else (p, "")
  | None => (p, "")
  end.

End OsPath.

(** ** Exceptions, the world and the effect monad *)

(** The classes of the builtin exceptions the script can meet. *)
Variant errclass :=
  | FileNotFoundError | IsADirectoryError | NotADirectoryError
  | FileExistsError | OSError | ValueError | OverflowError | KeyError
  | NameError | UnicodeDecodeError.

(** Captured bytes of a subprocess, seen through [.decode('utf-8')]:
    [Some text] when the bytes decode, [None] when decoding raises
    [UnicodeDecodeError]. *)
Definition captured := option string.

Variant pyexc :=
  | SystemExit (code : Z)
  | CalledProcessError (returncode : Z) (output stderr : captured)
  | PyErr (cls : errclass) (msg : string).

(** [str(e)] *)
Definition exc_str (e : pyexc) : string :=
  match e with
  | SystemExit c => PyStr.of_Z c
  | CalledProcessError rc _ _ =>
      "Command returned non-zero exit status " +:+ PyStr.of_Z rc +:+ "."
  | PyErr _ msg => msg
  end.

Variant node := File | Dir.

#[global] Instance node_eq_dec : EqDecision node.
Proof. solve_decision. Defined.

Abbreviation filesystem := (gmap string node).

Record World := mkWorld {
  fs : filesystem;
  (** one entry per [print] call, oldest first *)
  printed : list string;
  (** the argument vectors handed to [subprocess.run], oldest first *)
  spawned : list (list string);
  (** [exit_event.is_set()] *)
  exit_event : bool;
  (** the module-level [temp_dir], unbound until [__main__] assigns it *)
  temp_dir : option string
}.

Variant result (A : Type) :=
  | Ok (a : A)
  | Raise (e : pyexc).
Arguments Ok {A} a.
Arguments Raise {A} e.

Definition M (A : Type) : Type := World -> result A * World.

#[global] Instance M_ret : MRet M := fun A a w => (Ok a, w).
#[global] Instance M_bind : MBind M := fun A B f c w =>
  match c w with
  | (Ok a, w') => f a w'
  | (Raise e, w') => (Raise e, w')
  end.

Definition raise {A} (e : pyexc) : M A := fun w => (Raise e, w).

(** [try: body except ...: handler e]; the handler re-raises what it does
    not catch. *)
Definition try_except {A} (body : M A) (handler : pyexc -> M A) : M A :=
  fun w =>
    match body w with
    | (Raise e, w') => handler e w'
    | r => r
    end.

(** Run [c] and hand back what it returned or raised. *)
Definition attempt {A} (c : M A) : M (pyexc + A) := fun w =>
  match c w with
  | (Ok a, w') => (Ok (inr a), w')
  | (Raise e, w') => (Ok (inl e), w')
  end.

Definition when (b : bool) (c : M unit) : M unit := if b then c else mret tt.

Fixpoint for_each {A} (l : list A) (body : A -> M unit) : M unit :=
  match l with
  | [] => mret tt
  | x :: rest => body x;; for_each rest body
  end.

Definition get_fs : M filesystem := fun w => (Ok (fs w), w).

(** [w] with its filesystem replaced. *)
Definition with_fs (w : World) (f : filesystem) : World :=
  mkWorld f (printed w) (spawned w) (exit_event w) (temp_dir w).

Definition set_fs (f : filesystem) : M unit := fun w => (Ok tt, with_fs w f).

Definition print (line : string) : M unit := fun w =>
  (Ok tt, mkWorld (fs w) (printed w ++ [line])%list (spawned w) (exit_event w) (temp_dir w)).

Definition sys_exit {A} (code : Z) : M A := raise (SystemExit code).

(** The process exit status a top-level outcome leads to: 0 on a normal
    end, the code of an uncaught [SystemExit], 1 after a traceback. *)
Definition exit_status {A} (r : result A) : Z :=
  match r with
  | Ok _ => 0
  | Raise (SystemExit c) => c
  | Raise _ => 1
  end.

Definition nl : string := String (ascii_of_nat 10) "".

(** [bytes.decode('utf-8')] *)
Definition decode (b : captured) : M string :=
  match b with
  | Some s => mret s
  | None => raise (PyErr UnicodeDecodeError "'utf-8' codec can't decode bytes")
  end.

(** ** Filesystem primitives *)

Module Os.

Definition exists_ (f : filesystem) (p : string) : bool :=
  match f !! p with Some _ => true | None => false end.

Definition isfile_ (f : filesystem) (p : string) : bool :=
  match f !! p with Some File => true | _ => false end.

(** [os.path.exists(p)] *)
Definition path_exists (p : string) : M bool := f ← get_fs; mret (exists_ f p).

(** [os.path.isfile(p)] *)
Definition path_isfile (p : string) : M bool := f ← get_fs; mret (isfile_ f p).

(** The text a directory puts in front of the names of its entries. *)
Definition dir_prefix (d : string) : string :=
  if (String.eqb d "" || PyStr.ends_with_slash d)%bool then d else d +:+ "/".

Fixpoint has_slash (s : string) : bool :=
  match s with
  | EmptyString => false
  | String c rest => (Ascii.eqb c "/"%char || has_slash rest)%bool
  end.

(** [strip pre s] is what follows [pre] in [s]. *)
Fixpoint strip (pre s : string) : option string :=
  match pre, s with
  | EmptyString, _ => Some s
  | String a pre', String b s' => if Ascii.eqb a b then strip pre' s' else None
  | String _ _, EmptyString => None
  end.

(** [p] names a direct entry of directory [d]. *)
Definition is_entry (d p : string) : bool :=
  match strip (dir_prefix d) p with
  | Some name => (negb (String.eqb name "") && negb (has_slash name))%bool
  | None => false
  end.

Definition entries (f : filesystem) (d : string) : list string :=
  filter (fun p => is_entry d p = true) (map_to_list f).*1.

(** [os.scandir(d)], as the list of the [.path] of its entries. *)
Definition scandir (d : string) : M (list string) :=
  f ← get_fs;
  match f !! d with
  | Some Dir => mret (entries f d)
  | Some File => raise (PyErr NotADirectoryError ("[Errno 20] Not a directory: '" +:+ d +:+ "'"))
  | None => raise (PyErr FileNotFoundError ("[Errno 2] No such file or directory: '" +:+ d +:+ "'"))
  end.

(** [os.remove(p)] *)
Definition remove (p : string) : M unit :=
  f ← get_fs;
  match f !! p with
  | Some File => set_fs (delete p f)
  | Some Dir => raise (PyErr IsADirectoryError ("[Errno 21] Is a directory: '" +:+ p +:+ "'"))
  | None => raise (PyErr FileNotFoundError ("[Errno 2] No such file or directory: '" +:+ p +:+ "'"))
  end.

(** [os.rmdir(d)] *)
Definition rmdir (d : string) : M unit :=
  f ← get_fs;
  match f !! d with
  | Some Dir =>
      match entries f d with
      | [] => set_fs (delete d f)
      | _ :: _ => raise (PyErr OSError ("[Errno 39] Directory not empty: '" +:+ d +:+ "'"))
      end
  | Some File => raise (PyErr NotADirectoryError ("[Errno 20] Not a directory: '" +:+ d +:+ "'"))
  | None => raise (PyErr FileNotFoundError ("[Errno 2] No such file or directory: '" +:+ d +:+ "'"))
  end.

(** [os.makedirs(d, exist_ok=True)] for a path of one component, which is
    all [__main__] asks for. *)
Definition makedirs_exist_ok (d : string) : M unit :=
  f ← get_fs;
  match f !! d with
  | Some Dir => mret tt
  | Some File => raise (PyErr FileExistsError ("[Errno 17] File exists: '" +:+ d +:+ "'"))
  | None => set_fs (<[d := Dir]> f)
  end.

End Os.

(** ** External collaborators *)

(** What a [cv2.VideoCapture] object answers to the script: the three
    properties it asks for with [get], and its frames.  The script never
    calls [isOpened()]: a capture that OpenCV could not open is one more
    such object, which reads no frame and answers [get] with whatever the
    OpenCV build answers for a closed capture. *)
Record VideoInfo := mkVideo {
  (** [video.get(cv2.CAP_PROP_FPS)] *)
  fps : PyFloat.float;
  (** [video.get(cv2.CAP_PROP_FRAME_WIDTH)] *)
  frame_width : PyFloat.float;
  (** [video.get(cv2.CAP_PROP_FRAME_HEIGHT)] *)
  frame_height : PyFloat.float;
  (** how many [read()] calls succeed before the first failing one *)
  frame_count : nat
}.

(** How a spawned process ends: it exits with a return code and its
    captured streams, or [subprocess.run] itself raises. *)
Variant proc_outcome :=
  | Exited (returncode : Z) (out err : captured)
  | SpawnFailed (cls : errclass) (msg : string).

Record Env := mkEnv {
  (** the builtin [float(s)]; [None] is [ValueError] *)
  float_of_string : string -> option PyFloat.float;
  (** the builtin [str(x)] of a float *)
  float_repr : PyFloat.float -> string;
  (** [os.access(p, os.X_OK)] *)
  access_x_ok : string -> bool;
  (** [shutil.which(name)] finds something *)
  which : string -> bool;
  (** [cv2.VideoCapture(p)] in a given filesystem; [p] may name a file, an
      image-sequence pattern, a URL or a device, and nothing is assumed
      about which of them open *)
  video_open : string -> filesystem -> VideoInfo;
  (** [cv2.imwrite(p, image)]: the flag it returns and what it does to the
      filesystem *)
  imwrite : string -> filesystem -> bool * filesystem;
  (** running an argument vector to completion *)
  spawn : list string -> filesystem -> proc_outcome * filesystem
}.

(** The parsed [config.ini]: section, then key. *)
Abbreviation Config := (gmap string (gmap string string)).

Section Program.

Variable env : Env.

(** [float(s)] *)
Definition py_float (s : string) : M PyFloat.float :=
  match float_of_string env s with
  | Some x => mret x
  | None => raise (PyErr ValueError ("could not convert string to float: '" +:+ s +:+ "'"))
  end.

(** [int(x)] for a float [x] *)
Definition py_int (x : PyFloat.float) : M Z :=
  match PyFloat.to_int x with
  | inr z => mret z
  | inl PyFloat.IntOfNaN => raise (PyErr ValueError "cannot convert float NaN to integer")
  | inl PyFloat.IntOfInfinity => raise (PyErr OverflowError "cannot convert float infinity to integer")
  end.

(** [n * x] for an int [n] and a float [x] *)
Definition int_times_float (n : Z) (x : PyFloat.float) : M PyFloat.float :=
  match PyFloat.of_int n with
  | Some fn => mret (PyFloat.mul fn x)
  | None => raise (PyErr OverflowError "int too large to convert to float")
  end.

(** [config[section][key]] *)
Definition config_get (config : Config) (section key : string) : M string :=
  match config !! section with
  | Some sec =>
      match sec !! key with
      | Some v => mret v
      | None => raise (PyErr KeyError ("'" +:+ key +:+ "'"))
      end
  | None => raise (PyErr KeyError ("'" +:+ section +:+ "'"))
  end.

(** [cv2.VideoCapture(video_path)]: the capture OpenCV builds for the path
    in the filesystem of the moment.  No exception is raised when nothing
    could be opened. *)
Definition video_capture (video_path : string) : M VideoInfo :=
  f ← get_fs;
  mret (video_open env video_path f).

Definition cv2_imwrite (frame_file : string) : M bool := fun w =>
  let '(ok, f') := imwrite env frame_file (fs w) in
  (Ok ok, with_fs w f').

(** [subprocess.run(cmd, check=True, ...)]: the command is recorded, the
    process runs, and a non-zero return code raises [CalledProcessError]. *)
Definition subprocess_run (cmd : list string) : M (captured * captured) := fun w =>
  let '(outcome, f') := spawn env cmd (fs w) in
  let w' := mkWorld f' (printed w) (spawned w ++ [cmd])%list (exit_event w) (temp_dir w) in
  match outcome with
  | Exited rc out err =>
      if (rc =? 0)%Z then (Ok (out, err), w')
      else (Raise (CalledProcessError rc out err), w')
  | SpawnFailed cls msg => (Raise (PyErr cls msg), w')
  end.

(** A local variable that may still be unbound when a handler reads it. *)
Definition read_local {A} (name : string) (v : option A) : M A :=
  match v with
  | Some a => mret a
  | None => raise (PyErr NameError
      ("cannot access local variable '" +:+ name +:+ "' where it is not associated with a value"))
  end.

(** *** [cleanup], lines 24-27 *)
Definition cleanup (temp_directory : string) : M unit :=
  paths ← Os.scandir temp_directory;
  for_each paths Os.remove;;
  Os.rmdir temp_directory.

(** [exit_event.set()] *)
Definition exit_event_set : M unit := fun w =>
  (Ok tt, mkWorld (fs w) (printed w) (spawned w) true (temp_dir w)).

(** Reading the module-level [temp_dir]. *)
Definition global_temp_dir : M string := fun w =>
  match temp_dir w with
  | Some d => (Ok d, w)
  | None => (Raise (PyErr NameError "name 'temp_dir' is not defined"), w)
  end.

(** [temp_dir = d] at module level *)
Definition assign_temp_dir (d : string) : M unit := fun w =>
  (Ok tt, mkWorld (fs w) (printed w) (spawned w) (exit_event w) (Some d)).

(** *** [signal_handler], lines 14-18 *)
Definition signal_handler : M unit :=
  exit_event_set;;
  print "Ctrl+C received, cleaning up...";;
  d ← global_temp_dir;
  cleanup d;;
  sys_exit 0.

(** *** [check_dependencies], lines 29-38 *)
Definition check_dependencies (config : Config) : M unit :=
  imageresizer_path ← config_get config "imageresizer" "path";
  let ffmpeg_path := "ffmpeg" in
  is_file ← Os.path_isfile imageresizer_path;
  when (negb (is_file && access_x_ok env imageresizer_path))
    (print ("Error: ImageResizer must be correctly installed and executable. Current path:"
            +:+ nl +:+ "ImageResizer: " +:+ imageresizer_path);;
     sys_exit 1);;
  when (negb (which env ffmpeg_path))
    (print ("Error: ffmpeg must be correctly installed. Current path:"
            +:+ nl +:+ "ffmpeg: " +:+ ffmpeg_path);;
     sys_exit 1).

(** *** [get_fps], lines 40-48 *)
Definition get_fps (video_path : string) : M PyFloat.float :=
  is_file ← Os.path_isfile video_path;
  when (negb is_file)
    (print ("Error: input video file not found. Given path:" +:+ nl +:+ video_path);;
     sys_exit 1);;
  video ← video_capture video_path;
  mret (fps video).

(** *** [get_resolution], lines 50-55 *)
Definition get_resolution (video_path : string) : M (Z * Z) :=
  video ← video_capture video_path;
  width ← py_int (frame_width video);
  height ← py_int (frame_height video);
  mret (width, height).

(** *** [extract_frames], lines 57-69

    [remaining] counts the [read()] calls that will still succeed; the
    [while success] loop ends when it reaches zero. *)
Fixpoint extract_loop (temp_directory : string) (remaining count : nat) : M nat :=
  match remaining with
  | O => mret count
  | S remaining' =>
      let frame_file := OsPath.join temp_directory ("frame_" +:+ PyStr.fmt05 count +:+ ".png") in
      success ← cv2_imwrite frame_file;
      present ← Os.path_exists frame_file;
      if (negb success || negb present)%bool
      then print ("Frame extraction failed for frame " +:+ PyStr.of_nat count);;
           sys_exit 1
      else extract_loop temp_directory remaining' (S count)
  end.

Definition extract_frames (video_path temp_directory : string) : M nat :=
  vidcap ← video_capture video_path;
  extract_loop temp_directory (frame_count vidcap) O.

(** *** [upscale_frame], lines 71-104 *)

(** The two [except] clauses; [cmd] is [None] while the local is unbound. *)
Definition upscale_frame_except (i : nat) (temp_directory : string) (verbose : bool)
    (cmd : option (list string)) (e : pyexc) : M unit :=
  match e with
  | CalledProcessError returncode output _ =>
      print ("Error: Upscaling frame " +:+ PyStr.of_nat i +:+
             " failed with exit code " +:+ PyStr.of_Z returncode +:+ ".");;
      when verbose
        (c ← read_local "cmd" cmd;
         print ("Command: " +:+ PyStr.join " " c);;
         o ← decode output;
         print ("Output: " +:+ o));;
      cleanup temp_directory;;
      sys_exit 1
  | SystemExit _ => raise e
  | PyErr _ _ =>
      print ("Unexpected error occurred during upscaling frame " +:+ PyStr.of_nat i +:+
             ": " +:+ exc_str e);;
      when verbose
        (c ← read_local "cmd" cmd;
         print ("Command: " +:+ PyStr.join " " c));;
      cleanup temp_directory;;
      sys_exit 1
  end.

(** The command of lines 79-82. *)
Definition upscale_cmd (imageresizer_path in_frame out_frame algorithm magnification_factor : string)
    (scale_factor magnification : PyFloat.float) (new_width new_height : Z) : list string :=
  if PyFloat.neqb scale_factor magnification
  then [imageresizer_path; "/load"; in_frame; "/resize"; "auto";
        algorithm +:+ " " +:+ magnification_factor +:+ "x";
        "/resize"; PyStr.of_Z new_width +:+ "x" +:+ PyStr.of_Z new_height; "Lanczos";
        "/save"; out_frame]
  else [imageresizer_path; "/load"; in_frame; "/resize"; "auto";
        algorithm +:+ " " +:+ magnification_factor +:+ "x";
        "/save"; out_frame].

Definition upscale_frame (i : nat) (temp_directory imageresizer_path : string)
    (scale_factor : PyFloat.float) (magnification_factor algorithm : string)
    (original_resolution : Z * Z) (verbose : bool) : M unit :=
  w ← int_times_float (fst original_resolution) scale_factor;
  new_width ← py_int w;
  h ← int_times_float (snd original_resolution) scale_factor;
  new_height ← py_int h;
  let in_frame := OsPath.join temp_directory ("frame_" +:+ PyStr.fmt05 i +:+ ".png") in
  let out_frame := OsPath.join temp_directory ("frame_" +:+ PyStr.fmt05 i +:+ "_up.png") in
  (* try: *)
  parsed ← attempt (py_float magnification_factor);
  match parsed with
  | inl e => upscale_frame_except i temp_directory verbose None e
  | inr magnification =>
      let cmd := upscale_cmd imageresizer_path in_frame out_frame algorithm
                   magnification_factor scale_factor magnification new_width new_height in
      try_except
        (when verbose (print ("Running command: " +:+ PyStr.join " " cmd));;
         process_output ← subprocess_run cmd;
         when verbose
           (o ← decode (fst process_output);
            print o;;
            e ← decode (snd process_output);
            print e))
        (upscale_frame_except i temp_directory verbose (Some cmd))
  end.

(** *** [upscale_frames], lines 106-111

    [executor.submit] queues every frame before any result is looked at. A
    worker runs a queued call to its end and stores whatever it raises,
    [SystemExit] included, in the call's future; the [as_completed] loop
    never asks a future for its result.  [run_submitted] runs the calls it
    is given one after the other, each to its end; [upscale_frames] is the
    pool on the schedule that takes them in submission order, and
    [upscale_frames_scheduled] below is the pool on any other order. *)
Definition future_of (call : M unit) : M (option pyexc) :=
  r ← attempt call;
  mret (match r with inl e => Some e | inr _ => None end).

Fixpoint run_submitted (calls : list (M unit)) : M (list (option pyexc)) :=
  match calls with
  | [] => mret []
  | call :: rest =>
      f ← future_of call;
      fs' ← run_submitted rest;
      mret (f :: fs')
  end.

Definition upscale_frames (temp_directory : string) (total_frames : nat)
    (imageresizer_path : string) (scale_factor : PyFloat.float)
    (magnification_factor algorithm : string) (original_resolution : Z * Z)
    (verbose : bool) : M unit :=
  let submitted :=
    map (fun i => upscale_frame i temp_directory imageresizer_path scale_factor
                    magnification_factor algorithm original_resolution verbose)
        (seq 0 total_frames) in
  futures ← run_submitted submitted;
  for_each futures (fun _ => mret tt).

(** Lines 106-111 on another schedule: with several workers the queued
    calls need not reach [subprocess.run] in submission order.  [schedule]
    lists the frame indices in the order in which their calls run. *)
Definition upscale_frames_scheduled (schedule : list nat) (temp_directory : string)
    (imageresizer_path : string) (scale_factor : PyFloat.float)
    (magnification_factor algorithm : string) (original_resolution : Z * Z)
    (verbose : bool) : M unit :=
  let submitted :=
    map (fun i => upscale_frame i temp_directory imageresizer_path scale_factor
                    magnification_factor algorithm original_resolution verbose)
        schedule in
  futures ← run_submitted submitted;
  for_each futures (fun _ => mret tt).

(** *** [get_missing_frames], lines 113-114 *)
Fixpoint missing_among (temp_directory : string) (indices : list nat) : M (list nat) :=
  match indices with
  | [] => mret []
  | i :: rest =>
      present ← Os.path_exists (OsPath.join temp_directory ("frame_" +:+ PyStr.fmt05 i +:+ "_up.png"));
      tail ← missing_among temp_directory rest;
      mret (if negb present then i :: tail else tail)
  end.

Definition get_missing_frames (total_frames : nat) (temp_directory : string) : M (list nat) :=
  missing_among temp_directory (seq 0 total_frames).

(** *** [encode_video], lines 116-156 *)
Definition default_ffmpeg_args : list string :=
  ["-c:v"; "libx264"; "-preset"; "medium"; "-tune"; "animation"; "-crf"; "15";
   "-pix_fmt"; "yuv420p"; "-c:a"; "aac"; "-b:a"; "128k"; "-shortest"].

Definition encode_video_except (verbose : bool) (ffmpeg_cmd : list string) (e : pyexc) : M unit :=
  match e with
  | CalledProcessError returncode _ stderr =>
      print ("Error: Encoding video failed with exit code " +:+ PyStr.of_Z returncode +:+ ".");;
      when verbose
        (print ("Command: " +:+ PyStr.join " " ffmpeg_cmd);;
         o ← decode stderr;
         print ("Output: " +:+ o))
  | SystemExit _ => raise e
  | PyErr _ _ =>
      print ("Unexpected error occurred during video encoding: " +:+ exc_str e);;
      when verbose (print ("Command: " +:+ PyStr.join " " ffmpeg_cmd))
  end.

Definition encode_video (input_video output_name temp_directory : string)
    (total_frames : nat) (ffmpeg_args : string) (verbose : bool) : M unit :=
  fps ← get_fps input_video;
  let frame_path_list := OsPath.join temp_directory "frame_%05d_up.png" in
  missing_frames ← get_missing_frames total_frames temp_directory;
  when (negb (Nat.eqb (length missing_frames) 0))
    ((if (10 <? length missing_frames)%nat
      then print ("Missing upscaled frames: from " +:+ PyStr.of_nat (List.hd O missing_frames) +:+
                  " to " +:+ PyStr.of_nat (List.last missing_frames O))
      else print ("Missing upscaled frames: " +:+ PyStr.of_nat_list missing_frames));;
     cleanup temp_directory;;
     sys_exit 1);;
  let ffmpeg_cmd := ["ffmpeg"; "-r"; float_repr env fps; "-i"; frame_path_list;
                     "-i"; input_video; "-map"; "0:v"; "-map"; "1:a"] in
  ffmpeg_cmd ←
    (if negb (String.eqb ffmpeg_args "")
     then mret (ffmpeg_cmd ++ PyStr.split_space ffmpeg_args)%list
     else print "Falling back to the default ffmpeg arguments.";;
          mret (ffmpeg_cmd ++ default_ffmpeg_args)%list);
  let ffmpeg_cmd := (ffmpeg_cmd ++ [output_name])%list in
  try_except
    (if verbose
     then print ("Running command: " +:+ PyStr.join " " ffmpeg_cmd);;
          process_output ← subprocess_run ffmpeg_cmd;
          o ← decode (fst process_output);
          print o;;
          e ← decode (snd process_output);
          print e
     else subprocess_run ffmpeg_cmd;; mret tt)
    (encode_video_except verbose ffmpeg_cmd).

(** *** [no_overwrite], lines 158-166

    The [while] loop is unrolled [fuel] times; [None] means the fuel ran
    out with every candidate so far taken. *)
Fixpoint no_overwrite_loop (f : filesystem) (filename file_extension : string)
    (fuel counter : nat) (out_filename : string) : option string :=
  if Os.exists_ f out_filename
  then match fuel with
       | O => None
       | S fuel' =>
           no_overwrite_loop f filename file_extension fuel' (S counter)
             (filename +:+ "(" +:+ PyStr.of_nat counter +:+ ")" +:+ file_extension)
       end
  else Some out_filename.

(** The loop run on a filesystem [f]. A filesystem holds finitely many
    paths, so [size f] numbered candidates cannot all be taken: the fuel
    given here is never used up (see [no_overwrite_on_total]). *)
Definition no_overwrite_on (f : filesystem) (out_filename : string) : option string :=
  let '(filename, file_extension) := OsPath.splitext out_filename in
  no_overwrite_loop f filename file_extension (S (size f)) 1 out_filename.

(** [no_overwrite] in the monad. The [None] branch is never taken
    ([no_overwrite_on_total]); it only makes the definition total. *)
Definition no_overwrite (out_filename : string) : M string :=
  f ← get_fs;
  match no_overwrite_on f out_filename with
  | Some name => mret name
  | None => raise (PyErr OSError "no_overwrite: the loop did not end")
  end.

(** The name [__main__] derives at line 195. *)
Definition output_name (input algorithm magnification_factor container : string) : string :=
  fst (OsPath.splitext input) +:+ "_upscaled_" +:+ algorithm +:+ magnification_factor
    +:+ "x." +:+ container.

(** *** [__main__], lines 168-200; [input] and [verbose] are the parsed
    command line, [config] the parsed [config.ini]. *)

(** What lines 181-196 hand to the reassembly step. *)
Record Prepared := mkPrepared {
  prep_total_frames : nat;
  prep_out_filename : string
}.

(** Lines 181-196: dependencies, staging directory, extraction, dispatch
    and the output name. *)
Definition main_upscale (input : string) (verbose : bool) (config : Config) : M Prepared :=
  check_dependencies config;;
  let temp := ".temp_frames" in
  assign_temp_dir temp;;
  Os.makedirs_exist_ok temp;;
  print "Extracting frames...";;
  total_frames ← extract_frames input temp;
  percent_text ← config_get config "output" "scale_factor";
  percent ← py_float percent_text;
  let scale_factor := PyFloat.div percent PyFloat.hundred in
  magnification_factor ← config_get config "upscaler" "magnification_factor";
  algorithm ← config_get config "upscaler" "algorithm";
  original_dimensions ← get_resolution input;
  imageresizer_path ← config_get config "imageresizer" "path";
  upscale_frames temp total_frames imageresizer_path scale_factor magnification_factor
    algorithm original_dimensions verbose;;
  container ← config_get config "output" "container";
  out_filename ← no_overwrite (output_name input algorithm magnification_factor container);
  mret (mkPrepared total_frames out_filename).

(** Lines 198-200 after them. *)
Definition main (input : string) (verbose : bool) (config : Config) : M unit :=
  p ← main_upscale input verbose config;
  let temp := ".temp_frames" in
  ffmpeg_args ← config_get config "ffmpeg" "args";
  encode_video input (prep_out_filename p) temp (prep_total_frames p) ffmpeg_args verbose;;
  cleanup temp.

End Program.

(** ** Vocabulary of the properties *)

(** What [cleanup d] leaves of a filesystem: every path but [d] and its
    direct entries. *)
Definition released (d : string) (f : filesystem) : filesystem :=
  filter (fun kv => kv.1 ≠ d ∧ Os.is_entry d kv.1 = false) f.

(** A staging directory that [cleanup] can release: the directory is there
    and what it holds are plain files. *)
Definition holds_only_files (f : filesystem) (d : string) : Prop :=
  f !! d = Some Dir ∧ ∀ p, Os.is_entry d p = true → f !! p ≠ Some Dir.

(** ** Sample inputs *)

Module Sample.

(** A [float_of_string] for the samples: it reads plain decimal digit
    strings, which is all the sample configurations contain. *)
Fixpoint digits_value (acc : Z) (s : string) : option Z :=
  match s with
  | EmptyString => Some acc
  | String c rest =>
      let n := Z.of_nat (nat_of_ascii c) in
      if ((48 <=? n) && (n <=? 57))%Z
      then digits_value (10 * acc + (n - 48)) rest
      else None
  end.

Definition float_of_digits (s : string) : option PyFloat.float :=
  match s with
  | EmptyString => None
  | _ => z ← digits_value 0 s; Some (binary_normalize PyFloat.prec PyFloat.emax z 0 false)
  end.

Definition float_of_Z (z : Z) : PyFloat.float := binary_normalize PyFloat.prec PyFloat.emax z 0 false.

(** A two-frame 640x480 clip at 30 frames per second. *)
Definition clip : VideoInfo :=
  mkVideo (float_of_Z 30) (float_of_Z 640) (float_of_Z 480) 2.

(** A capture that could not be opened: it reads no frame, and this build
    of OpenCV answers -1 to every [get]. *)
Definition unopened : VideoInfo :=
  mkVideo (float_of_Z (-1)) (float_of_Z (-1)) (float_of_Z (-1)) 0.

(** An OpenCV that opens the sample clip where there is a file and nothing
    else. *)
Definition open_clip (p : string) (f : filesystem) : VideoInfo :=
  if Os.isfile_ f p then clip else unopened.

(** An OpenCV that also reads the three numbered images [img_00.png],
    [img_01.png], [img_02.png] through the pattern [img_%02d.png], which
    names no file. *)
Definition open_sequence (p : string) (f : filesystem) : VideoInfo :=
  if String.eqb p "img_%02d.png"
  then mkVideo (float_of_Z 25) (float_of_Z 640) (float_of_Z 480) 3
  else open_clip p f.

Definition write_file (p : string) (f : filesystem) : bool * filesystem :=
  (true, <[p := File]> f).

(** A resizer that exits with status 1 on every frame, leaving the
    filesystem alone. *)
Definition failing_tool (cmd : list string) (f : filesystem) : proc_outcome * filesystem :=
  (Exited 1 (Some "") (Some "cannot upscale"), f).

(** A resizer that writes the file named after [/save] and an ffmpeg that
    exits with status 1 without writing anything. *)
Definition failing_ffmpeg (cmd : list string) (f : filesystem) : proc_outcome * filesystem :=
  if String.eqb (List.hd "" cmd) "ffmpeg"
  then (Exited 1 (Some "") (Some "Conversion failed!"), f)
  else (Exited 0 (Some "") (Some ""), <[List.last cmd "" := File]> f).

(** A resizer that exits with status 0 and leaves the file named by its
    last argument behind. *)
Definition writing_tool (cmd : list string) (f : filesystem)
    : proc_outcome * filesystem :=
  (Exited 0 (Some "") (Some ""),
   match f !! List.last cmd "" with
   | Some _ => f
   | None => <[List.last cmd "" := File]> f
   end).

Definition env_with (tool : list string -> filesystem -> proc_outcome * filesystem) : Env :=
  mkEnv float_of_digits (fun _ => "30.0") (fun _ => true) (fun _ => true)
        open_clip write_file tool.

(** A disk that fills up after the first frame: [cv2.imwrite] returns
    [False] for frame 1 and writes nothing. *)
Definition write_first_only (p : string) (f : filesystem) : bool * filesystem :=
  if String.eqb p ".temp_frames/frame_00001.png" then (false, f) else (true, <[p := File]> f).

Definition env_disk_full : Env :=
  mkEnv float_of_digits (fun _ => "30.0") (fun _ => true) (fun _ => true)
        open_clip write_first_only failing_ffmpeg.

(** The scale factor [float("200") / 100]. *)
Definition twice : PyFloat.float := PyFloat.div (float_of_Z 200) PyFloat.hundred.

Definition config : Config :=
  {[ "imageresizer" := {[ "path" := "ImageResizer.exe" ]};
     "output" := {[ "scale_factor" := "200"; "container" := "mp4" ]};
     "upscaler" := {[ "magnification_factor" := "2"; "algorithm" := "XBR" ]};
     "ffmpeg" := {[ "args" := "" ]} ]}.

(** The working directory before a run: the tool and the clip. *)
Definition fresh : World :=
  mkWorld {[ "ImageResizer.exe" := File; "clip.mp4" := File ]} [] [] false None.

(** The same in the middle of a run: two extracted frames are staged. *)
Definition staged : World :=
  mkWorld {[ "ImageResizer.exe" := File; "clip.mp4" := File;
             ".temp_frames" := Dir;
             ".temp_frames/frame_00000.png" := File;
             ".temp_frames/frame_00001.png" := File ]}
          ["Extracting frames..."] [] false (Some ".temp_frames").

(** An image writer that succeeds and leaves the named file behind. *)
Definition keeping_writer (p : string) (f : filesystem) : bool * filesystem :=
  (true, match f !! p with Some _ => f | None => <[p := File]> f end).

(** A tool that cannot be started: [subprocess.run] raises. *)
Definition absent_tool (cmd : list string) (f : filesystem) : proc_outcome * filesystem :=
  (SpawnFailed FileNotFoundError "[Errno 2] No such file or directory: 'ffmpeg'", f).

(** A resizer that does its work and exits with status 0, but whose
    standard output is not valid UTF-8 (a file name printed in a Windows
    code page, say). *)
Definition garbled_tool (cmd : list string) (f : filesystem) : proc_outcome * filesystem :=
  (Exited 0 None (Some ""), <[List.last cmd "" := File]> f).

(** A resizer that writes the file named after [/save] and an ffmpeg that
    exits with status 1 and whose diagnostic output is not valid UTF-8. *)
Definition garbled_ffmpeg (cmd : list string) (f : filesystem) : proc_outcome * filesystem :=
  if String.eqb (List.hd "" cmd) "ffmpeg"
  then (Exited 1 (Some "") None, f)
  else (Exited 0 (Some "") (Some ""), <[List.last cmd "" := File]> f).

(** The run after a complete dispatch: both frames are upscaled. *)
Definition upscaled : World :=
  mkWorld {[ "ImageResizer.exe" := File; "clip.mp4" := File;
             ".temp_frames" := Dir;
             ".temp_frames/frame_00000.png" := File;
             ".temp_frames/frame_00001.png" := File;
             ".temp_frames/frame_00000_up.png" := File;
             ".temp_frames/frame_00001_up.png" := File ]}
          ["Extracting frames..."] [] false (Some ".temp_frames").

End Sample.

(** The path of the upscaled companion of frame [i], as lines 76 and 114
    spell it. *)
Definition upscaled_path (temp_directory : string) (i : nat) : string :=
  OsPath.join temp_directory ("frame_" +:+ PyStr.fmt05 i +:+ "_up.png").

(** The path of the extracted frame [i], as lines 62 and 75 spell it. *)
Definition frame_path (temp_directory : string) (i : nat) : string :=
  OsPath.join temp_directory ("frame_" +:+ PyStr.fmt05 i +:+ ".png").

(** The [counter]-th name line 163 tries. *)
Definition numbered (filename file_extension : string) (counter : nat) : string :=
  filename +:+ "(" +:+ PyStr.of_nat counter +:+ ")" +:+ file_extension.

(** [c in s] for a character [c]. *)
Fixpoint contains (c : ascii) (s : string) : bool :=
  match s with
  | EmptyString => false
  | String d rest => (Ascii.eqb d c || contains c rest)%bool
  end.

(** Does [cmd] hold the three consecutive arguments [/resize], [size],
    [Lanczos]? *)
Fixpoint includes_resize (cmd : list string) (size : string) : bool :=
  match cmd with
  | [] => false
  | a :: rest =>
      match rest with
      | b :: c :: _ =>
          (String.eqb a "/resize" && String.eqb b size && String.eqb c "Lanczos")
          || includes_resize rest size
      | _ => false
      end
  end.

(** The secondary resize to [width] by [height]. *)
Definition secondary_resize (cmd : list string) (width height : Z) : bool :=
  includes_resize cmd (PyStr.of_Z width +:+ "x" +:+ PyStr.of_Z height).

(** [int(n * x)], with [None] where Python raises. *)
Definition scaled (n : Z) (x : PyFloat.float) : option Z :=
  match PyFloat.of_int n with
  | Some fn => match PyFloat.to_int (PyFloat.mul fn x) with inr z => Some z | inl _ => None end
  | None => None
  end.

(** The commands a call of [upscale_frame] hands to [subprocess.run], read
    off its arguments alone: none when a conversion raises first, one
    otherwise. *)
Definition planned_upscale (env : Env) (i : nat) (temp_directory imageresizer_path : string)
    (scale_factor : PyFloat.float) (magnification_factor algorithm : string)
    (original_resolution : Z * Z) : list (list string) :=
  match scaled original_resolution.1 scale_factor,
        scaled original_resolution.2 scale_factor,
        float_of_string env magnification_factor with
  | Some new_width, Some new_height, Some magnification =>
      [upscale_cmd imageresizer_path (frame_path temp_directory i)
         (upscaled_path temp_directory i) algorithm magnification_factor
         scale_factor magnification new_width new_height]
  | _, _, _ => []
  end.

(** A computation that spawns nothing. *)
Definition keeps_spawned {A} (c : M A) : Prop :=
  ∀ w, spawned (c w).2 = spawned w.

(** The ffmpeg command of lines 130-138. *)
Definition ffmpeg_command (fps_text temp_directory input_video ffmpeg_args output_name : string)
    : list string :=
  (["ffmpeg"; "-r"; fps_text; "-i"; OsPath.join temp_directory "frame_%05d_up.png";
    "-i"; input_video; "-map"; "0:v"; "-map"; "1:a"] ++
   (if negb (String.eqb ffmpeg_args "") then PyStr.split_space ffmpeg_args
    else default_ffmpeg_args)) ++ [output_name].

(** The frame rate the capture of [input_video] reports in filesystem [f]. *)
Definition probed_fps (env : Env) (f : filesystem) (input_video : string) : PyFloat.float :=
  fps (video_open env input_video f).

(** The commands a call of [encode_video] hands to [subprocess.run]: the
    ffmpeg command when the input is a file and no upscaled frame is
    missing, none otherwise. *)
Definition planned_encode (env : Env) (f : filesystem)
    (input_video output_name temp_directory : string) (total_frames : nat)
    (ffmpeg_args : string) : list (list string) :=
  if Os.isfile_ f input_video
  then match filter (fun i => Os.exists_ f (upscaled_path temp_directory i) = false)
                    (seq 0 total_frames) with
       | [] => [ffmpeg_command (float_repr env (probed_fps env f input_video))
                  temp_directory input_video ffmpeg_args output_name]
       | _ :: _ => []
       end
  else [].

(** A computation that reads and writes the filesystem only: what it
    returns and the filesystem it leaves depend on the filesystem alone, and
    the other components of the world pass through. *)
Definition fs_only {A} (c : M A) : Prop :=
  ∀ f, ∃ r f', ∀ pr sp ev td,
    c (mkWorld f pr sp ev td) = (r, mkWorld f' pr sp ev td).

(** Two outcomes that differ at most in the printed lines. *)
Definition same_but_printed {A} (x y : result A * World) : Prop :=
  x.1 = y.1 ∧ fs x.2 = fs y.2 ∧ spawned x.2 = spawned y.2 ∧
  exit_event x.2 = exit_event y.2 ∧ temp_dir x.2 = temp_dir y.2.

(** The streams a process leaves decode as UTF-8. *)
Definition decodable (o : proc_outcome) : Prop :=
  match o with
  | Exited _ out err => is_Some out ∧ is_Some err
  | SpawnFailed _ _ => True
  end.

(** Reading a run of decimal digits back, most significant digit first. *)
Fixpoint read_decimal (acc : N) (digits : string) : N :=
  match digits with
  | EmptyString => acc
  | String c rest => read_decimal (10 * acc + (N_of_ascii c - 48)) rest
  end.

(** The frame index a zero-padded field stands for, as ffmpeg's [%05d]
    reads it. *)
Definition frame_index (field : string) : nat := N.to_nat (read_decimal 0 field).

(** * Properties *)

(** ** Sanity checks of the string and float helpers *)

Example fmt05_7 : PyStr.fmt05 7 = "00007".
Proof. reflexivity. Qed.
Example fmt05_wide : PyStr.fmt05 4321 = "04321".
Proof. reflexivity. Qed.
Example splitext_plain : OsPath.splitext "dir.d/clip.mp4" = ("dir.d/clip", ".mp4").
Proof. reflexivity. Qed.
Example splitext_hidden : OsPath.splitext "dir/.bashrc" = ("dir/.bashrc", "").
Proof. reflexivity. Qed.
Example splitext_nodot : OsPath.splitext "a.b/clip" = ("a.b/clip", "").
Proof. reflexivity. Qed.
Example split_space_ex : PyStr.split_space "-c:v  x" = ["-c:v"; ""; "x"].
Proof. reflexivity. Qed.
Example to_int_ex :
  option_map (fun w => PyFloat.to_int (PyFloat.mul w (PyFloat.div (binary_normalize PyFloat.prec PyFloat.emax 290 0 false) PyFloat.hundred)))
    (PyFloat.of_int 100) = Some (inr 290%Z).
Proof. vm_compute. reflexivity. Qed.

(** ** The staging directory and [cleanup] *)

Lemma lookup_released d f p :
  released d f !! p =
    if decide (p = d) then None
    else if Os.is_entry d p then None else f !! p.
Proof.
  unfold released. destruct (decide (p = d)) as [->|Hne].
  - apply map_lookup_filter_None. right. intros x _ [H _]. by apply H.
  - destruct (Os.is_entry d p) eqn:He.
    + apply map_lookup_filter_None. right. intros x _ [_ H]. simpl in H. congruence.
    + destruct (f !! p) as [x|] eqn:Hp.
      * apply map_lookup_filter_Some. split; [done|]. by split.
      * apply map_lookup_filter_None. by left.
Qed.

Lemma elem_of_entries f d p :
  p ∈ Os.entries f d ↔ Os.is_entry d p = true ∧ is_Some (f !! p).
Proof.
  unfold Os.entries. rewrite list_elem_of_filter, list_elem_of_fmap.
  split.
  - intros [He [[k v] [-> Hin]]]. split; [done|].
    apply elem_of_map_to_list in Hin. by exists v.
  - intros [He [v Hv]]. split; [done|]. exists (p, v). split; [done|].
    by apply elem_of_map_to_list.
Qed.

Lemma NoDup_entries f d : NoDup (Os.entries f d).
Proof. unfold Os.entries. apply NoDup_filter, NoDup_fst_map_to_list. Qed.

Lemma entries_nil f d :
  (∀ p, Os.is_entry d p = true → f !! p = None) → Os.entries f d = [].
Proof.
  intros H. destruct (Os.entries f d) as [|p l] eqn:E; [done|].
  assert (Hp : p ∈ Os.entries f d) by (rewrite E; left).
  apply elem_of_entries in Hp as [He [v Hv]]. rewrite (H p He) in Hv. done.
Qed.

(** Removing a list of distinct plain files, one [os.remove] each. *)
Lemma for_each_remove_files l : ∀ w,
  NoDup l → (∀ p, p ∈ l → fs w !! p = Some File) →
  for_each l Os.remove w = (Ok tt, with_fs w (foldr delete (fs w) (reverse l))).
Proof.
  induction l as [|x l IH]; intros w Hnd Hall.
  - simpl. unfold mret, M_ret, with_fs. by destruct w.
  - apply NoDup_cons in Hnd as [Hx Hnd].
    cbn [for_each]. unfold mbind, M_bind at 1.
    unfold Os.remove at 1. unfold mbind, M_bind at 1. unfold get_fs at 1.
    rewrite (Hall x) by left. unfold set_fs at 1.
    rewrite IH; [| done |].
    + f_equal. unfold with_fs. simpl. f_equal.
      rewrite reverse_cons, foldr_app. done.
    + intros p Hp. simpl. rewrite lookup_delete_ne.
      * apply Hall. by right.
      * intros ->. done.
Qed.

Lemma cleanup_releases d w :
  holds_only_files (fs w) d →
  cleanup d w = (Ok tt, with_fs w (released d (fs w))).
Proof.
  intros [Hd Hfiles].
  assert (Hents : ∀ p, p ∈ Os.entries (fs w) d → fs w !! p = Some File).
  { intros p [He [v Hv]]%elem_of_entries. destruct v; [done|]. by destruct (Hfiles p He). }
  assert (Hnotin : d ∉ Os.entries (fs w) d).
  { intros Hin. apply Hents in Hin. congruence. }
  unfold cleanup. unfold mbind, M_bind at 1. unfold Os.scandir.
  unfold mbind, M_bind at 1. unfold get_fs at 1. rewrite Hd.
  unfold mret, M_ret at 1. unfold mbind, M_bind at 1.
  rewrite for_each_remove_files by (done || apply NoDup_entries).
  set (f' := foldr delete (fs w) (reverse (Os.entries (fs w) d))).
  assert (Hlook : ∀ p, f' !! p = if decide (p ∈ Os.entries (fs w) d) then None else fs w !! p).
  { intros p. unfold f'. destruct (decide (p ∈ Os.entries (fs w) d)) as [Hin|Hout].
    - apply lookup_foldr_delete. by apply elem_of_reverse.
    - apply lookup_foldr_delete_not_elem_of. by rewrite elem_of_reverse. }
  unfold Os.rmdir. unfold mbind, M_bind. unfold get_fs. simpl fs.
  rewrite Hlook. rewrite decide_False by done. rewrite Hd.
  rewrite entries_nil.
  - unfold set_fs, with_fs. simpl. do 2 f_equal.
    apply map_eq. intros p. rewrite lookup_released.
    destruct (decide (p = d)) as [->|Hne]; [by rewrite lookup_delete_eq|].
    rewrite lookup_delete_ne by done. rewrite Hlook.
    destruct (Os.is_entry d p) eqn:He.
    + destruct (decide (p ∈ Os.entries (fs w) d)) as [|Hout]; [done|].
      destruct (fs w !! p) eqn:Hp; [|done].
      destruct Hout. apply elem_of_entries. split; [done|]. by eexists.
    + rewrite decide_False; [done|]. intros [? _]%elem_of_entries. congruence.
  - intros p He. rewrite Hlook.
    destruct (decide (p ∈ Os.entries (fs w) d)) as [|Hout]; [done|].
    destruct (fs w !! p) eqn:Hp; [|done].
    destruct Hout. apply elem_of_entries. split; [done|]. by eexists.
Qed.

Lemma cleanup_missing d w :
  fs w !! d = None →
  cleanup d w =
    (Raise (PyErr FileNotFoundError ("[Errno 2] No such file or directory: '" +:+ d +:+ "'")), w).
Proof.
  intros Hd. unfold cleanup, Os.scandir, mbind, M_bind, get_fs. by rewrite Hd.
Qed.

(** A check of [holds_only_files] that runs. *)
Lemma holds_only_files_check (f : filesystem) (d : string) :
  f !! d = Some Dir →
  forallb (fun p => match f !! p with Some Dir => false | _ => true end) (Os.entries f d) = true →
  holds_only_files f d.
Proof.
  intros Hd Hall. split; [done|]. intros p He Hp.
  rewrite forallb_forall in Hall. specialize (Hall p).
  rewrite Hp in Hall. assert (false = true); [|done]. apply Hall.
  apply list_elem_of_In, elem_of_entries. split; [done|]. by eexists.
Qed.

Lemma staged_holds_only_files :
  holds_only_files (fs Sample.staged) ".temp_frames".
Proof. apply holds_only_files_check; vm_compute; reflexivity. Qed.

(** C8, as amended. On a staging directory that exists and holds only plain
    files, [cleanup] returns normally, removes the directory and every
    entry directly inside it, leaves every other path, the printed lines and
    the spawned commands as they were; a second call on the directory it
    has just removed raises [FileNotFoundError] and changes nothing. *)
Theorem cleanup_removes_once_then_raises (d : string) (w : World) :
  holds_only_files (fs w) d →
  ∃ w',
    cleanup d w = (Ok tt, w') ∧
    fs w' !! d = None ∧
    (∀ p, Os.is_entry d p = true → fs w' !! p = None) ∧
    (∀ p, p ≠ d → Os.is_entry d p = false → fs w' !! p = fs w !! p) ∧
    printed w' = printed w ∧ spawned w' = spawned w ∧
    cleanup d w' =
      (Raise (PyErr FileNotFoundError
                ("[Errno 2] No such file or directory: '" +:+ d +:+ "'")), w').
Proof.
  intros Hok. exists (with_fs w (released d (fs w))).
  assert (Hd : released d (fs w) !! d = None).
  { rewrite lookup_released. by rewrite decide_True. }
  split; [by apply cleanup_releases|].
  split; [done|].
  split.
  { intros p He. simpl. rewrite lookup_released. rewrite He. by case_decide. }
  split.
  { intros p Hne He. simpl. rewrite lookup_released, He. by rewrite decide_False. }
  split; [done|]. split; [done|].
  by apply cleanup_missing.
Qed.

(** The sample staging directory, with its two extracted frames. *)
Lemma cleanup_removes_once_then_raises_witness :
  ∃ w',
    cleanup ".temp_frames" Sample.staged = (Ok tt, w') ∧
    fs w' !! ".temp_frames" = None ∧
    (∀ p, Os.is_entry ".temp_frames" p = true → fs w' !! p = None) ∧
    (∀ p, p ≠ ".temp_frames" → Os.is_entry ".temp_frames" p = false →
          fs w' !! p = fs Sample.staged !! p) ∧
    printed w' = printed Sample.staged ∧ spawned w' = spawned Sample.staged ∧
    cleanup ".temp_frames" w' =
      (Raise (PyErr FileNotFoundError
                ("[Errno 2] No such file or directory: '" +:+ ".temp_frames" +:+ "'")), w').
Proof.
  apply (cleanup_removes_once_then_raises ".temp_frames" Sample.staged).
  exact staged_holds_only_files.
Defined.

(** C8 as stated fails: the first [cleanup] of the sample staging directory
    succeeds, and a second call on the directory just removed does not
    succeed; it raises [FileNotFoundError]. *)
Lemma cleanup_second_call_fails :
  fst (cleanup ".temp_frames" Sample.staged) = Ok tt ∧
  fst (cleanup ".temp_frames" (snd (cleanup ".temp_frames" Sample.staged))) =
    Raise (PyErr FileNotFoundError "[Errno 2] No such file or directory: '.temp_frames'") ∧
  fst (cleanup ".temp_frames" (snd (cleanup ".temp_frames" Sample.staged))) ≠ Ok tt.
Proof. vm_compute. repeat split; discriminate. Qed.

(** ** Interruption *)

(** C2, as amended. When the interruption arrives while the module-level
    [temp_dir] is bound to a staging directory that exists and holds only
    plain files, the handler sets the cancellation flag, removes the
    directory and everything directly inside it, touches no other path
    (so it writes no output file), spawns nothing, and leaves through
    [sys.exit(0)]: the exit status is 0. *)
Theorem signal_handler_releases_and_exits_0 (w : World) (d : string) :
  temp_dir w = Some d →
  holds_only_files (fs w) d →
  ∃ w',
    signal_handler w = (Raise (SystemExit 0), w') ∧
    exit_status (fst (signal_handler w)) = 0%Z ∧
    exit_event w' = true ∧
    fs w' !! d = None ∧
    (∀ p, Os.is_entry d p = true → fs w' !! p = None) ∧
    (∀ p, p ≠ d → Os.is_entry d p = false → fs w' !! p = fs w !! p) ∧
    spawned w' = spawned w.
Proof.
  intros Ht Hok. destruct w as [f pr sp ev td]. simpl in Ht, Hok. subst td.
  set (w1 := mkWorld f (pr ++ ["Ctrl+C received, cleaning up..."]) sp true (Some d)).
  assert (Hrun : signal_handler (mkWorld f pr sp ev (Some d)) =
                 (Raise (SystemExit 0), with_fs w1 (released d f))).
  { unfold signal_handler, mbind, M_bind, exit_event_set, print, global_temp_dir.
    cbn [fs printed spawned exit_event temp_dir]. fold w1.
    by rewrite (cleanup_releases d w1) by exact Hok. }
  exists (with_fs w1 (released d f)).
  split; [exact Hrun|].
  split; [by rewrite Hrun|].
  split; [done|].
  split; [simpl; rewrite lookup_released; by rewrite decide_True|].
  split.
  { intros p He. simpl. rewrite lookup_released, He. by case_decide. }
  split; [|done].
  intros p Hne He. simpl. rewrite lookup_released, He. by rewrite decide_False.
Qed.

(** An interruption in the middle of the sample run. *)
Lemma signal_handler_releases_and_exits_0_witness :
  ∃ w',
    signal_handler Sample.staged = (Raise (SystemExit 0), w') ∧
    exit_status (fst (signal_handler Sample.staged)) = 0%Z ∧
    exit_event w' = true ∧
    fs w' !! ".temp_frames" = None ∧
    (∀ p, Os.is_entry ".temp_frames" p = true → fs w' !! p = None) ∧
    (∀ p, p ≠ ".temp_frames" → Os.is_entry ".temp_frames" p = false →
          fs w' !! p = fs Sample.staged !! p) ∧
    spawned w' = spawned Sample.staged.
Proof.
  apply (signal_handler_releases_and_exits_0 Sample.staged ".temp_frames").
  - reflexivity.
  - exact staged_holds_only_files.
Defined.

(** C2 as stated fails: interrupted in the middle of a run, the handler
    does release the staging directory, but the exit status is not
    non-zero; it is 0. *)
Lemma signal_handler_status_not_nonzero :
  fs (snd (signal_handler Sample.staged)) !! ".temp_frames" = None ∧
  ¬ (exit_status (fst (signal_handler Sample.staged)) ≠ 0%Z).
Proof. vm_compute. split; [reflexivity|]. intros H. by apply H. Qed.

(** ** Stepping through the monad *)

Lemma bind_ok {A B} (c : M A) (k : A → M B) w a w' :
  c w = (Ok a, w') → (c ≫= k) w = k a w'.
Proof. intros H. unfold mbind, M_bind. by rewrite H. Qed.

Lemma bind_raise {A B} (c : M A) (k : A → M B) w e w' :
  c w = (Raise e, w') → (c ≫= k) w = (Raise e, w').
Proof. intros H. unfold mbind, M_bind. by rewrite H. Qed.

(** [cleanup] only ever removes paths; when it fails it fails with a
    builtin error, never with [SystemExit]. *)
Lemma remove_outcome p w :
  ∃ r w', Os.remove p w = (r, w') ∧
    (r = Ok tt ∨ ∃ c m, r = Raise (PyErr c m)) ∧
    fs w' ⊆ fs w ∧ printed w' = printed w ∧ spawned w' = spawned w.
Proof.
  unfold Os.remove, mbind, M_bind, get_fs.
  destruct (fs w !! p) as [[|]|] eqn:Hp; do 2 eexists; (split; [reflexivity|]).
  - split; [by left|]. split; [apply delete_subseteq|done].
  - split; [right; eauto|done].
  - split; [right; eauto|done].
Qed.

Lemma for_each_remove_outcome l : ∀ w,
  ∃ r w', for_each l Os.remove w = (r, w') ∧
    (r = Ok tt ∨ ∃ c m, r = Raise (PyErr c m)) ∧
    fs w' ⊆ fs w ∧ printed w' = printed w ∧ spawned w' = spawned w.
Proof.
  induction l as [|x l IH]; intros w.
  - exists (Ok tt), w. repeat split; auto.
  - cbn [for_each].
    destruct (remove_outcome x w) as (r1 & w1 & E1 & [->|(c & m & ->)] & S1 & P1 & Q1).
    + destruct (IH w1) as (r2 & w2 & E2 & O2 & S2 & P2 & Q2).
      exists r2, w2. rewrite (bind_ok _ _ _ _ _ E1). split; [exact E2|].
      split; [exact O2|]. split; [by etrans|]. split; congruence.
    + exists (Raise (PyErr c m)), w1. rewrite (bind_raise _ _ _ _ _ E1).
      split; [done|]. split; [right; eauto|done].
Qed.

Lemma cleanup_outcome d w :
  ∃ r w', cleanup d w = (r, w') ∧
    (r = Ok tt ∨ ∃ c m, r = Raise (PyErr c m)) ∧
    fs w' ⊆ fs w ∧ printed w' = printed w ∧ spawned w' = spawned w.
Proof.
  unfold cleanup.
  assert (Hscan : (∃ l, Os.scandir d w = (Ok l, w)) ∨
                  ∃ c m, Os.scandir d w = (Raise (PyErr c m), w)).
  { unfold Os.scandir, mbind, M_bind, get_fs.
    destruct (fs w !! d) as [[|]|]; [right|left|right]; eauto. }
  destruct Hscan as [[l E]|(c & m & E)].
  - rewrite (bind_ok _ _ _ _ _ E).
    destruct (for_each_remove_outcome l w) as (r1 & w1 & E1 & [->|(c & m & ->)] & S1 & P1 & Q1).
    + rewrite (bind_ok _ _ _ _ _ E1).
      unfold Os.rmdir, mbind, M_bind, get_fs.
      destruct (fs w1 !! d) as [[|]|] eqn:Hd.
      * do 2 eexists. split; [reflexivity|]. split; [right; eauto|done].
      * destruct (Os.entries (fs w1) d); do 2 eexists; (split; [reflexivity|]).
        -- split; [by left|]. split; [|done]. simpl. etrans; [apply delete_subseteq|done].
        -- split; [right; eauto|done].
      * do 2 eexists. split; [reflexivity|]. split; [right; eauto|done].
    + rewrite (bind_raise _ _ _ _ _ E1). do 2 eexists. split; [reflexivity|].
      split; [right; eauto|done].
  - rewrite (bind_raise _ _ _ _ _ E). do 2 eexists. split; [reflexivity|].
    split; [right; eauto|done].
Qed.

(** ** Completeness verification *)

Lemma missing_among_scan temp l : ∀ w,
  missing_among temp l w =
    (Ok (filter (fun i => Os.exists_ (fs w) (upscaled_path temp i) = false) l), w).
Proof.
  induction l as [|i l IH]; intros w; [done|].
  cbn [missing_among]. unfold mbind, M_bind at 1.
  unfold Os.path_exists, mbind, M_bind at 1. unfold get_fs, mret, M_ret at 1.
  unfold mbind, M_bind at 1. rewrite IH. unfold mret, M_ret.
  rewrite filter_cons. fold (upscaled_path temp i).
  destruct (Os.exists_ (fs w) (upscaled_path temp i)) eqn:E; reflexivity.
Qed.

Lemma get_fps_of_file env input w :
  Os.isfile_ (fs w) input = true →
  get_fps env input w = (Ok (probed_fps env (fs w) input), w).
Proof.
  intros Hf. unfold get_fps, Os.path_isfile, video_capture, mbind, M_bind, get_fs, mret, M_ret.
  by rewrite Hf.
Qed.

Lemma StronglySorted_lt_seq j n : StronglySorted lt (seq j n).
Proof.
  revert j. induction n as [|n IH]; intros j; simpl; constructor; [apply IH|].
  apply Forall_forall. intros k Hk%elem_of_seq. lia.
Qed.

Lemma StronglySorted_lt_filter (P : nat → Prop) `{∀ i, Decision (P i)} l :
  StronglySorted lt l → StronglySorted lt (filter P l).
Proof.
  induction 1 as [|x l Hl IH Hx]; [constructor|].
  rewrite filter_cons. destruct (decide (P x)); [|done].
  constructor; [done|].
  apply Forall_forall. intros k [_ Hk]%list_elem_of_filter.
  rewrite Forall_forall in Hx. by apply Hx.
Qed.

(** With an upscaled frame missing, [encode_video] stops before ffmpeg. *)
Lemma encode_video_incomplete env input out temp total_frames args verbose w :
  Os.isfile_ (fs w) input = true →
  filter (fun i => Os.exists_ (fs w) (upscaled_path temp i) = false) (seq 0 total_frames) ≠ [] →
  ∃ e w',
    encode_video env input out temp total_frames args verbose w = (Raise e, w') ∧
    exit_status (A:=unit) (Raise e) ≠ 0%Z ∧
    spawned w' = spawned w ∧
    fs w' ⊆ fs w ∧
    (holds_only_files (fs w) temp →
       e = SystemExit 1 ∧ fs w' = released temp (fs w)).
Proof.
  set (P := fun i => Os.exists_ (fs w) (upscaled_path temp i) = false).
  intros Hfile Hne.
  unfold encode_video.
  rewrite (bind_ok _ _ _ _ _ (get_fps_of_file env input w Hfile)).
  unfold get_missing_frames at 1.
  rewrite (bind_ok _ _ _ _ _ (missing_among_scan temp (seq 0 total_frames) w)).
  fold P.
  assert (Hlen : negb (Nat.eqb (length (filter P (seq 0 total_frames))) 0) = true).
  { destruct (filter P (seq 0 total_frames)); [done|reflexivity]. }
  rewrite Hlen. cbn [when].
  set (line := if (10 <? length (filter P (seq 0 total_frames)))%nat then _ else _).
  assert (Hline : ∃ text, line w = (Ok tt, mkWorld (fs w) (printed w ++ [text]) (spawned w)
                                              (exit_event w) (temp_dir w))).
  { unfold line. destruct (10 <? _)%nat; eexists; reflexivity. }
  destruct Hline as [text Hline]. clear Hlen.
  set (w1 := mkWorld (fs w) (printed w ++ [text]) (spawned w) (exit_event w) (temp_dir w)) in *.
  destruct (cleanup_outcome temp w1) as (r & w2 & Ec & Hr & Hsub & _ & Hsp).
  destruct Hr as [->|(c & m & ->)].
  - exists (SystemExit 1), w2.
    split.
    { apply bind_raise. rewrite (bind_ok _ _ _ _ _ Hline).
      by rewrite (bind_ok _ _ _ _ _ Ec). }
    split; [done|]. split; [done|]. split; [done|].
    intros Hok. split; [done|].
    rewrite (cleanup_releases temp w1 Hok) in Ec. by inversion Ec.
  - exists (PyErr c m), w2.
    split.
    { apply bind_raise. rewrite (bind_ok _ _ _ _ _ Hline).
      by rewrite (bind_raise _ _ _ _ _ Ec). }
    split; [done|]. split; [done|]. split; [done|].
    intros Hok. rewrite (cleanup_releases temp w1 Hok) in Ec. by inversion Ec.
Qed.

(** C5. [get_missing_frames] changes nothing in the world and returns the
    ascending list of exactly the indices below [total_frames] whose
    upscaled file does not exist; the list is empty exactly when every
    expected upscaled file exists.  When it is not empty, [encode_video]
    (reached with an input that is a file) ends the run: it raises, the
    exit status is not 0, ffmpeg is never spawned and no path is created;
    on a staging directory holding only files the directory and its
    entries are removed and the run leaves through [sys.exit(1)]. *)
Theorem get_missing_frames_complete (env : Env) (total_frames : nat)
    (temp : string) (w : World) :
  ∃ missing,
    get_missing_frames total_frames temp w = (Ok missing, w) ∧
    (∀ i, i ∈ missing ↔
          i < total_frames ∧ Os.exists_ (fs w) (upscaled_path temp i) = false) ∧
    StronglySorted lt missing ∧
    (missing = [] ↔
       ∀ i, i < total_frames → Os.exists_ (fs w) (upscaled_path temp i) = true) ∧
    (missing ≠ [] →
       ∀ input out args verbose,
         Os.isfile_ (fs w) input = true →
         ∃ e w',
           encode_video env input out temp total_frames args verbose w = (Raise e, w') ∧
           exit_status (A:=unit) (Raise e) ≠ 0%Z ∧
           spawned w' = spawned w ∧
           fs w' ⊆ fs w ∧
           (holds_only_files (fs w) temp →
              e = SystemExit 1 ∧ fs w' = released temp (fs w))).
Proof.
  set (P := fun i => Os.exists_ (fs w) (upscaled_path temp i) = false).
  exists (filter P (seq 0 total_frames)).
  assert (Hmem : ∀ i, i ∈ filter P (seq 0 total_frames) ↔ i < total_frames ∧ P i).
  { intros i. rewrite list_elem_of_filter, elem_of_seq. unfold P. intuition lia. }
  split; [apply missing_among_scan|].
  split; [intros i; rewrite Hmem; done|].
  split; [apply StronglySorted_lt_filter, StronglySorted_lt_seq|].
  split.
  { split.
    - intros Hnil i Hi. destruct (Os.exists_ (fs w) (upscaled_path temp i)) eqn:E; [done|].
      assert (Hin : i ∈ filter P (seq 0 total_frames)) by (apply Hmem; done).
      rewrite Hnil in Hin. by apply elem_of_nil in Hin.
    - intros Hall. destruct (filter P (seq 0 total_frames)) as [|i l] eqn:E; [done|].
      assert (Hin : i ∈ i :: l) by left.
      apply Hmem in Hin as [Hi HP]. unfold P in HP. rewrite (Hall i Hi) in HP. done. }
  intros Hne input out args verbose Hfile.
  by apply encode_video_incomplete.
Qed.

(** The sample staging directory before any frame was upscaled: both
    indices are missing and [encode_video] stops the run. *)
Lemma get_missing_frames_complete_witness :
  get_missing_frames 2 ".temp_frames" Sample.staged = (Ok [0; 1], Sample.staged) ∧
  ∃ w',
    encode_video (Sample.env_with Sample.failing_ffmpeg) "clip.mp4" "clip_upscaled_XBR2x.mp4"
      ".temp_frames" 2 "" false Sample.staged = (Raise (SystemExit 1), w') ∧
    spawned w' = spawned Sample.staged ∧
    fs w' = released ".temp_frames" (fs Sample.staged).
Proof.
  destruct (get_missing_frames_complete (Sample.env_with Sample.failing_ffmpeg) 2
              ".temp_frames" Sample.staged)
    as (missing & Hscan & _ & _ & _ & Hfatal).
  assert (Hmissing : missing = [0; 1]).
  { vm_compute in Hscan. by injection Hscan as <-. }
  subst missing. split; [exact Hscan|].
  destruct (Hfatal ltac:(discriminate) "clip.mp4" "clip_upscaled_XBR2x.mp4" "" false
              ltac:(vm_compute; reflexivity))
    as (e & w' & Hrun & _ & Hspawned & _ & Hreleased).
  destruct (Hreleased staged_holds_only_files) as [-> Hfs].
  exists w'. split; [exact Hrun|]. split; [exact Hspawned|exact Hfs].
Defined.

(** ** Output naming *)

Lemma string_length_app (s t : string) :
  String.length (s +:+ t) = String.length s + String.length t.
Proof. induction s as [|c s IH]; simpl; [done|]. by rewrite IH. Qed.

Lemma string_app_inv_tail (s s' u : string) : s +:+ u = s' +:+ u → s = s'.
Proof.
  revert s'. induction s as [|c s IH]; intros [|c' s'] H; simpl in H.
  - done.
  - apply (f_equal String.length) in H. simpl in H. rewrite ?string_length_app in H. simpl in H. lia.
  - apply (f_equal String.length) in H. simpl in H. rewrite ?string_length_app in H. simpl in H. lia.
  - injection H as -> H. f_equal. by apply IH.
Qed.

Lemma numbered_inj filename ext : Inj (=) (=) (numbered filename ext).
Proof.
  intros j k H. unfold numbered in H.
  apply (inj (String.append filename)) in H. injection H as H.
  change (PyStr.of_nat j +:+ ")" +:+ ext = PyStr.of_nat k +:+ ")" +:+ ext) in H.
  apply string_app_inv_tail in H. unfold PyStr.of_nat in H.
  by apply (inj pretty) in H.
Qed.

Lemma no_overwrite_loop_some f filename ext fuel : ∀ counter out r,
  no_overwrite_loop f filename ext fuel counter out = Some r →
  Os.exists_ f r = false ∧
  ((Os.exists_ f out = false ∧ r = out) ∨
   (Os.exists_ f out = true ∧
    ∃ k, counter ≤ k ∧ r = numbered filename ext k ∧
         ∀ j, counter ≤ j < k → Os.exists_ f (numbered filename ext j) = true)).
Proof.
  induction fuel as [|fuel IH]; intros counter out r H; simpl in H.
  - destruct (Os.exists_ f out) eqn:E; [done|]. injection H as <-. auto.
  - destruct (Os.exists_ f out) eqn:E.
    + apply IH in H as [Hr Hcase]. split; [done|]. right. split; [done|].
      fold (numbered filename ext counter) in Hcase.
      destruct Hcase as [[Hfree ->]|[Htaken (k & Hk & -> & Hbelow)]].
      * exists counter. split; [done|]. split; [done|]. intros j Hj. lia.
      * exists k. split; [lia|]. split; [done|]. intros j Hj.
        destruct (decide (j = counter)) as [->|]; [done|]. apply Hbelow. lia.
    + injection H as <-. auto.
Qed.

Lemma no_overwrite_loop_none f filename ext fuel : ∀ counter out,
  no_overwrite_loop f filename ext fuel counter out = None →
  ∀ j, counter ≤ j < counter + fuel → Os.exists_ f (numbered filename ext j) = true.
Proof.
  induction fuel as [|fuel IH]; intros counter out H j Hj; [lia|].
  simpl in H. destruct (Os.exists_ f out) eqn:E; [|done].
  fold (numbered filename ext counter) in H.
  destruct (decide (j = counter)) as [->|Hne].
  - destruct fuel; simpl in H; by destruct (Os.exists_ f (numbered filename ext counter)).
  - apply (IH _ _ H). lia.
Qed.

(** More distinct names than the filesystem has paths cannot all exist. *)
Lemma not_all_numbered_exist (f : filesystem) filename ext :
  ¬ ∀ j, 1 ≤ j < 1 + S (size f) → Os.exists_ f (numbered filename ext j) = true.
Proof.
  intros Hall.
  set (l := numbered filename ext <$> seq 1 (S (size f))).
  assert (Hnd : NoDup l).
  { pose proof (numbered_inj filename ext) as Hinj.
    apply (NoDup_fmap_2 _), NoDup_seq. }
  assert (Hsub : (list_to_set l : gset string) ⊆ dom f).
  { intros p Hp. apply elem_of_list_to_set in Hp.
    apply list_elem_of_fmap in Hp as (j & -> & Hj). apply elem_of_seq in Hj.
    apply elem_of_dom. specialize (Hall j ltac:(lia)). unfold Os.exists_ in Hall.
    destruct (f !! numbered filename ext j); [by eexists|done]. }
  apply subseteq_size in Hsub.
  rewrite size_list_to_set in Hsub by done.
  rewrite size_dom in Hsub. unfold l in Hsub.
  rewrite length_fmap, length_seq in Hsub. lia.
Qed.

Lemma no_overwrite_on_total (f : filesystem) (out : string) :
  is_Some (no_overwrite_on f out).
Proof.
  unfold no_overwrite_on. destruct (OsPath.splitext out) as [filename ext].
  destruct (no_overwrite_loop f filename ext (S (size f)) 1 out) eqn:E; [by eexists|].
  destruct (not_all_numbered_exist f filename ext).
  by apply (no_overwrite_loop_none _ _ _ _ _ _ E).
Qed.

Lemma string_app_assoc (a b c : string) : (a +:+ b) +:+ c = a +:+ b +:+ c.
Proof.
  induction a as [|x a IH]; [done|].
  change (String x ((a +:+ b) +:+ c) = String x (a +:+ b +:+ c)). by rewrite IH.
Qed.

Lemma contains_app c (x y : string) :
  contains c (x +:+ y) = (contains c x || contains c y)%bool.
Proof. induction x as [|d x IH]; simpl; [done|]. rewrite IH. by rewrite orb_assoc. Qed.

Lemma rfind_absent c s : contains c s = false → OsPath.rfind c s = None.
Proof.
  induction s as [|d s IH]; simpl; [done|].
  intros [Hd Hs]%orb_false_iff. by rewrite (IH Hs), Hd.
Qed.

Lemma rfind_app_absent c (x y : string) :
  contains c y = false → OsPath.rfind c (x +:+ y) = OsPath.rfind c x.
Proof.
  intros Hy. induction x as [|d x IH]; simpl.
  - by apply rfind_absent.
  - by rewrite IH.
Qed.

Lemma rfind_app_last c (x y : string) :
  contains c y = false →
  OsPath.rfind c (x +:+ String c y) = Some (String.length x).
Proof.
  intros Hy. induction x as [|d x IH]; simpl.
  - rewrite (rfind_absent _ _ Hy). by rewrite Ascii.eqb_refl.
  - by rewrite IH.
Qed.

Lemma rfind_lt c s k : OsPath.rfind c s = Some k → k < String.length s.
Proof.
  revert k. induction s as [|d s IH]; intros k; simpl; [done|].
  destruct (OsPath.rfind c s) as [j|].
  - intros [= <-]. specialize (IH j eq_refl). lia.
  - destruct (Ascii.eqb d c); intros [= <-]. lia.
Qed.

Lemma take_app_length (a r : string) : OsPath.take (String.length a) (a +:+ r) = a.
Proof. induction a as [|x a IH]; simpl; [by destruct r|]. by rewrite IH. Qed.

Lemma drop_app_length (a r : string) : OsPath.drop (String.length a) (a +:+ r) = r.
Proof. induction a as [|x a IH]; simpl; [by destruct r|]. done. Qed.

Lemma has_non_dot_found (p : string) i ch : ∀ len from,
  from ≤ i < from + len → String.get i p = Some ch → ch ≠ "."%char →
  OsPath.has_non_dot p from len = true.
Proof.
  induction len as [|len IH]; intros from Hi Hget Hch; [lia|].
  simpl. destruct (String.get from p) as [c'|] eqn:E; [|done].
  destruct (Ascii.eqb c' ".") eqn:Ec; [|done].
  apply Ascii.eqb_eq in Ec as ->.
  apply IH; [|done|done].
  destruct (decide (i = from)) as [->|]; [congruence|lia].
Qed.

(** With an algorithm, a magnification and a container free of [/], and a
    container free of [.], the extension [os.path.splitext] finds in the
    derived name is the container's. *)
Lemma splitext_output_name (input algorithm magnification_factor container : string) :
  contains "/" algorithm = false → contains "/" magnification_factor = false →
  contains "/" container = false → contains "." container = false →
  OsPath.splitext (output_name input algorithm magnification_factor container) =
    ((OsPath.splitext input).1 +:+ "_upscaled_" +:+ algorithm +:+ magnification_factor +:+ "x",
     "." +:+ container).
Proof.
  intros Ha Hm Hc Hd. unfold output_name.
  set (stem := (OsPath.splitext input).1).
  set (A := stem +:+ "_upscaled_" +:+ algorithm +:+ magnification_factor +:+ "x").
  set (tl := "_upscaled_" +:+ algorithm +:+ magnification_factor +:+ "x." +:+ container).
  assert (Hname : stem +:+ tl = A +:+ String "." container).
  { unfold A, tl. rewrite !string_app_assoc. reflexivity. }
  assert (Hslash : contains "/" tl = false).
  { unfold tl. rewrite !contains_app, Ha, Hm. simpl. by rewrite Hc. }
  assert (Hlen : String.length stem < String.length A).
  { unfold A. rewrite !string_length_app. simpl. lia. }
  assert (Hget : String.get (String.length stem) (stem +:+ tl) = Some "_"%char).
  { change (String.length stem) with (0 + String.length stem).
    rewrite <- (String.append_correct2 stem tl 0). done. }
  change (OsPath.splitext (stem +:+ tl) = (A, "." +:+ container)).
  unfold OsPath.splitext.
  rewrite (rfind_app_absent "/" stem tl Hslash).
  rewrite Hname at 1. rewrite (rfind_app_last "." A container Hd).
  assert (Hidx : match OsPath.rfind "/" stem with Some k => S k | None => 0 end
                 ≤ String.length stem).
  { destruct (OsPath.rfind "/" stem) as [k|] eqn:E; [|lia]. apply rfind_lt in E. lia. }
  set (idx := match OsPath.rfind "/" stem with Some k => S k | None => 0 end) in *.
  rewrite (proj2 (Nat.leb_le _ _)) by lia.
  rewrite (has_non_dot_found _ (String.length stem) "_"%char); [|lia|done|done].
  rewrite Hname. by rewrite take_app_length, drop_app_length.
Qed.

(** C6. The name handed to [no_overwrite] is
    [{input_stem}_upscaled_{algorithm}{magnification}x.{container}]; on the
    usual configuration (no [/] in algorithm, magnification or container,
    no [.] in the container) [os.path.splitext] cuts it just before
    [.{container}].  [no_overwrite] always returns, changes nothing, and its
    result does not exist: it is the derived name itself when that does not
    exist, and otherwise the name with [(k)] inserted before the extension,
    for the smallest [k >= 1] whose numbered name does not exist. *)
Theorem no_overwrite_smallest_counter
    (input algorithm magnification_factor container : string) (w : World) :
  let name := output_name input algorithm magnification_factor container in
  let root := (OsPath.splitext name).1 in
  let ext := (OsPath.splitext name).2 in
  name = (OsPath.splitext input).1 +:+ "_upscaled_" +:+ algorithm +:+
           magnification_factor +:+ "x." +:+ container ∧
  (contains "/" algorithm = false → contains "/" magnification_factor = false →
   contains "/" container = false → contains "." container = false →
   root = (OsPath.splitext input).1 +:+ "_upscaled_" +:+ algorithm +:+
            magnification_factor +:+ "x" ∧
   ext = "." +:+ container) ∧
  ∃ r,
    no_overwrite name w = (Ok r, w) ∧
    Os.exists_ (fs w) r = false ∧
    (Os.exists_ (fs w) name = false → r = name) ∧
    (Os.exists_ (fs w) name = true →
       ∃ k, 1 ≤ k ∧ r = numbered root ext k ∧
            ∀ j, 1 ≤ j < k → Os.exists_ (fs w) (numbered root ext j) = true).
Proof.
  intros name root ext. split; [reflexivity|]. split.
  { intros Ha Hm Hc Hd. unfold root, ext, name.
    by rewrite (splitext_output_name _ _ _ _ Ha Hm Hc Hd). }
  destruct (no_overwrite_on_total (fs w) name) as [r Hr].
  exists r. split.
  { unfold no_overwrite, mbind, M_bind, get_fs. by rewrite Hr. }
  unfold no_overwrite_on in Hr. subst root ext.
  destruct (OsPath.splitext name) as [filename file_extension]. simpl.
  apply no_overwrite_loop_some in Hr as [Hfree Hcase].
  split; [done|].
  destruct Hcase as [[Hno ->]|[Hyes Hk]].
  - split; [done|]. intros H. congruence.
  - split; [intros H; congruence|]. intros _. exact Hk.
Qed.

Example no_overwrite_third_run :
  no_overwrite (output_name "clip.mp4" "XBR" "2" "mp4")
    (mkWorld {[ "clip.mp4" := File; "clip_upscaled_XBR2x.mp4" := File;
                "clip_upscaled_XBR2x(1).mp4" := File ]} [] [] false None)
  = (Ok "clip_upscaled_XBR2x(2).mp4",
     mkWorld {[ "clip.mp4" := File; "clip_upscaled_XBR2x.mp4" := File;
                "clip_upscaled_XBR2x(1).mp4" := File ]} [] [] false None).
Proof. vm_compute. reflexivity. Qed.

(** ** Which commands are spawned *)

Lemma keeps_mret {A} (a : A) : keeps_spawned (mret a).
Proof. done. Qed.

Lemma keeps_raise {A} e : keeps_spawned (raise (A:=A) e).
Proof. done. Qed.

Lemma keeps_print line : keeps_spawned (print line).
Proof. done. Qed.

Lemma keeps_bind {A B} (c : M A) (k : A → M B) :
  keeps_spawned c → (∀ a, keeps_spawned (k a)) → keeps_spawned (c ≫= k).
Proof.
  intros Hc Hk w. unfold mbind, M_bind. specialize (Hc w).
  destruct (c w) as [[a|e] w1]; simpl in *; [|done].
  by rewrite Hk.
Qed.

Lemma keeps_when b c : keeps_spawned c → keeps_spawned (when b c).
Proof. intros Hc. destruct b; [done|]. apply keeps_mret. Qed.

Lemma keeps_decode b : keeps_spawned (decode b).
Proof. by destruct b. Qed.

Lemma keeps_read_local {A} name (v : option A) : keeps_spawned (read_local name v).
Proof. by destruct v. Qed.

Lemma keeps_cleanup d : keeps_spawned (cleanup d).
Proof.
  intros w. destruct (cleanup_outcome d w) as (r & w' & E & _ & _ & _ & H).
  by rewrite E.
Qed.

Lemma keeps_try_except {A} (c : M A) h :
  keeps_spawned c → (∀ e, keeps_spawned (h e)) → keeps_spawned (try_except c h).
Proof.
  intros Hc Hh w. unfold try_except. specialize (Hc w).
  destruct (c w) as [[a|e] w1]; simpl in *; [done|]. by rewrite Hh.
Qed.

Lemma try_except_spawned {A} (c : M A) h w :
  (∀ e, keeps_spawned (h e)) →
  spawned (try_except c h w).2 = spawned (c w).2.
Proof.
  intros Hh. unfold try_except.
  destruct (c w) as [[a|e] w1]; simpl; [done|]. by rewrite Hh.
Qed.

Create HintDb keeps.

#[local] Hint Resolve keeps_mret keeps_raise keeps_print keeps_bind keeps_when
  keeps_decode keeps_read_local keeps_cleanup keeps_try_except : keeps.

Lemma keeps_upscale_frame_except i temp verbose cmd e :
  keeps_spawned (upscale_frame_except i temp verbose cmd e).
Proof.
  destruct e; simpl; unfold sys_exit; eauto 20 with keeps.
Qed.

Lemma keeps_encode_video_except verbose cmd e :
  keeps_spawned (encode_video_except verbose cmd e).
Proof.
  destruct e; simpl; eauto 20 with keeps.
Qed.

(** [subprocess.run] records its command whatever the process does. *)
Lemma subprocess_run_spawned env cmd w :
  spawned (subprocess_run env cmd w).2 = spawned w ++ [cmd].
Proof.
  unfold subprocess_run. destruct (spawn env cmd (fs w)) as [[rc out err|cls msg] f'].
  - by destruct (rc =? 0)%Z.
  - done.
Qed.

Lemma spawn_then_keeps {B} env cmd (k : captured * captured → M B) w :
  (∀ a, keeps_spawned (k a)) →
  spawned ((subprocess_run env cmd ≫= k) w).2 = spawned w ++ [cmd].
Proof.
  intros Hk. unfold mbind, M_bind.
  pose proof (subprocess_run_spawned env cmd w) as Hs.
  destruct (subprocess_run env cmd w) as [[a|e] w1]; simpl in *; [|done].
  by rewrite Hk.
Qed.

Lemma upscale_frame_spawned env i temp path s mf alg res verbose w :
  spawned (upscale_frame env i temp path s mf alg res verbose w).2 =
  spawned w ++ planned_upscale env i temp path s mf alg res.
Proof.
  destruct res as [ow oh].
  unfold upscale_frame, planned_upscale, scaled, int_times_float, py_int. simpl fst. simpl snd.
  destruct (PyFloat.of_int ow) as [fw|]; [|by rewrite app_nil_r].
  unfold mbind at 1, M_bind at 1, mret at 1, M_ret at 1.
  unfold mbind at 1, M_bind at 1.
  destruct (PyFloat.to_int (PyFloat.mul fw s)) as [[|]|W]; [by rewrite app_nil_r..|].
  unfold mret at 1, M_ret at 1.
  destruct (PyFloat.of_int oh) as [fh|]; [|by rewrite app_nil_r].
  unfold mbind at 1, M_bind at 1, mret at 1, M_ret at 1.
  unfold mbind at 1, M_bind at 1.
  destruct (PyFloat.to_int (PyFloat.mul fh s)) as [[|]|H]; [by rewrite app_nil_r..|].
  unfold mret at 1, M_ret at 1.
  unfold mbind at 1, M_bind at 1, attempt, py_float.
  destruct (float_of_string env mf) as [m|].
  - unfold mret at 1, M_ret at 1.
    rewrite try_except_spawned by apply keeps_upscale_frame_except.
    fold (frame_path temp i). fold (upscaled_path temp i).
    set (cmd := upscale_cmd _ _ _ _ _ _ _ _ _).
    destruct verbose; cbn [when].
    + rewrite (bind_ok (print ("Running command: " +:+ PyStr.join " " cmd)) _ w tt _ eq_refl).
      rewrite spawn_then_keeps; [done|]. intros a. eauto 20 with keeps.
    + rewrite (bind_ok (mret tt) _ w tt w eq_refl).
      rewrite spawn_then_keeps; [done|]. intros a. eauto 20 with keeps.
  - unfold raise at 1. rewrite keeps_upscale_frame_except. by rewrite app_nil_r.
Qed.

(** ** The upscale command *)

(** [int(x)] truncates toward zero: on a finite float with a negative
    exponent it is the quotient, rounded toward zero, of the signed
    mantissa by the power of two. *)
Lemma to_int_truncates (sign : bool) (m p : positive) :
  PyFloat.to_int (S754_finite sign m (Zneg p)) =
    inr (Z.quot (if sign then Z.neg m else Z.pos m) (2 ^ Z.pos p)).
Proof.
  unfold PyFloat.to_int. f_equal.
  rewrite Z.shiftr_div_pow2 by lia.
  assert (Hpow : (0 < 2 ^ Z.pos p)%Z) by (apply Z.pow_pos_nonneg; lia).
  destruct sign.
  - change (Z.neg m) with (- Z.pos m)%Z. rewrite Z.quot_opp_l by lia.
    f_equal. symmetry. apply Z.quot_div_nonneg; lia.
  - symmetry. apply Z.quot_div_nonneg; lia.
Qed.

Lemma size_text_has_x (width height : Z) (t : string) :
  contains "x" t = false → String.eqb t (PyStr.of_Z width +:+ "x" +:+ PyStr.of_Z height) = false.
Proof.
  intros Ht. apply String.eqb_neq. intros ->.
  rewrite !contains_app in Ht. simpl in Ht. by rewrite orb_true_r in Ht.
Qed.

Lemma includes_resize_short (path in_frame option_text out_frame size : string) :
  String.eqb "/load" size = false → String.eqb "auto" size = false →
  String.eqb "/save" size = false →
  includes_resize [path; "/load"; in_frame; "/resize"; "auto"; option_text;
                   "/save"; out_frame] size = false.
Proof.
  intros E1 E2 E3. cbn [includes_resize]. rewrite E1, E2, E3.
  change (String.eqb "/load" "/resize") with false.
  change (String.eqb "auto" "Lanczos") with false.
  change (String.eqb "auto" "/resize") with false.
  change (String.eqb "/resize" "/resize") with true.
  by rewrite !andb_false_r.
Qed.

Lemma includes_resize_long (path in_frame option_text out_frame size : string) :
  includes_resize [path; "/load"; in_frame; "/resize"; "auto"; option_text;
                   "/resize"; size; "Lanczos"; "/save"; out_frame] size = true.
Proof.
  cbn [includes_resize]. rewrite (String.eqb_refl size).
  change (String.eqb "/resize" "/resize") with true.
  change (String.eqb "Lanczos" "Lanczos") with true.
  cbn [andb]. by rewrite !orb_true_r.
Qed.

(** C4. Whenever [upscale_frame] gets as far as building a command (the two
    target sizes [int(width * scale_factor)] and [int(height * scale_factor)]
    and [float(magnification_factor)] are defined), it spawns exactly one
    command, for every frame index and either verbosity; that command holds
    the secondary resize [/resize {W}x{H} Lanczos] to the truncated target
    size if and only if [scale_factor != float(magnification_factor)], and
    is the plain load/resize/save command when the two are equal. *)
Theorem upscale_frame_secondary_resize (env : Env) (i : nat) (temp path : string)
    (scale_factor : PyFloat.float) (magnification_factor algorithm : string)
    (width height : Z) (verbose : bool) (w : World)
    (W H : Z) (magnification : PyFloat.float) :
  scaled width scale_factor = Some W →
  scaled height scale_factor = Some H →
  float_of_string env magnification_factor = Some magnification →
  ∃ cmd,
    spawned (upscale_frame env i temp path scale_factor magnification_factor algorithm
               (width, height) verbose w).2 = spawned w ++ [cmd] ∧
    (secondary_resize cmd W H = true ↔ PyFloat.neqb scale_factor magnification = true) ∧
    (PyFloat.neqb scale_factor magnification = true →
       cmd = [path; "/load"; frame_path temp i; "/resize"; "auto";
              algorithm +:+ " " +:+ magnification_factor +:+ "x";
              "/resize"; PyStr.of_Z W +:+ "x" +:+ PyStr.of_Z H; "Lanczos";
              "/save"; upscaled_path temp i]) ∧
    (PyFloat.neqb scale_factor magnification = false →
       cmd = [path; "/load"; frame_path temp i; "/resize"; "auto";
              algorithm +:+ " " +:+ magnification_factor +:+ "x";
              "/save"; upscaled_path temp i]).
Proof.
  intros HW HH Hm.
  exists (upscale_cmd path (frame_path temp i) (upscaled_path temp i) algorithm
            magnification_factor scale_factor magnification W H).
  split.
  { rewrite upscale_frame_spawned. unfold planned_upscale. simpl.
    by rewrite HW, HH, Hm. }
  unfold upscale_cmd, secondary_resize.
  destruct (PyFloat.neqb scale_factor magnification).
  - split; [|done]. split; [done|]. intros _. apply includes_resize_long.
  - split; [|done]. split; [|done]. intros Hin.
    rewrite includes_resize_short in Hin; [done|..]; by apply size_text_has_x.
Qed.

(** Frame 0 of the 640x480 sample at 150 percent with a 2x algorithm: the
    secondary resize goes to 960x720. *)
Lemma upscale_frame_secondary_resize_witness :
  ∃ cmd,
    spawned (upscale_frame (Sample.env_with Sample.failing_ffmpeg) 0 ".temp_frames"
               "ImageResizer.exe" (PyFloat.div (Sample.float_of_Z 150) PyFloat.hundred)
               "2" "XBR" (640%Z, 480%Z) false Sample.staged).2
      = spawned Sample.staged ++ [cmd] ∧
    (secondary_resize cmd 960 720 = true ↔
     PyFloat.neqb (PyFloat.div (Sample.float_of_Z 150) PyFloat.hundred)
                  (Sample.float_of_Z 2) = true) ∧
    (PyFloat.neqb (PyFloat.div (Sample.float_of_Z 150) PyFloat.hundred)
                  (Sample.float_of_Z 2) = true →
       cmd = ["ImageResizer.exe"; "/load"; frame_path ".temp_frames" 0; "/resize"; "auto";
              "XBR" +:+ " " +:+ "2" +:+ "x";
              "/resize"; PyStr.of_Z 960 +:+ "x" +:+ PyStr.of_Z 720; "Lanczos";
              "/save"; upscaled_path ".temp_frames" 0]) ∧
    (PyFloat.neqb (PyFloat.div (Sample.float_of_Z 150) PyFloat.hundred)
                  (Sample.float_of_Z 2) = false →
       cmd = ["ImageResizer.exe"; "/load"; frame_path ".temp_frames" 0; "/resize"; "auto";
              "XBR" +:+ " " +:+ "2" +:+ "x";
              "/save"; upscaled_path ".temp_frames" 0]).
Proof.
  apply (upscale_frame_secondary_resize (Sample.env_with Sample.failing_ffmpeg) 0
           ".temp_frames" "ImageResizer.exe"
           (PyFloat.div (Sample.float_of_Z 150) PyFloat.hundred) "2" "XBR"
           640 480 false Sample.staged 960 720 (Sample.float_of_Z 2)).
  - vm_compute. reflexivity.
  - vm_compute. reflexivity.
  - vm_compute. reflexivity.
Defined.

Example upscale_cmd_equal_factors :
  planned_upscale (Sample.env_with Sample.failing_ffmpeg) 1 ".temp_frames" "ImageResizer.exe"
    (PyFloat.div (Sample.float_of_Z 200) PyFloat.hundred) "2" "XBR" (640%Z, 480%Z)
  = [["ImageResizer.exe"; "/load"; ".temp_frames/frame_00001.png"; "/resize"; "auto";
      "XBR 2x"; "/save"; ".temp_frames/frame_00001_up.png"]].
Proof. vm_compute. reflexivity. Qed.

Example upscale_cmd_other_factor :
  planned_upscale (Sample.env_with Sample.failing_ffmpeg) 1 ".temp_frames" "ImageResizer.exe"
    (PyFloat.div (Sample.float_of_Z 150) PyFloat.hundred) "2" "XBR" (640%Z, 480%Z)
  = [["ImageResizer.exe"; "/load"; ".temp_frames/frame_00001.png"; "/resize"; "auto";
      "XBR 2x"; "/resize"; "960x720"; "Lanczos";
      "/save"; ".temp_frames/frame_00001_up.png"]].
Proof. vm_compute. reflexivity. Qed.

(** ** The reassembly command *)

Lemma encode_video_spawned env input out temp total_frames args verbose w :
  spawned (encode_video env input out temp total_frames args verbose w).2 =
  spawned w ++ planned_encode env (fs w) input out temp total_frames args.
Proof.
  unfold planned_encode. destruct (Os.isfile_ (fs w) input) eqn:Hfile.
  - destruct (filter _ (seq 0 total_frames)) as [|i0 l0] eqn:Hmiss.
    + unfold encode_video.
      rewrite (bind_ok _ _ _ _ _ (get_fps_of_file env input w Hfile)).
      unfold get_missing_frames at 1.
      rewrite (bind_ok _ _ _ _ _ (missing_among_scan temp (seq 0 total_frames) w)).
      rewrite Hmiss. cbn [length Nat.eqb negb when].
      rewrite (bind_ok (mret tt) _ w tt w eq_refl).
      fold (probed_fps env (fs w) input). unfold ffmpeg_command.
      destruct (negb (String.eqb args "")).
      * rewrite (bind_ok (mret _) _ w _ w eq_refl).
        rewrite try_except_spawned by apply keeps_encode_video_except.
        destruct verbose.
        -- rewrite (bind_ok (print _) _ w tt _ eq_refl).
           rewrite spawn_then_keeps; [done|]. intros a. eauto 20 with keeps.
        -- rewrite spawn_then_keeps; [done|]. intros a. eauto with keeps.
      * rewrite (bind_ok (print _ ≫= _) _ w _ _ eq_refl).
        rewrite try_except_spawned by apply keeps_encode_video_except.
        destruct verbose.
        -- rewrite (bind_ok (print ("Running command: " +:+ _)) _ _ tt _ eq_refl).
           rewrite spawn_then_keeps; [done|]. intros a. eauto 20 with keeps.
        -- rewrite spawn_then_keeps; [done|]. intros a. eauto with keeps.
    + destruct (encode_video_incomplete env input out temp total_frames args verbose w Hfile)
        as (e & w' & E & _ & Hsp & _); [by rewrite Hmiss|].
      rewrite E. simpl. by rewrite Hsp, app_nil_r.
  - unfold encode_video, get_fps, Os.path_isfile, mbind, M_bind, get_fs, mret, M_ret.
    rewrite Hfile. simpl. by rewrite app_nil_r.
Qed.

(** ** The dispatcher *)

Lemma future_of_ok (call : M unit) w :
  ∃ f, future_of call w = (Ok f, (call w).2) ∧
       f = match (call w).1 with Ok _ => None | Raise e => Some e end.
Proof.
  unfold future_of, attempt, mbind, M_bind.
  destruct (call w) as [[[]|e] w1]; eexists; split; reflexivity.
Qed.

(** Whatever the calls raise, all of them run and the pool hands back one
    future per call. *)
Lemma run_submitted_ok (calls : list (M unit)) : ∀ w,
  ∃ futures w', run_submitted calls w = (Ok futures, w') ∧
                length futures = length calls.
Proof.
  induction calls as [|call calls IH]; intros w.
  - by exists [], w.
  - cbn [run_submitted].
    destruct (future_of_ok call w) as (f & Ef & _).
    rewrite (bind_ok _ _ _ _ _ Ef).
    destruct (IH (call w).2) as (futures & w' & E & Hlen).
    rewrite (bind_ok _ _ _ _ _ E).
    exists (f :: futures), w'. split; [done|]. simpl. by rewrite Hlen.
Qed.

Lemma for_each_pass {A} (l : list A) w : for_each l (fun _ => mret tt) w = (Ok tt, w).
Proof. induction l as [|x l IH]; [done|]. cbn [for_each]. by rewrite (bind_ok (mret tt) _ w tt w eq_refl). Qed.

Lemma run_submitted_spawned (call : nat → M unit) (plan : nat → list (list string))
    (indices : list nat) :
  (∀ i w, spawned (call i w).2 = spawned w ++ plan i) →
  ∀ w, spawned (run_submitted (map call indices) w).2 =
       spawned w ++ concat (map plan indices).
Proof.
  intros Hcall. induction indices as [|i indices IH]; intros w.
  - simpl. by rewrite app_nil_r.
  - cbn [map run_submitted concat].
    destruct (future_of_ok (call i) w) as (f & Ef & _).
    rewrite (bind_ok _ _ _ _ _ Ef).
    destruct (run_submitted_ok (map call indices) (call i w).2) as (futures & w' & E & _).
    rewrite (bind_ok _ _ _ _ _ E). simpl.
    specialize (IH (call i w).2). rewrite E in IH. simpl in IH.
    rewrite IH, Hcall. by rewrite app_assoc.
Qed.

(** On any schedule the dispatch never raises, and it hands the command of
    every scheduled frame to [subprocess.run], whatever happened to the
    frames before it. *)
Lemma upscale_frames_scheduled_runs_all env schedule temp path s mf alg res verbose w :
  ∃ w',
    upscale_frames_scheduled env schedule temp path s mf alg res verbose w = (Ok tt, w') ∧
    spawned w' = spawned w ++
      concat (map (fun i => planned_upscale env i temp path s mf alg res) schedule).
Proof.
  unfold upscale_frames_scheduled.
  set (call := fun i => upscale_frame env i temp path s mf alg res verbose).
  destruct (run_submitted_ok (map call schedule) w) as (futures & w' & E & _).
  exists w'. rewrite (bind_ok _ _ _ _ _ E). split; [apply for_each_pass|].
  pose proof (run_submitted_spawned call
                (fun i => planned_upscale env i temp path s mf alg res) schedule
                (fun i w0 => upscale_frame_spawned env i temp path s mf alg res verbose w0) w)
    as Hs.
  by rewrite E in Hs.
Qed.

(** [upscale_frames] is the dispatch on the submission-order schedule. *)
Lemma upscale_frames_runs_all env temp total_frames path s mf alg res verbose w :
  ∃ w',
    upscale_frames env temp total_frames path s mf alg res verbose w = (Ok tt, w') ∧
    spawned w' = spawned w ++
      concat (map (fun i => planned_upscale env i temp path s mf alg res) (seq 0 total_frames)).
Proof.
  apply (upscale_frames_scheduled_runs_all env (seq 0 total_frames)).
Qed.

Lemma concat_map_Permutation {A B} (f : A → list B) (l1 l2 : list A) :
  l1 ≡ₚ l2 → concat (map f l1) ≡ₚ concat (map f l2).
Proof.
  induction 1 as [|x l1 l2 _ IH|x y l|l1 l2 l3 _ IH1 _ IH2]; cbn [map concat].
  - done.
  - by rewrite IH.
  - rewrite !app_assoc. f_equiv. apply Permutation_app_comm.
  - by etrans.
Qed.


(** ** A failing upscale *)

(** C1, evaluated where the code departs from it: a two-frame clip and a
    resizer that exits with status 1.  Frame 0's failure is reported with its
    index and exit status and the staging directory is removed, but the
    [sys.exit(1)] raised in the worker only ends that call: the command of
    frame 1 is spawned all the same, [upscale_frames] returns normally, and
    the run goes on to [encode_video], where the missing-frame branch calls
    [cleanup] on the directory that is already gone and dies of
    [FileNotFoundError]. *)
Theorem upscale_failure_keeps_dispatching :
  let env := Sample.env_with Sample.failing_tool in
  let dispatch := upscale_frames env ".temp_frames" 2 "ImageResizer.exe" Sample.twice
                    "2" "XBR" (640%Z, 480%Z) false Sample.staged in
  let run := main env "clip.mp4" false Sample.config Sample.fresh in
  dispatch.1 = Ok tt ∧
  printed dispatch.2 =
    ["Extracting frames...";
     "Error: Upscaling frame 0 failed with exit code 1.";
     "Error: Upscaling frame 1 failed with exit code 1."] ∧
  spawned dispatch.2 =
    [["ImageResizer.exe"; "/load"; ".temp_frames/frame_00000.png"; "/resize"; "auto";
      "XBR 2x"; "/save"; ".temp_frames/frame_00000_up.png"];
     ["ImageResizer.exe"; "/load"; ".temp_frames/frame_00001.png"; "/resize"; "auto";
      "XBR 2x"; "/save"; ".temp_frames/frame_00001_up.png"]] ∧
  fs dispatch.2 !! ".temp_frames" = None ∧
  run.1 = Raise (PyErr FileNotFoundError
                   "[Errno 2] No such file or directory: '.temp_frames'") ∧
  printed run.2 =
    ["Extracting frames...";
     "Error: Upscaling frame 0 failed with exit code 1.";
     "Error: Upscaling frame 1 failed with exit code 1.";
     "Missing upscaled frames: [0, 1]"] ∧
  length (spawned run.2) = 2.
Proof. vm_compute. repeat split. Qed.

(** ** Fatal paths that skip [cleanup] *)

(** C3, evaluated where the code departs from it.  With an input path that
    is not a file the run ends in [get_fps] through [sys.exit(1)], and with
    a frame that cannot be written it ends in [extract_frames] through
    [sys.exit(1)]; neither path calls [cleanup], so the staging directory
    (and, in the second run, the frame already extracted) is still there
    when the process ends. *)
Theorem fatal_exit_leaves_staging_behind :
  let missing := main (Sample.env_with Sample.failing_ffmpeg) "nope.mp4" false
                   Sample.config Sample.fresh in
  let unwritable := main Sample.env_disk_full "clip.mp4" false Sample.config Sample.fresh in
  missing.1 = Raise (SystemExit 1) ∧
  exit_status missing.1 = 1%Z ∧
  fs missing.2 !! ".temp_frames" = Some Dir ∧
  unwritable.1 = Raise (SystemExit 1) ∧
  printed unwritable.2 = ["Extracting frames..."; "Frame extraction failed for frame 1"] ∧
  fs unwritable.2 !! ".temp_frames" = Some Dir ∧
  fs unwritable.2 !! ".temp_frames/frame_00000.png" = Some File.
Proof. vm_compute. repeat split. Qed.

(** ** A missing input *)

Lemma cv2_imwrite_step env p w ok f' :
  imwrite env p (fs w) = (ok, f') → cv2_imwrite env p w = (Ok ok, with_fs w f').
Proof. intros H. unfold cv2_imwrite. by rewrite H. Qed.

Lemma path_exists_step p w : Os.path_exists p w = (Ok (Os.exists_ (fs w) p), w).
Proof. done. Qed.

Lemma extract_loop_outcome env temp remaining : ∀ count w,
  ∃ r w',
    extract_loop env temp remaining count w = (r, w') ∧
    spawned w' = spawned w ∧ exit_event w' = exit_event w ∧ temp_dir w' = temp_dir w ∧
    (r = Ok (count + remaining) ∧ printed w' = printed w ∨
     r = Raise (SystemExit 1) ∧
     ∃ k, count ≤ k < count + remaining ∧
          printed w' = printed w ++ ["Frame extraction failed for frame " +:+ PyStr.of_nat k]).
Proof.
  induction remaining as [|remaining IH]; intros count w.
  - exists (Ok count), w. split; [done|]. repeat split; try done.
    left. split; [f_equal; lia|done].
  - cbn [extract_loop]. fold (frame_path temp count).
    destruct (imwrite env (frame_path temp count) (fs w)) as [ok f'] eqn:Ew.
    rewrite (bind_ok _ _ _ _ _ (cv2_imwrite_step _ _ _ _ _ Ew)).
    rewrite (bind_ok _ _ _ _ _ (path_exists_step _ _)).
    destruct (negb ok || negb (Os.exists_ (fs (with_fs w f')) (frame_path temp count)))%bool.
    + do 2 eexists. split; [reflexivity|]. repeat split; try done.
      right. split; [done|]. exists count. split; [lia|done].
    + destruct (IH (S count) (with_fs w f')) as (r & w' & E & Hsp & Hev & Htd & Hcase).
      exists r, w'. split; [done|]. split; [done|]. split; [done|]. split; [done|].
      destruct Hcase as [[Hr Hpr]|[Hr (k & Hk & Hpr)]].
      * left. split; [|done]. rewrite Hr. f_equal. lia.
      * right. split; [done|]. exists k. split; [lia|done].
Qed.

(** C7, as amended. When the input path is not an existing file, frame
    extraction does not fail for that reason: [extract_frames] never tests
    the path.  It returns the number of frames OpenCV reads from it, 0 with
    the world unchanged when OpenCV reads none, and the only way it fails is
    a frame that was not written, reported as such.  The missing input is
    detected by [get_fps], which prints the error and leaves through
    [sys.exit(1)]; so [encode_video], which starts with it, ends the run
    with exit status 1 before it looks for frames or spawns ffmpeg. *)
Theorem missing_input_detected_by_get_fps (env : Env) (input temp : string) (w : World) :
  Os.isfile_ (fs w) input = false →
  let frames := frame_count (video_open env input (fs w)) in
  let w' := mkWorld (fs w)
              (printed w ++ ["Error: input video file not found. Given path:" +:+ nl +:+ input])
              (spawned w) (exit_event w) (temp_dir w) in
  (∃ r w1,
     extract_frames env input temp w = (r, w1) ∧
     (r = Ok frames ∧ printed w1 = printed w ∨
      r = Raise (SystemExit 1) ∧
      ∃ k, k < frames ∧
           printed w1 = printed w ++ ["Frame extraction failed for frame " +:+ PyStr.of_nat k])) ∧
  (frames = 0 → extract_frames env input temp w = (Ok 0, w)) ∧
  get_fps env input w = (Raise (SystemExit 1), w') ∧
  ∀ out total_frames args verbose,
    encode_video env input out temp total_frames args verbose w = (Raise (SystemExit 1), w') ∧
    exit_status (encode_video env input out temp total_frames args verbose w).1 = 1%Z.
Proof.
  intros Hfile frames w'.
  assert (Hfps : get_fps env input w = (Raise (SystemExit 1), w')).
  { unfold get_fps, Os.path_isfile, mbind, M_bind, get_fs, mret, M_ret. by rewrite Hfile. }
  assert (Hext : extract_frames env input temp w = extract_loop env temp frames 0 w).
  { unfold extract_frames. by rewrite (bind_ok (video_capture env input) _ w _ w eq_refl). }
  split.
  { destruct (extract_loop_outcome env temp frames 0 w) as (r & w1 & E & _ & _ & _ & Hcase).
    exists r, w1. rewrite Hext. split; [exact E|].
    destruct Hcase as [[Hr Hpr]|[Hr (k & Hk & Hpr)]]; [by left|].
    right. split; [done|]. exists k. split; [lia|done]. }
  split.
  { intros Hnone. rewrite Hext, Hnone. reflexivity. }
  split; [done|].
  intros out total_frames args verbose.
  assert (He : encode_video env input out temp total_frames args verbose w
               = (Raise (SystemExit 1), w')).
  { unfold encode_video. by rewrite (bind_raise _ _ _ _ _ Hfps). }
  by rewrite He.
Qed.

(** The sample run asked for a file that is not there. *)
Lemma missing_input_detected_by_get_fps_witness :
  let env := Sample.env_with Sample.failing_ffmpeg in
  let w' := mkWorld (fs Sample.staged)
              (printed Sample.staged ++
                 ["Error: input video file not found. Given path:" +:+ nl +:+ "nope.mp4"])
              (spawned Sample.staged) (exit_event Sample.staged) (temp_dir Sample.staged) in
  extract_frames env "nope.mp4" ".temp_frames" Sample.staged = (Ok 0, Sample.staged) ∧
  get_fps env "nope.mp4" Sample.staged = (Raise (SystemExit 1), w') ∧
  ∀ out total_frames args verbose,
    encode_video env "nope.mp4" out ".temp_frames" total_frames args verbose Sample.staged
      = (Raise (SystemExit 1), w') ∧
    exit_status (encode_video env "nope.mp4" out ".temp_frames" total_frames args verbose
                   Sample.staged).1 = 1%Z.
Proof.
  intros env w'.
  destruct (missing_input_detected_by_get_fps env "nope.mp4" ".temp_frames" Sample.staged)
    as (_ & Hnone & Hfps & Henc).
  - vm_compute. reflexivity.
  - split; [apply Hnone; vm_compute; reflexivity|]. split; [exact Hfps|exact Henc].
Defined.

(** C7 as stated fails: the input path does not name an existing file, and
    frame extraction does not fail; it returns a frame count of 0. *)
Lemma extract_frames_missing_input_returns :
  Os.isfile_ (fs Sample.fresh) "nope.mp4" = false ∧
  (extract_frames (Sample.env_with Sample.failing_ffmpeg) "nope.mp4" ".temp_frames"
     Sample.fresh).1 = Ok 0 ∧
  ¬ ∃ e, (extract_frames (Sample.env_with Sample.failing_ffmpeg) "nope.mp4" ".temp_frames"
            Sample.fresh).1 = Raise e.
Proof. vm_compute. split; [done|]. split; [done|]. intros [e H]. discriminate. Qed.

(** An input that is not a file and that OpenCV reads all the same, an
    image-sequence pattern: the three frames are extracted, and the run
    only stops in [get_fps]. *)
Example image_sequence_is_extracted :
  let env := mkEnv Sample.float_of_digits (fun _ => "25.0") (fun _ => true) (fun _ => true)
               Sample.open_sequence Sample.write_file Sample.writing_tool in
  let run := main env "img_%02d.png" false Sample.config Sample.fresh in
  Os.isfile_ (fs Sample.fresh) "img_%02d.png" = false ∧
  (extract_frames env "img_%02d.png" ".temp_frames" Sample.fresh).1 = Ok 3 ∧
  run.1 = Raise (SystemExit 1) ∧
  length (spawned run.2) = 3 ∧
  List.last (printed run.2) "" =
    "Error: input video file not found. Given path:" +:+ nl +:+ "img_%02d.png".
Proof. vm_compute. repeat split. Qed.

(** ** A failing reassembly *)

(** What [encode_video] does when ffmpeg exits with a non-zero status. *)
Lemma encode_video_ffmpeg_fails env input out temp total_frames args verbose w
    rc captured_out captured_err f' text :
  let cmd := ffmpeg_command (float_repr env (probed_fps env (fs w) input)) temp input args out in
  Os.isfile_ (fs w) input = true →
  (get_missing_frames total_frames temp w).1 = Ok [] →
  spawn env cmd (fs w) = (Exited rc captured_out captured_err, f') →
  rc ≠ 0%Z →
  (verbose = true → captured_err = Some text) →
  encode_video env input out temp total_frames args verbose w =
    (Ok tt,
     mkWorld f'
       (printed w ++
        (if negb (String.eqb args "") then []
         else ["Falling back to the default ffmpeg arguments."]) ++
        (if verbose then ["Running command: " +:+ PyStr.join " " cmd] else []) ++
        ["Error: Encoding video failed with exit code " +:+ PyStr.of_Z rc +:+ "."] ++
        (if verbose then ["Command: " +:+ PyStr.join " " cmd; "Output: " +:+ text] else []))
       (spawned w ++ [cmd]) (exit_event w) (temp_dir w)).
Proof.
  intros cmd Hfile Hall Hspawn Hrc Htext.
  unfold encode_video.
  rewrite (bind_ok _ _ _ _ _ (get_fps_of_file env input w Hfile)).
  unfold get_missing_frames at 1.
  rewrite (bind_ok _ _ _ _ _ (missing_among_scan temp (seq 0 total_frames) w)).
  unfold get_missing_frames in Hall. rewrite missing_among_scan in Hall.
  injection Hall as Hall. rewrite Hall. cbn [length Nat.eqb negb when].
  rewrite (bind_ok (mret tt) _ w tt w eq_refl).
  fold (probed_fps env (fs w) input).
  assert (Hz : (rc =? 0)%Z = false) by (by apply Z.eqb_neq).
  unfold cmd, ffmpeg_command in *. clear cmd.
  destruct (negb (String.eqb args "")).
  - rewrite (bind_ok (mret _) _ w _ w eq_refl).
    unfold try_except. destruct verbose.
    + rewrite (bind_ok (print _) _ w tt _ eq_refl).
      unfold mbind at 1, M_bind at 1, subprocess_run at 1. cbn [fs printed spawned exit_event temp_dir].
      rewrite Hspawn, Hz. rewrite (Htext eq_refl). unfold encode_video_except.
      unfold mbind, M_bind, print, when, decode, mret, M_ret. simpl.
      rewrite ?app_nil_r, <- ?app_assoc; reflexivity.
    + unfold mbind at 1, M_bind at 1, subprocess_run at 1.
      rewrite Hspawn, Hz. unfold encode_video_except.
      unfold mbind, M_bind, print, when, mret, M_ret. simpl.
      rewrite ?app_nil_r, <- ?app_assoc; reflexivity.
  - rewrite (bind_ok (print _ ≫= _) _ w _ _ eq_refl).
    unfold try_except. destruct verbose.
    + rewrite (bind_ok (print ("Running command: " +:+ _)) _ _ tt _ eq_refl).
      unfold mbind at 1, M_bind at 1, subprocess_run at 1. cbn [fs printed spawned exit_event temp_dir].
      rewrite Hspawn, Hz. rewrite (Htext eq_refl). unfold encode_video_except.
      unfold mbind, M_bind, print, when, decode, mret, M_ret. simpl.
      rewrite ?app_nil_r, <- ?app_assoc; reflexivity.
    + unfold mbind at 1, M_bind at 1, subprocess_run at 1. cbn [fs printed spawned exit_event temp_dir].
      rewrite Hspawn, Hz. unfold encode_video_except.
      unfold mbind, M_bind, print, when, mret, M_ret. simpl.
      rewrite ?app_nil_r, <- ?app_assoc; reflexivity.
Qed.

(** C9. Take a run that has reached the reassembly step (lines 181-196
    returned, the input is a file, no upscaled frame is missing) and in
    which ffmpeg exits with a non-zero status.  [encode_video] prints the
    failure with the exit code (and, in verbose mode, the command and the
    decoded diagnostic output) and returns; the final [cleanup] then removes
    the staging directory, and the run ends normally, with exit status 0. *)
Theorem encode_failure_reported_run_exits_0 (env : Env) (input : string) (verbose : bool)
    (config : Config) (w0 w : World) (p : Prepared) (args : string)
    (rc : Z) (captured_out captured_err : captured) (f' : filesystem) (text : string) :
  let cmd := ffmpeg_command (float_repr env (probed_fps env (fs w) input)) ".temp_frames" input args
               (prep_out_filename p) in
  main_upscale env input verbose config w0 = (Ok p, w) →
  config !! "ffmpeg" ≫= (fun section => section !! "args") = Some args →
  Os.isfile_ (fs w) input = true →
  (get_missing_frames (prep_total_frames p) ".temp_frames" w).1 = Ok [] →
  spawn env cmd (fs w) = (Exited rc captured_out captured_err, f') →
  rc ≠ 0%Z →
  (verbose = true → captured_err = Some text) →
  holds_only_files f' ".temp_frames" →
  ∃ w',
    main env input verbose config w0 = (Ok tt, w') ∧
    exit_status (main env input verbose config w0).1 = 0%Z ∧
    printed w' =
      printed w ++
      (if negb (String.eqb args "") then []
       else ["Falling back to the default ffmpeg arguments."]) ++
      (if verbose then ["Running command: " +:+ PyStr.join " " cmd] else []) ++
      ["Error: Encoding video failed with exit code " +:+ PyStr.of_Z rc +:+ "."] ++
      (if verbose then ["Command: " +:+ PyStr.join " " cmd; "Output: " +:+ text] else []) ∧
    spawned w' = spawned w ++ [cmd] ∧
    fs w' = released ".temp_frames" f' ∧
    fs w' !! ".temp_frames" = None.
Proof.
  intros cmd Hprep Hargs Hfile Hall Hspawn Hrc Htext Hok.
  assert (Hget : config_get config "ffmpeg" "args" w = (Ok args, w)).
  { unfold config_get. destruct (config !! "ffmpeg") as [section|]; [|done].
    simpl in Hargs. by rewrite Hargs. }
  pose proof (encode_video_ffmpeg_fails env input (prep_out_filename p) ".temp_frames"
                (prep_total_frames p) args verbose w rc captured_out captured_err f' text
                Hfile Hall Hspawn Hrc Htext) as Henc.
  set (w1 := mkWorld f' _ _ _ _) in Henc.
  assert (Hmain : main env input verbose config w0
                  = (Ok tt, with_fs w1 (released ".temp_frames" f'))).
  { unfold main. rewrite (bind_ok _ _ _ _ _ Hprep). rewrite (bind_ok _ _ _ _ _ Hget).
    rewrite (bind_ok _ _ _ _ _ Henc). by apply cleanup_releases. }
  exists (with_fs w1 (released ".temp_frames" f')).
  split; [done|]. split; [by rewrite Hmain|]. split; [done|]. split; [done|].
  split; [done|]. simpl. rewrite lookup_released. by rewrite decide_True.
Qed.

(** The whole sample run with an ffmpeg that exits with status 1, in
    verbose mode. *)
Lemma encode_failure_reported_run_exits_0_witness :
  ∃ w',
    main (Sample.env_with Sample.failing_ffmpeg) "clip.mp4" true Sample.config Sample.fresh
      = (Ok tt, w') ∧
    exit_status (main (Sample.env_with Sample.failing_ffmpeg) "clip.mp4" true Sample.config
                   Sample.fresh).1 = 0%Z ∧
    "Error: Encoding video failed with exit code 1." ∈ printed w' ∧
    "Output: Conversion failed!" ∈ printed w' ∧
    fs w' !! ".temp_frames" = None ∧
    fs w' !! "clip_upscaled_XBR2x.mp4" = None.
Proof.
  destruct (encode_failure_reported_run_exits_0
              (Sample.env_with Sample.failing_ffmpeg) "clip.mp4" true Sample.config
              Sample.fresh
              (main_upscale (Sample.env_with Sample.failing_ffmpeg) "clip.mp4" true
                 Sample.config Sample.fresh).2
              (mkPrepared 2 "clip_upscaled_XBR2x.mp4") "" 1 (Some "")
              (Some "Conversion failed!")
              (fs (main_upscale (Sample.env_with Sample.failing_ffmpeg) "clip.mp4" true
                     Sample.config Sample.fresh).2)
              "Conversion failed!")
    as (w' & Hmain & Hstatus & Hprinted & _ & Hfs & Hgone).
  - vm_compute. reflexivity.
  - vm_compute. reflexivity.
  - vm_compute. reflexivity.
  - vm_compute. reflexivity.
  - vm_compute. reflexivity.
  - lia.
  - intros _. reflexivity.
  - apply holds_only_files_check; vm_compute; reflexivity.
  - exists w'. split; [exact Hmain|]. split; [exact Hstatus|].
    rewrite Hprinted, Hfs. vm_compute.
    split; [repeat constructor|]. split; [repeat constructor|]. split; reflexivity.
Defined.

(** ** What the verbose flag can change *)

Lemma fs_only_mret {A} (a : A) : fs_only (mret a).
Proof. intros f. by exists (Ok a), f. Qed.

Lemma fs_only_raise {A} e : fs_only (raise (A:=A) e).
Proof. intros f. by exists (Raise e), f. Qed.

Lemma fs_only_bind {A B} (c : M A) (k : A → M B) :
  fs_only c → (∀ a, fs_only (k a)) → fs_only (c ≫= k).
Proof.
  intros Hc Hk f. destruct (Hc f) as (r & f1 & E). destruct r as [a|e].
  - destruct (Hk a f1) as (r2 & f2 & E2). exists r2, f2. intros pr sp ev td.
    unfold mbind, M_bind. by rewrite E, E2.
  - exists (Raise e), f1. intros pr sp ev td. unfold mbind, M_bind. by rewrite E.
Qed.

Lemma fs_only_remove p : fs_only (Os.remove p).
Proof.
  intros f. unfold Os.remove, mbind, M_bind, get_fs, set_fs, with_fs, raise. simpl.
  destruct (f !! p) as [[|]|]; eauto.
Qed.

Lemma fs_only_for_each_remove l : fs_only (for_each l Os.remove).
Proof.
  induction l as [|x l IH]; [apply fs_only_mret|].
  cbn [for_each]. apply fs_only_bind; [apply fs_only_remove|done].
Qed.

Lemma fs_only_cleanup d : fs_only (cleanup d).
Proof.
  unfold cleanup. apply fs_only_bind.
  - intros f. unfold Os.scandir, mbind, M_bind, get_fs, mret, M_ret, raise. simpl.
    destruct (f !! d) as [[|]|]; eauto.
  - intros paths. apply fs_only_bind; [apply fs_only_for_each_remove|]. intros _.
    intros f. unfold Os.rmdir, mbind, M_bind, get_fs, set_fs, with_fs, raise. simpl.
    destruct (f !! d) as [[|]|]; eauto. destruct (Os.entries f d); eauto.
Qed.

(** [cleanup] followed by [sys.exit(1)] ends the same way whatever was
    printed before. *)
Lemma cleanup_exit_same_but_printed d (w1 w2 : World) :
  fs w1 = fs w2 → spawned w1 = spawned w2 → exit_event w1 = exit_event w2 →
  temp_dir w1 = temp_dir w2 →
  same_but_printed ((cleanup d ≫= fun _ => sys_exit (A:=unit) 1) w1)
                   ((cleanup d ≫= fun _ => sys_exit (A:=unit) 1) w2).
Proof.
  destruct w1 as [f1 pr1 sp1 ev1 td1], w2 as [f2 pr2 sp2 ev2 td2]. simpl.
  intros -> -> -> ->.
  destruct (fs_only_cleanup d f2) as (r & f' & E).
  unfold mbind, M_bind. rewrite !E. by destruct r.
Qed.

Lemma same_but_printed_refl {A} (x : result A * World) : same_but_printed x x.
Proof. by repeat split. Qed.

Lemma same_but_printed_bind {A B} (c : M A) (k1 k2 : A → M B) w :
  (∀ a w', c w = (Ok a, w') → same_but_printed (k1 a w') (k2 a w')) →
  same_but_printed ((c ≫= k1) w) ((c ≫= k2) w).
Proof.
  intros H. unfold mbind, M_bind. destruct (c w) as [[a|e] w'].
  - by apply H.
  - apply same_but_printed_refl.
Qed.

Lemma int_times_float_pure n x w a w' :
  int_times_float n x w = (Ok a, w') → w' = w.
Proof. unfold int_times_float. destruct (PyFloat.of_int n); by intros [= _ <-]. Qed.

Lemma py_int_pure x w a w' : py_int x w = (Ok a, w') → w' = w.
Proof. unfold py_int. destruct (PyFloat.to_int x) as [[|]|]; by intros [= _ <-]. Qed.

(** With a magnification factor that parses and tool output that decodes,
    the verbose flag changes nothing of a call of [upscale_frame] but the
    printed lines. *)
Lemma upscale_frame_verbose_only_prints env i temp path s mf alg res w :
  is_Some (float_of_string env mf) →
  (∀ cmd, decodable (spawn env cmd (fs w)).1) →
  same_but_printed (upscale_frame env i temp path s mf alg res true w)
                   (upscale_frame env i temp path s mf alg res false w).
Proof.
  intros [m Hm] Hdec. unfold upscale_frame.
  apply same_but_printed_bind. intros fw w1 ->%int_times_float_pure.
  apply same_but_printed_bind. intros W w1 ->%py_int_pure.
  apply same_but_printed_bind. intros fh w1 ->%int_times_float_pure.
  apply same_but_printed_bind. intros H w1 ->%py_int_pure.
  apply same_but_printed_bind. intros parsed w1 E.
  unfold attempt, py_float in E. rewrite Hm in E. injection E as <- <-.
  set (cmd := upscale_cmd _ _ _ _ _ _ _ _ _).
  specialize (Hdec cmd). destruct w as [f pr sp ev td]. simpl in Hdec.
  unfold try_except, when, mbind, M_bind, mret, M_ret, print, subprocess_run.
  cbn [fs printed spawned exit_event temp_dir].
  destruct (spawn env cmd f) as [[rc out err|cls msg] f'].
  - destruct Hdec as [[o ->] [e ->]]. simpl.
    destruct (rc =? 0)%Z; [by repeat split|].
    unfold upscale_frame_except, when, read_local, decode.
    unfold mbind, M_bind, mret, M_ret, print. cbn [fs printed spawned exit_event temp_dir].
    destruct (fs_only_cleanup temp f') as (r & f'' & E). rewrite !E.
    by destruct r.
  - unfold upscale_frame_except, when, read_local.
    unfold mbind, M_bind, mret, M_ret, print. cbn [fs printed spawned exit_event temp_dir].
    destruct (fs_only_cleanup temp f') as (r & f'' & E). rewrite !E.
    by destruct r.
Qed.

Lemma exit_never_returns {A} (c1 c2 : M unit) w (a : A) w' :
  (c1 ≫= fun _ => c2 ≫= fun _ => sys_exit 1) w ≠ (Ok a, w').
Proof.
  unfold mbind, M_bind, sys_exit, raise.
  destruct (c1 w) as [[[]|e1] w1]; [|done]. by destruct (c2 w1) as [[[]|e2] w2].
Qed.

Lemma get_fps_pure env input w a w' : get_fps env input w = (Ok a, w') → w' = w.
Proof.
  unfold get_fps, Os.path_isfile, video_capture, mbind, M_bind, get_fs, mret, M_ret.
  destruct (Os.isfile_ (fs w) input); simpl; [|done]. by intros [= _ <-].
Qed.

(** With tool output that decodes, the verbose flag changes nothing of a
    call of [encode_video] but the printed lines. *)
Lemma encode_video_verbose_only_prints env input out temp total_frames args w :
  (∀ cmd, decodable (spawn env cmd (fs w)).1) →
  same_but_printed (encode_video env input out temp total_frames args true w)
                   (encode_video env input out temp total_frames args false w).
Proof.
  intros Hdec. unfold encode_video.
  apply same_but_printed_bind. intros rate w1 ->%get_fps_pure.
  apply same_but_printed_bind. intros missing w1 E.
  unfold get_missing_frames in E. rewrite missing_among_scan in E. injection E as _ <-.
  apply same_but_printed_bind. intros [] w1 E.
  assert (w1 = w) as ->.
  { destruct (negb (Nat.eqb (length missing) 0)); cbn [when] in E.
    - by apply exit_never_returns in E.
    - by injection E as <-. }
  clear E. apply same_but_printed_bind. intros ffmpeg_cmd w1 E.
  assert (Hfs : fs w1 = fs w).
  { destruct (negb (String.eqb args "")).
    - by injection E as _ <-.
    - unfold mbind, M_bind, print, mret, M_ret in E. by injection E as _ <-. }
  clear E. specialize (Hdec (ffmpeg_cmd ++ [out])). rewrite <- Hfs in Hdec.
  destruct w1 as [f pr sp ev td]. simpl in Hdec.
  unfold try_except, mbind, M_bind, mret, M_ret, print, subprocess_run.
  cbn [fs printed spawned exit_event temp_dir].
  destruct (spawn env (ffmpeg_cmd ++ [out]) f) as [[rc o e|cls msg] f'].
  - destruct Hdec as [[to ->] [te ->]]. simpl.
    destruct (rc =? 0)%Z; by repeat split.
  - by repeat split.
Qed.

(** X25. The command lines handed to [subprocess.run] do not depend on the
    verbose flag.  A call of [upscale_frame] spawns [planned_upscale], which
    is computed from the job parameters and the frame index alone; a call of
    [encode_video] spawns [planned_encode], which is either nothing or the
    one ffmpeg command computed from the probed frame rate, the staging
    path, the input, the extra arguments and the output name.  In both, the
    spawned commands with [verbose] set equal those with it unset, and the
    same holds for the whole dispatch [upscale_frames].  Beyond the
    commands: where the verbose-only code has something it can print (the
    captured streams decode, and in [upscale_frame] the magnification factor
    parses, so that [cmd] is bound), the flag changes the printed lines and
    nothing else of the outcome. *)
Theorem commands_independent_of_verbose (env : Env) :
  (∀ i temp path scale_factor magnification_factor algorithm resolution w verbose,
     spawned (upscale_frame env i temp path scale_factor magnification_factor algorithm
                resolution verbose w).2
     = spawned w ++ planned_upscale env i temp path scale_factor magnification_factor
                      algorithm resolution) ∧
  (∀ i temp path scale_factor magnification_factor algorithm resolution w,
     spawned (upscale_frame env i temp path scale_factor magnification_factor algorithm
                resolution true w).2
     = spawned (upscale_frame env i temp path scale_factor magnification_factor algorithm
                  resolution false w).2) ∧
  (∀ temp total_frames path scale_factor magnification_factor algorithm resolution w,
     spawned (upscale_frames env temp total_frames path scale_factor magnification_factor
                algorithm resolution true w).2
     = spawned (upscale_frames env temp total_frames path scale_factor magnification_factor
                  algorithm resolution false w).2) ∧
  (∀ input out temp total_frames args w verbose,
     spawned (encode_video env input out temp total_frames args verbose w).2
     = spawned w ++ planned_encode env (fs w) input out temp total_frames args ∧
     (planned_encode env (fs w) input out temp total_frames args = [] ∨
      planned_encode env (fs w) input out temp total_frames args =
        [ffmpeg_command (float_repr env (probed_fps env (fs w) input)) temp input args out])) ∧
  (∀ input out temp total_frames args w,
     spawned (encode_video env input out temp total_frames args true w).2
     = spawned (encode_video env input out temp total_frames args false w).2) ∧
  (∀ i temp path scale_factor magnification_factor algorithm resolution w,
     is_Some (float_of_string env magnification_factor) →
     (∀ cmd, decodable (spawn env cmd (fs w)).1) →
     same_but_printed
       (upscale_frame env i temp path scale_factor magnification_factor algorithm
          resolution true w)
       (upscale_frame env i temp path scale_factor magnification_factor algorithm
          resolution false w)) ∧
  (∀ input out temp total_frames args w,
     (∀ cmd, decodable (spawn env cmd (fs w)).1) →
     same_but_printed (encode_video env input out temp total_frames args true w)
                      (encode_video env input out temp total_frames args false w)).
Proof.
  split; [intros; apply upscale_frame_spawned|].
  split; [intros; by rewrite !upscale_frame_spawned|].
  split.
  { intros temp n path s mf alg res w.
    destruct (upscale_frames_runs_all env temp n path s mf alg res true w) as (w1 & E1 & H1).
    destruct (upscale_frames_runs_all env temp n path s mf alg res false w) as (w2 & E2 & H2).
    rewrite E1, E2. simpl. by rewrite H1, H2. }
  split.
  { intros input out temp n args w verbose. split; [apply encode_video_spawned|].
    unfold planned_encode. destruct (Os.isfile_ (fs w) input); [|by left].
    destruct (filter _ (seq 0 n)); [by right|by left]. }
  split; [intros; by rewrite !encode_video_spawned|].
  split; [intros; by apply upscale_frame_verbose_only_prints|].
  intros. by apply encode_video_verbose_only_prints.
Qed.

(** The sample tools print plain text, so both calls agree up to the
    printed lines. *)
Lemma commands_independent_of_verbose_witness :
  let env := Sample.env_with Sample.failing_ffmpeg in
  same_but_printed
    (upscale_frame env 0 ".temp_frames" "ImageResizer.exe" Sample.twice "2" "XBR"
       (640%Z, 480%Z) true Sample.staged)
    (upscale_frame env 0 ".temp_frames" "ImageResizer.exe" Sample.twice "2" "XBR"
       (640%Z, 480%Z) false Sample.staged) ∧
  same_but_printed
    (encode_video env "clip.mp4" "clip_upscaled_XBR2x.mp4" ".temp_frames" 0 "" true
       Sample.staged)
    (encode_video env "clip.mp4" "clip_upscaled_XBR2x.mp4" ".temp_frames" 0 "" false
       Sample.staged).
Proof.
  intros env.
  destruct (commands_independent_of_verbose env) as (_ & _ & _ & _ & _ & Hup & Henc).
  assert (Hdec : ∀ cmd, decodable (spawn env cmd (fs Sample.staged)).1).
  { intros cmd. unfold env. simpl. unfold Sample.failing_ffmpeg.
    destruct (String.eqb (List.hd "" cmd) "ffmpeg"); simpl; eauto. }
  split.
  - apply Hup; [|exact Hdec]. vm_compute. eauto.
  - apply Henc. exact Hdec.
Defined.

(** C10, evaluated where the code departs from it.  The command lines are
    the same with and without [verbose], but the flag changes more than what
    is printed.  With a resizer that succeeds on frame 0 and whose output is
    not valid UTF-8, the quiet call returns and the upscaled frame is
    staged, while the verbose call fails to decode the output inside the
    [try], takes the [except Exception] clause, removes the staging
    directory and leaves through [sys.exit(1)].  With the magnification
    factor [2x], which [float] rejects, the quiet call removes the staging
    directory and leaves through [sys.exit(1)], while the verbose call dies
    in the handler of [NameError] on the unbound [cmd] and the directory
    stays.  And in a whole run whose ffmpeg exits with status 1 and
    undecodable diagnostics, the quiet run ends with exit status 0 and the
    staging directory removed, while the verbose run dies of
    [UnicodeDecodeError] raised in the handler, with exit status 1 and the
    staging directory left behind. *)
Theorem verbose_changes_more_than_printing :
  let env := Sample.env_with Sample.garbled_tool in
  let call := fun magnification_factor verbose =>
    upscale_frame env 0 ".temp_frames" "ImageResizer.exe" Sample.twice magnification_factor
      "XBR" (640%Z, 480%Z) verbose Sample.staged in
  let run := fun verbose =>
    main (Sample.env_with Sample.garbled_ffmpeg) "clip.mp4" verbose Sample.config
      Sample.fresh in
  spawned (call "2" true).2 = spawned (call "2" false).2 ∧
  (call "2" false).1 = Ok tt ∧
  fs (call "2" false).2 !! ".temp_frames" = Some Dir ∧
  fs (call "2" false).2 !! ".temp_frames/frame_00000_up.png" = Some File ∧
  (call "2" true).1 = Raise (SystemExit 1) ∧
  fs (call "2" true).2 !! ".temp_frames" = None ∧
  fs (call "2" true).2 !! ".temp_frames/frame_00000_up.png" = None ∧
  spawned (call "2x" true).2 = spawned (call "2x" false).2 ∧
  (call "2x" false).1 = Raise (SystemExit 1) ∧
  fs (call "2x" false).2 !! ".temp_frames" = None ∧
  (∃ msg, (call "2x" true).1 = Raise (PyErr NameError msg)) ∧
  fs (call "2x" true).2 !! ".temp_frames" = Some Dir ∧
  spawned (run true).2 = spawned (run false).2 ∧
  (run false).1 = Ok tt ∧
  exit_status (run false).1 = 0%Z ∧
  fs (run false).2 !! ".temp_frames" = None ∧
  (∃ msg, (run true).1 = Raise (PyErr UnicodeDecodeError msg)) ∧
  exit_status (run true).1 = 1%Z ∧
  fs (run true).2 !! ".temp_frames" = Some Dir.
Proof. vm_compute. repeat split; by eexists. Qed.

(** * Further properties of the functions *)

(** ** Dependency check *)

(** X1. [check_dependencies] reads and never writes: the filesystem, the
    spawned commands, the flag and [temp_dir] are as before whatever it
    finds.  With the resizer path configured it returns normally exactly
    when that path is an executable file and ffmpeg is on the search path,
    and otherwise leaves through [sys.exit(1)] after printing one line; with
    the path missing from the configuration it raises [KeyError]. *)
Theorem check_dependencies_outcome (env : Env) (config : Config) (w : World) :
  let r := check_dependencies env config w in
  fs r.2 = fs w ∧ spawned r.2 = spawned w ∧
  exit_event r.2 = exit_event w ∧ temp_dir r.2 = temp_dir w ∧
  match config !! "imageresizer" ≫= (fun section => section !! "path") with
  | Some path =>
      (r.1 = Ok tt ↔
         Os.isfile_ (fs w) path = true ∧ access_x_ok env path = true ∧
         which env "ffmpeg" = true) ∧
      (r.1 = Ok tt ∧ printed r.2 = printed w ∨
       r.1 = Raise (SystemExit 1) ∧ ∃ line, printed r.2 = printed w ++ [line])
  | None => ∃ msg, r.1 = Raise (PyErr KeyError msg) ∧ printed r.2 = printed w
  end.
Proof.
  unfold check_dependencies, config_get, Os.path_isfile.
  destruct (config !! "imageresizer") as [section|]; simpl; [|by eauto 10].
  destruct (section !! "path") as [path|]; simpl; [|by eauto 10].
  unfold mbind, M_bind, mret, M_ret, get_fs, when, print, sys_exit, raise. simpl.
  destruct (Os.isfile_ (fs w) path); simpl;
    [destruct (access_x_ok env path); simpl; [destruct (which env "ffmpeg"); simpl|]|].
  - repeat split; auto.
  - repeat split; try done; [by intros (_ & _ & ?)|]. right. eauto.
  - repeat split; try done; [by intros (_ & ? & _)|]. right. eauto.
  - repeat split; try done; [by intros (? & _ & _)|]. right. eauto.
Qed.

(** X2. A run whose dependency check fails ends there: with the resizer
    path configured but not an executable file, or with ffmpeg not found,
    [__main__] leaves with exit status 1 before the staging directory is
    created; the filesystem is untouched, nothing was spawned and the
    module-level [temp_dir] is still unbound if it was. *)
Theorem main_stops_at_missing_dependency (env : Env) (input : string) (verbose : bool)
    (config : Config) (w : World) (path : string) :
  config !! "imageresizer" ≫= (fun section => section !! "path") = Some path →
  Os.isfile_ (fs w) path && access_x_ok env path && which env "ffmpeg" = false →
  let r := main env input verbose config w in
  r.1 = Raise (SystemExit 1) ∧ exit_status r.1 = 1%Z ∧
  fs r.2 = fs w ∧ spawned r.2 = spawned w ∧ temp_dir r.2 = temp_dir w ∧
  ∃ line, printed r.2 = printed w ++ [line].
Proof.
  intros Hpath Hdep.
  assert (Hcheck : ∃ line,
            check_dependencies env config w =
              (Raise (SystemExit 1),
               mkWorld (fs w) (printed w ++ [line]) (spawned w) (exit_event w) (temp_dir w))).
  { unfold check_dependencies, config_get, Os.path_isfile.
    destruct (config !! "imageresizer") as [section|]; simpl in Hpath; [|done].
    rewrite Hpath.
    unfold mbind, M_bind, mret, M_ret, get_fs, when, print, sys_exit, raise. simpl.
    destruct (Os.isfile_ (fs w) path); simpl in *;
      [destruct (access_x_ok env path); simpl in *|]; [|eauto..].
    rewrite Hdep. simpl. destruct w; eauto. }
  destruct Hcheck as [line Hcheck]. intros r. subst r.
  unfold main, main_upscale.
  rewrite (bind_raise _ _ _ _ _ (bind_raise _ _ _ _ _ Hcheck)). simpl.
  repeat split; eauto.
Qed.

(** The sample run with ffmpeg missing from the search path. *)
Lemma main_stops_at_missing_dependency_witness :
  let env := mkEnv Sample.float_of_digits (fun _ => "30.0") (fun _ => true) (fun _ => false)
               Sample.open_clip Sample.write_file Sample.failing_tool in
  let r := main env "clip.mp4" false Sample.config Sample.fresh in
  r.1 = Raise (SystemExit 1) ∧ exit_status r.1 = 1%Z ∧
  fs r.2 = fs Sample.fresh ∧ spawned r.2 = spawned Sample.fresh ∧
  temp_dir r.2 = temp_dir Sample.fresh ∧
  ∃ line, printed r.2 = printed Sample.fresh ++ [line].
Proof.
  intros env.
  apply (main_stops_at_missing_dependency env "clip.mp4" false Sample.config Sample.fresh
           "ImageResizer.exe").
  - vm_compute. reflexivity.
  - vm_compute. reflexivity.
Defined.

(** ** Probing the video *)

(** X3. [get_fps] is a read-only probe behind one test.  The filesystem,
    the spawned commands, the flag and [temp_dir] are as before whatever it
    finds.  It returns exactly when the path is an existing file, and then
    hands back whatever frame rate the capture reports, with nothing
    printed and no look at whether the capture opened or has a frame;
    otherwise it prints the input-not-found line and leaves through
    [sys.exit(1)]. *)
Theorem get_fps_outcome (env : Env) (input : string) (w : World) :
  let r := get_fps env input w in
  fs r.2 = fs w ∧ spawned r.2 = spawned w ∧
  exit_event r.2 = exit_event w ∧ temp_dir r.2 = temp_dir w ∧
  ((∃ rate, r.1 = Ok rate) ↔ Os.isfile_ (fs w) input = true) ∧
  (Os.isfile_ (fs w) input = true →
     r = (Ok (fps (video_open env input (fs w))), w)) ∧
  (Os.isfile_ (fs w) input = false →
     r.1 = Raise (SystemExit 1) ∧
     printed r.2 =
       printed w ++ ["Error: input video file not found. Given path:" +:+ nl +:+ input]).
Proof.
  unfold get_fps, Os.path_isfile, video_capture, mbind, M_bind, get_fs, mret, M_ret,
    when, print, sys_exit, raise.
  simpl. destruct (Os.isfile_ (fs w) input); simpl.
  - repeat split; try done. by eexists.
  - repeat split; try done. by intros [rate H].
Qed.

(** X4. [get_resolution] is a read-only probe that never tests the path: it
    leaves the world as it found it and never leaves through [sys.exit].
    It returns the two dimensions the capture reports, truncated toward
    zero, whether or not the path is a file, and raises [ValueError] or
    [OverflowError] when a reported dimension is NaN or infinite. *)
Theorem get_resolution_read_only (env : Env) (input : string) (w : World) :
  let video := video_open env input (fs w) in
  (get_resolution env input w).2 = w ∧
  (∀ code, (get_resolution env input w).1 ≠ Raise (SystemExit code)) ∧
  (∀ W H,
     PyFloat.to_int (frame_width video) = inr W →
     PyFloat.to_int (frame_height video) = inr H →
     get_resolution env input w = (Ok (W, H), w)) ∧
  ((∃ err, PyFloat.to_int (frame_width video) = inl err) ∨
   (∃ err, PyFloat.to_int (frame_height video) = inl err) →
   ∃ cls msg, (cls = ValueError ∨ cls = OverflowError) ∧
              get_resolution env input w = (Raise (PyErr cls msg), w)).
Proof.
  intros video.
  unfold get_resolution, video_capture, py_int, mbind, M_bind, get_fs, mret, M_ret, raise.
  simpl. fold video.
  destruct (PyFloat.to_int (frame_width video)) as [[|]|W] eqn:HW;
    [| |destruct (PyFloat.to_int (frame_height video)) as [[|]|H] eqn:HH]; simpl.
  all: split; [done|]. all: split; [done|].
  all: split; [intros W' H' HW' HH'; congruence|].
  all: intros [[err Herr]|[err Herr]]; try done; eauto 10.
Qed.

(** ** Interruption before the staging directory is known *)

(** X5. An interruption that arrives before [__main__] has assigned
    [temp_dir] cannot clean up: the handler sets the flag, prints its line
    and then fails on the unbound global with [NameError]; nothing is
    removed and the exit status is 1, not the 0 of [sys.exit(0)]. *)
Theorem signal_handler_before_staging (w : World) :
  temp_dir w = None →
  let r := signal_handler w in
  r.1 = Raise (PyErr NameError "name 'temp_dir' is not defined") ∧
  exit_status r.1 = 1%Z ∧
  exit_event r.2 = true ∧
  fs r.2 = fs w ∧
  printed r.2 = printed w ++ ["Ctrl+C received, cleaning up..."].
Proof.
  intros Ht. unfold signal_handler, mbind, M_bind, exit_event_set, print, global_temp_dir.
  simpl. by rewrite Ht.
Qed.

Lemma signal_handler_before_staging_witness :
  let r := signal_handler Sample.fresh in
  r.1 = Raise (PyErr NameError "name 'temp_dir' is not defined") ∧
  exit_status r.1 = 1%Z ∧
  exit_event r.2 = true ∧
  fs r.2 = fs Sample.fresh ∧
  printed r.2 = printed Sample.fresh ++ ["Ctrl+C received, cleaning up..."].
Proof. apply (signal_handler_before_staging Sample.fresh). reflexivity. Defined.

(** ** [cleanup] on a staging directory it cannot empty *)

Lemma for_each_remove_hits_directory l : ∀ w,
  NoDup l → (∀ p, p ∈ l → is_Some (fs w !! p)) →
  (∃ p, p ∈ l ∧ fs w !! p = Some Dir) →
  ∃ msg w', for_each l Os.remove w = (Raise (PyErr IsADirectoryError msg), w') ∧
            (∀ p, fs w !! p = Some Dir → fs w' !! p = Some Dir).
Proof.
  induction l as [|x l IH]; intros w Hnd Hall (p & Hp & Hdir).
  - by apply elem_of_nil in Hp.
  - apply NoDup_cons in Hnd as [Hx Hnd]. cbn [for_each].
    destruct (fs w !! x) as [[|]|] eqn:Ex.
    + assert (Hrm : Os.remove x w = (Ok tt, with_fs w (delete x (fs w)))).
      { unfold Os.remove, mbind, M_bind, get_fs. by rewrite Ex. }
      rewrite (bind_ok _ _ _ _ _ Hrm).
      destruct (IH (with_fs w (delete x (fs w)))) as (msg & w' & E & Hkeep); [done| | |].
      * intros q Hq. simpl. rewrite lookup_delete_ne by (intros ->; done).
        apply Hall. by right.
      * exists p. apply elem_of_cons in Hp as [->|Hp]; [congruence|].
        split; [done|]. simpl. rewrite lookup_delete_ne by (intros ->; done). done.
      * exists msg, w'. split; [done|]. intros q Hq. apply Hkeep. simpl.
        rewrite lookup_delete_ne by (intros ->; congruence). done.
    + exists ("[Errno 21] Is a directory: '" +:+ x +:+ "'"), w. split; [|done].
      apply bind_raise. unfold Os.remove, mbind, M_bind, get_fs. by rewrite Ex.
    + destruct (Hall x) as [? ?]; [left|congruence].
Qed.

(** X6. [cleanup] removes plain files only.  When the staging directory
    holds a subdirectory, [os.remove] fails on it with [IsADirectoryError];
    [cleanup] raises that error, and the staging directory and the
    subdirectory are still there afterwards.  Called on a path that is a
    plain file it raises [NotADirectoryError] and changes nothing. *)
Theorem cleanup_stops_at_subdirectory (d sub : string) (w : World) :
  fs w !! d = Some Dir → Os.is_entry d sub = true → fs w !! sub = Some Dir →
  ∃ msg w',
    cleanup d w = (Raise (PyErr IsADirectoryError msg), w') ∧
    fs w' !! d = Some Dir ∧ fs w' !! sub = Some Dir ∧
    fs w' ⊆ fs w ∧ printed w' = printed w ∧ spawned w' = spawned w.
Proof.
  intros Hd He Hsub.
  destruct (for_each_remove_hits_directory (Os.entries (fs w) d) w) as (msg & w' & E & Hkeep).
  - apply NoDup_entries.
  - by intros p [_ ?]%elem_of_entries.
  - exists sub. split; [|done]. apply elem_of_entries. split; [done|by eexists].
  - assert (Hrun : cleanup d w = (Raise (PyErr IsADirectoryError msg), w')).
    { unfold cleanup.
      assert (Hscan : Os.scandir d w = (Ok (Os.entries (fs w) d), w)).
      { unfold Os.scandir, mbind, M_bind, get_fs. by rewrite Hd. }
      rewrite (bind_ok _ _ _ _ _ Hscan). by apply bind_raise. }
    exists msg, w'. split; [done|]. split; [by apply Hkeep|]. split; [by apply Hkeep|].
    destruct (cleanup_outcome d w) as (r & w2 & E2 & _ & Hsubset & Hpr & Hsp).
    rewrite Hrun in E2. by injection E2 as <- <-.
Qed.

(** A staging directory in which somebody left a folder. *)
Lemma cleanup_stops_at_subdirectory_witness :
  let w := mkWorld {[ ".temp_frames" := Dir; ".temp_frames/frame_00000.png" := File;
                      ".temp_frames/old" := Dir ]} [] [] false (Some ".temp_frames") in
  ∃ msg w',
    cleanup ".temp_frames" w = (Raise (PyErr IsADirectoryError msg), w') ∧
    fs w' !! ".temp_frames" = Some Dir ∧ fs w' !! ".temp_frames/old" = Some Dir ∧
    fs w' ⊆ fs w ∧ printed w' = printed w ∧ spawned w' = spawned w.
Proof.
  intros w.
  apply (cleanup_stops_at_subdirectory ".temp_frames" ".temp_frames/old" w);
    vm_compute; reflexivity.
Defined.

Lemma check_dependencies_ok_pure env config w :
  (check_dependencies env config w).1 = Ok tt → check_dependencies env config w = (Ok tt, w).
Proof.
  unfold check_dependencies, config_get, Os.path_isfile.
  destruct (config !! "imageresizer") as [section|]; simpl; [|done].
  destruct (section !! "path") as [path|]; simpl; [|done].
  unfold mbind, M_bind, mret, M_ret, get_fs, when, print, sys_exit, raise. simpl.
  destruct (Os.isfile_ (fs w) path); simpl; [|done].
  destruct (access_x_ok env path); simpl; [|done].
  by destruct (which env "ffmpeg").
Qed.

(** X7. [cleanup] on a path that is a plain file, as [os.scandir] sees it:
    [NotADirectoryError], and the world is unchanged.  So is the whole run
    when [.temp_frames] already exists as a file: after the dependency check
    [os.makedirs] raises [FileExistsError], nothing is extracted or spawned
    and the exit status is 1. *)
Theorem staging_path_is_a_file (env : Env) (input : string) (verbose : bool)
    (config : Config) (w : World) :
  (check_dependencies env config w).1 = Ok tt →
  fs w !! ".temp_frames" = Some File →
  (∃ msg, cleanup ".temp_frames" w = (Raise (PyErr NotADirectoryError msg), w)) ∧
  ∃ msg w',
    main env input verbose config w = (Raise (PyErr FileExistsError msg), w') ∧
    exit_status (main env input verbose config w).1 = 1%Z ∧
    fs w' = fs w ∧ spawned w' = spawned w ∧ printed w' = printed w ∧
    temp_dir w' = Some ".temp_frames".
Proof.
  intros Hcheck%check_dependencies_ok_pure Hfile. split.
  { eexists. unfold cleanup, Os.scandir, mbind, M_bind, get_fs. by rewrite Hfile. }
  assert (Hrun : main env input verbose config w =
            (Raise (PyErr FileExistsError "[Errno 17] File exists: '.temp_frames'"),
             mkWorld (fs w) (printed w) (spawned w) (exit_event w) (Some ".temp_frames"))).
  { unfold main, main_upscale.
    apply bind_raise. rewrite (bind_ok _ _ _ _ _ Hcheck).
    unfold assign_temp_dir, Os.makedirs_exist_ok, mbind, M_bind, get_fs. simpl.
    by rewrite Hfile. }
  do 2 eexists. split; [exact Hrun|]. by rewrite Hrun.
Qed.

(** A working directory in which [.temp_frames] is a file. *)
Lemma staging_path_is_a_file_witness :
  let env := Sample.env_with Sample.failing_tool in
  let w := mkWorld {[ "ImageResizer.exe" := File; "clip.mp4" := File;
                      ".temp_frames" := File ]} [] [] false None in
  (∃ msg, cleanup ".temp_frames" w = (Raise (PyErr NotADirectoryError msg), w)) ∧
  ∃ msg w',
    main env "clip.mp4" false Sample.config w = (Raise (PyErr FileExistsError msg), w') ∧
    exit_status (main env "clip.mp4" false Sample.config w).1 = 1%Z ∧
    fs w' = fs w ∧ spawned w' = spawned w ∧ printed w' = printed w ∧
    temp_dir w' = Some ".temp_frames".
Proof.
  intros env w.
  apply (staging_path_is_a_file env "clip.mp4" false Sample.config w);
    vm_compute; reflexivity.
Defined.

(** ** One frame through [upscale_frame] *)

(** Past the two size computations [upscale_frame] is its [try] block. *)
Lemma upscale_frame_try env i temp path s mf alg ow oh verbose w W H :
  scaled ow s = Some W → scaled oh s = Some H →
  upscale_frame env i temp path s mf alg (ow, oh) verbose w =
  match float_of_string env mf with
  | None =>
      upscale_frame_except i temp verbose None
        (PyErr ValueError ("could not convert string to float: '" +:+ mf +:+ "'")) w
  | Some m =>
      let cmd := upscale_cmd path (frame_path temp i) (upscaled_path temp i) alg mf s m W H in
      try_except
        (when verbose (print ("Running command: " +:+ PyStr.join " " cmd));;
         process_output ← subprocess_run env cmd;
         when verbose
           (o ← decode process_output.1;
            print o;;
            e ← decode process_output.2;
            print e))
        (upscale_frame_except i temp verbose (Some cmd)) w
  end.
Proof.
  unfold scaled. intros HW HH.
  unfold upscale_frame, int_times_float, py_int. cbn [fst snd].
  destruct (PyFloat.of_int ow) as [fw|]; [|done].
  destruct (PyFloat.to_int (PyFloat.mul fw s)) as [|W'] eqn:EW; [done|]. injection HW as ->.
  destruct (PyFloat.of_int oh) as [fh|]; [|done].
  destruct (PyFloat.to_int (PyFloat.mul fh s)) as [|H'] eqn:EH; [done|]. injection HH as ->.
  unfold mbind at 1, M_bind at 1, mret at 1, M_ret at 1.
  unfold mbind at 1, M_bind at 1. rewrite EW. unfold mret at 1, M_ret at 1.
  unfold mbind at 1, M_bind at 1, mret at 1, M_ret at 1.
  unfold mbind at 1, M_bind at 1. rewrite EH. unfold mret at 1, M_ret at 1.
  unfold mbind at 1, M_bind at 1, attempt, py_float.
  by destruct (float_of_string env mf).
Qed.

(** X8. A target size that cannot be computed is not handled: when
    [int(width * scale_factor)] or [int(height * scale_factor)] raises (a
    NaN or infinite product, or an integer too large for a float),
    [upscale_frame] raises that [ValueError] or [OverflowError] from before
    its [try] block; nothing is printed, spawned or cleaned up. *)
Theorem upscale_frame_size_error (env : Env) (i : nat) (temp path : string)
    (scale_factor : PyFloat.float) (magnification_factor algorithm : string)
    (width height : Z) (verbose : bool) (w : World) :
  scaled width scale_factor = None ∨ scaled height scale_factor = None →
  ∃ cls msg,
    (cls = ValueError ∨ cls = OverflowError) ∧
    upscale_frame env i temp path scale_factor magnification_factor algorithm
      (width, height) verbose w = (Raise (PyErr cls msg), w).
Proof.
  unfold scaled, upscale_frame, int_times_float, py_int. cbn [fst snd].
  unfold mbind, M_bind, mret, M_ret, raise.
  destruct (PyFloat.of_int width) as [fw|]; [|eauto 10].
  destruct (PyFloat.to_int (PyFloat.mul fw scale_factor)) as [[|]|W]; [eauto 10..|].
  destruct (PyFloat.of_int height) as [fh|]; [|eauto 10].
  destruct (PyFloat.to_int (PyFloat.mul fh scale_factor)) as [[|]|H]; [eauto 10..|].
  by intros [|].
Qed.

(** A scale factor of [float("nan")]. *)
Lemma upscale_frame_size_error_witness :
  ∃ cls msg,
    (cls = ValueError ∨ cls = OverflowError) ∧
    upscale_frame (Sample.env_with Sample.failing_tool) 0 ".temp_frames" "ImageResizer.exe"
      S754_nan "2" "XBR" (640%Z, 480%Z) false Sample.staged
    = (Raise (PyErr cls msg), Sample.staged).
Proof.
  apply (upscale_frame_size_error (Sample.env_with Sample.failing_tool) 0 ".temp_frames"
           "ImageResizer.exe" S754_nan "2" "XBR" 640 480 false Sample.staged).
  left. vm_compute. reflexivity.
Defined.

(** X9. A magnification factor that is not a number is caught by the
    [except Exception] clause, before any command exists.  In quiet mode the
    clause prints the error, releases the staging directory and leaves
    through [sys.exit(1)].  In verbose mode it then tries to print [cmd],
    which was never assigned: it raises [NameError] (Python's
    [UnboundLocalError]) and the staging directory is not released.  No
    command is spawned either way. *)
Theorem upscale_frame_bad_magnification (env : Env) (i : nat) (temp path : string)
    (scale_factor : PyFloat.float) (magnification_factor algorithm : string)
    (width height : Z) (w : World) (W H : Z) :
  scaled width scale_factor = Some W → scaled height scale_factor = Some H →
  float_of_string env magnification_factor = None →
  let line := "Unexpected error occurred during upscaling frame " +:+ PyStr.of_nat i +:+
              ": " +:+ "could not convert string to float: '" +:+ magnification_factor +:+ "'" in
  let loud := upscale_frame env i temp path scale_factor magnification_factor algorithm
                (width, height) true w in
  let quiet := upscale_frame env i temp path scale_factor magnification_factor algorithm
                 (width, height) false w in
  (∃ msg, loud.1 = Raise (PyErr NameError msg)) ∧
  fs loud.2 = fs w ∧ printed loud.2 = printed w ++ [line] ∧ spawned loud.2 = spawned w ∧
  printed quiet.2 = printed w ++ [line] ∧ spawned quiet.2 = spawned w ∧
  (holds_only_files (fs w) temp →
     quiet.1 = Raise (SystemExit 1) ∧ fs quiet.2 = released temp (fs w)).
Proof.
  intros HW HH Hm line loud quiet. subst loud quiet.
  rewrite !(upscale_frame_try _ _ _ _ _ _ _ _ _ _ _ _ _ HW HH), Hm.
  unfold upscale_frame_except, exc_str. cbn [when read_local].
  fold line.
  split; [by eexists|]. split; [done|]. split; [done|]. split; [done|].
  rewrite (bind_ok (print line) _ w tt _ eq_refl).
  rewrite (bind_ok (mret tt) _ _ tt _ eq_refl).
  set (w1 := mkWorld (fs w) (printed w ++ [line]) (spawned w) (exit_event w) (temp_dir w)).
  destruct (cleanup_outcome temp w1) as (r & w2 & E & _ & _ & Hpr & Hsp).
  assert (Hw2 : ((cleanup temp ≫= λ _ : (), sys_exit (A:=unit) 1) w1).2 = w2).
  { unfold mbind, M_bind. rewrite E. by destruct r. }
  rewrite Hw2. split; [done|]. split; [done|].
  intros Hok. rewrite (cleanup_releases temp w1 Hok) in E. injection E as <- <-.
  unfold mbind, M_bind. by rewrite (cleanup_releases temp w1 Hok).
Qed.

(** The sample frame with a magnification of ["2x"]. *)
Lemma upscale_frame_bad_magnification_witness :
  let env := Sample.env_with Sample.failing_tool in
  let loud := upscale_frame env 0 ".temp_frames" "ImageResizer.exe" Sample.twice "2x" "XBR"
                (640%Z, 480%Z) true Sample.staged in
  let quiet := upscale_frame env 0 ".temp_frames" "ImageResizer.exe" Sample.twice "2x" "XBR"
                 (640%Z, 480%Z) false Sample.staged in
  (∃ msg, loud.1 = Raise (PyErr NameError msg)) ∧
  fs loud.2 !! ".temp_frames" = Some Dir ∧
  quiet.1 = Raise (SystemExit 1) ∧
  fs quiet.2 !! ".temp_frames" = None.
Proof.
  intros env loud quiet.
  destruct (upscale_frame_bad_magnification env 0 ".temp_frames" "ImageResizer.exe"
              Sample.twice "2x" "XBR" 640 480 Sample.staged 1280 960)
    as (Hloud & Hfs & _ & _ & _ & _ & Hquiet); [vm_compute; reflexivity..|].
  destruct (Hquiet staged_holds_only_files) as [Hexit Hreleased].
  split; [exact Hloud|]. split; [fold loud in Hfs; by rewrite Hfs|].
  split; [exact Hexit|]. fold quiet in Hreleased. rewrite Hreleased.
  rewrite lookup_released. by rewrite decide_True.
Defined.

(** X10. A frame whose resizer exits with status 0: [upscale_frame] spawns
    its one command, returns normally and leaves the filesystem as the tool
    left it.  In quiet mode nothing is printed; in verbose mode the command
    line and the two decoded streams are. *)
Theorem upscale_frame_success (env : Env) (i : nat) (temp path : string)
    (scale_factor : PyFloat.float) (magnification_factor algorithm : string)
    (width height : Z) (w : World) (W H : Z) (magnification : PyFloat.float)
    (out err : string) (f' : filesystem) :
  let cmd := upscale_cmd path (frame_path temp i) (upscaled_path temp i) algorithm
               magnification_factor scale_factor magnification W H in
  scaled width scale_factor = Some W → scaled height scale_factor = Some H →
  float_of_string env magnification_factor = Some magnification →
  spawn env cmd (fs w) = (Exited 0 (Some out) (Some err), f') →
  upscale_frame env i temp path scale_factor magnification_factor algorithm
    (width, height) false w
  = (Ok tt, mkWorld f' (printed w) (spawned w ++ [cmd]) (exit_event w) (temp_dir w)) ∧
  upscale_frame env i temp path scale_factor magnification_factor algorithm
    (width, height) true w
  = (Ok tt, mkWorld f' (printed w ++ ["Running command: " +:+ PyStr.join " " cmd; out; err])
              (spawned w ++ [cmd]) (exit_event w) (temp_dir w)).
Proof.
  intros cmd HW HH Hm Hspawn.
  rewrite !(upscale_frame_try _ _ _ _ _ _ _ _ _ _ _ _ _ HW HH), Hm. fold cmd.
  unfold try_except, when, mbind, M_bind, mret, M_ret, print, subprocess_run, decode.
  cbn [fs printed spawned exit_event temp_dir]. rewrite Hspawn. simpl.
  split; [done|]. by rewrite <- !app_assoc.
Qed.

(** X11. A frame whose resizer exits with a non-zero status, or cannot be
    started at all: in quiet mode [upscale_frame] prints one line (the frame
    index with the exit code, or the error text), removes the staging
    directory as the tool left it and raises [SystemExit(1)]; the command
    was spawned once and is not retried. *)
Theorem upscale_frame_tool_failure (env : Env) (i : nat) (temp path : string)
    (scale_factor : PyFloat.float) (magnification_factor algorithm : string)
    (width height : Z) (w : World) (W H : Z) (magnification : PyFloat.float)
    (outcome : proc_outcome) (f' : filesystem) :
  let cmd := upscale_cmd path (frame_path temp i) (upscaled_path temp i) algorithm
               magnification_factor scale_factor magnification W H in
  scaled width scale_factor = Some W → scaled height scale_factor = Some H →
  float_of_string env magnification_factor = Some magnification →
  spawn env cmd (fs w) = (outcome, f') →
  (∀ out err, outcome ≠ Exited 0 out err) →
  holds_only_files f' temp →
  upscale_frame env i temp path scale_factor magnification_factor algorithm
    (width, height) false w
  = (Raise (SystemExit 1),
     mkWorld (released temp f')
       (printed w ++
        [match outcome with
         | Exited rc _ _ =>
             "Error: Upscaling frame " +:+ PyStr.of_nat i +:+
             " failed with exit code " +:+ PyStr.of_Z rc +:+ "."
         | SpawnFailed _ msg =>
             "Unexpected error occurred during upscaling frame " +:+ PyStr.of_nat i +:+
             ": " +:+ msg
         end])
       (spawned w ++ [cmd]) (exit_event w) (temp_dir w)).
Proof.
  intros cmd HW HH Hm Hspawn Hfail Hok.
  rewrite (upscale_frame_try _ _ _ _ _ _ _ _ _ _ _ _ _ HW HH), Hm. fold cmd.
  unfold try_except, when. rewrite (bind_ok (mret tt) _ w tt w eq_refl).
  unfold mbind at 1, M_bind at 1, subprocess_run. rewrite Hspawn.
  destruct outcome as [rc out err|cls msg].
  - destruct (rc =? 0)%Z eqn:Hrc.
    { apply Z.eqb_eq in Hrc as ->. by destruct (Hfail out err). }
    unfold upscale_frame_except, when.
    rewrite (bind_ok (print _) _ _ tt _ eq_refl).
    rewrite (bind_ok (mret tt) _ _ tt _ eq_refl).
    unfold mbind, M_bind. by rewrite cleanup_releases.
  - unfold upscale_frame_except, when, exc_str.
    rewrite (bind_ok (print _) _ _ tt _ eq_refl).
    rewrite (bind_ok (mret tt) _ _ tt _ eq_refl).
    unfold mbind, M_bind. by rewrite cleanup_releases.
Qed.

(** Frame 0 of the sample with a resizer that exits with status 1. *)
Lemma upscale_frame_tool_failure_witness :
  upscale_frame (Sample.env_with Sample.failing_tool) 0 ".temp_frames" "ImageResizer.exe"
    Sample.twice "2" "XBR" (640%Z, 480%Z) false Sample.staged
  = (Raise (SystemExit 1),
     mkWorld (released ".temp_frames" (fs Sample.staged))
       (printed Sample.staged ++ ["Error: Upscaling frame 0 failed with exit code 1."])
       (spawned Sample.staged ++
        [upscale_cmd "ImageResizer.exe" (frame_path ".temp_frames" 0)
           (upscaled_path ".temp_frames" 0) "XBR" "2" Sample.twice (Sample.float_of_Z 2)
           1280 960])
       (exit_event Sample.staged) (temp_dir Sample.staged)).
Proof.
  apply (upscale_frame_tool_failure (Sample.env_with Sample.failing_tool) 0 ".temp_frames"
           "ImageResizer.exe" Sample.twice "2" "XBR" 640 480 Sample.staged 1280 960
           (Sample.float_of_Z 2) (Exited 1 (Some "") (Some "cannot upscale"))
           (fs Sample.staged)).
  - vm_compute. reflexivity.
  - vm_compute. reflexivity.
  - vm_compute. reflexivity.
  - reflexivity.
  - intros out err. discriminate.
  - exact staged_holds_only_files.
Defined.

(** Frame 0 of the sample with a resizer that writes its output. *)
Lemma upscale_frame_success_witness :
  let env := Sample.env_with Sample.failing_ffmpeg in
  let cmd := upscale_cmd "ImageResizer.exe" (frame_path ".temp_frames" 0)
               (upscaled_path ".temp_frames" 0) "XBR" "2" Sample.twice
               (Sample.float_of_Z 2) 1280 960 in
  (upscale_frame env 0 ".temp_frames" "ImageResizer.exe" Sample.twice "2" "XBR"
     (640%Z, 480%Z) false Sample.staged).1 = Ok tt ∧
  Os.exists_ (fs (upscale_frame env 0 ".temp_frames" "ImageResizer.exe" Sample.twice "2" "XBR"
                    (640%Z, 480%Z) false Sample.staged).2)
             (upscaled_path ".temp_frames" 0) = true.
Proof.
  intros env cmd.
  destruct (upscale_frame_success env 0 ".temp_frames" "ImageResizer.exe" Sample.twice "2"
              "XBR" 640 480 Sample.staged 1280 960 (Sample.float_of_Z 2) "" ""
              (<[upscaled_path ".temp_frames" 0 := File]> (fs Sample.staged)))
    as [Hquiet _]; [vm_compute; reflexivity..|].
  rewrite Hquiet. split; [reflexivity|]. vm_compute. reflexivity.
Defined.

(** ** The whole dispatch *)

(** X12. The dispatch cannot be stopped by a frame, on any schedule.  In
    whatever order the pool runs the queued calls, and whatever they raise,
    [SystemExit] included, it returns normally, and the commands it has
    handed to [subprocess.run] are those of the scheduled frames in the
    order they ran: up to their order, exactly the planned commands of the
    frames 0, 1, ..., [total_frames - 1], as many as there are frames
    when a command can be built and none otherwise.  [upscale_frames] is the
    dispatch on the submission-order schedule. *)
Theorem upscale_frames_never_stops (env : Env) (schedule : list nat) (temp : string)
    (total_frames : nat) (path : string) (scale_factor : PyFloat.float)
    (magnification_factor algorithm : string) (resolution : Z * Z) (verbose : bool)
    (w : World) :
  schedule ≡ₚ seq 0 total_frames →
  let planned := fun i => planned_upscale env i temp path scale_factor magnification_factor
                            algorithm resolution in
  ∃ w',
    upscale_frames_scheduled env schedule temp path scale_factor magnification_factor
      algorithm resolution verbose w = (Ok tt, w') ∧
    spawned w' = spawned w ++ concat (map planned schedule) ∧
    spawned w' ≡ₚ spawned w ++ concat (map planned (seq 0 total_frames)) ∧
    length (spawned w') = length (spawned w) + total_frames * length (planned 0) ∧
    upscale_frames env temp total_frames path scale_factor magnification_factor algorithm
      resolution verbose
    = upscale_frames_scheduled env (seq 0 total_frames) temp path scale_factor
        magnification_factor algorithm resolution verbose.
Proof.
  intros Hperm planned.
  destruct (upscale_frames_scheduled_runs_all env schedule temp path scale_factor
              magnification_factor algorithm resolution verbose w) as (w' & E & Hs).
  fold planned in Hs.
  assert (Hup : spawned w' ≡ₚ spawned w ++ concat (map planned (seq 0 total_frames))).
  { rewrite Hs. f_equiv. by apply concat_map_Permutation. }
  exists w'. split; [done|]. split; [done|]. split; [done|]. split; [|done].
  assert (Hsame : ∀ i, length (planned i) = length (planned 0)).
  { intros i. unfold planned, planned_upscale.
    by destruct (scaled resolution.1 scale_factor), (scaled resolution.2 scale_factor),
      (float_of_string env magnification_factor). }
  assert (Hlen : ∀ l : list nat,
            length (concat (map planned l)) = length l * length (planned 0)).
  { induction l as [|i l IH]; [done|].
    cbn [map concat length]. rewrite length_app, IH, Hsame. lia. }
  rewrite (Permutation_length Hup), length_app, Hlen, length_seq. done.
Qed.

(** The two sample frames with frame 1 running before frame 0, and a
    resizer that fails on both. *)
Lemma upscale_frames_never_stops_witness :
  ∃ w',
    upscale_frames_scheduled (Sample.env_with Sample.failing_tool) [1; 0] ".temp_frames"
      "ImageResizer.exe" Sample.twice "2" "XBR" (640%Z, 480%Z) false Sample.staged
      = (Ok tt, w') ∧
    spawned w' =
      [["ImageResizer.exe"; "/load"; ".temp_frames/frame_00001.png"; "/resize"; "auto";
        "XBR 2x"; "/save"; ".temp_frames/frame_00001_up.png"];
       ["ImageResizer.exe"; "/load"; ".temp_frames/frame_00000.png"; "/resize"; "auto";
        "XBR 2x"; "/save"; ".temp_frames/frame_00000_up.png"]] ∧
    length (spawned w') = 2.
Proof.
  destruct (upscale_frames_never_stops (Sample.env_with Sample.failing_tool) [1; 0]
              ".temp_frames" 2 "ImageResizer.exe" Sample.twice "2" "XBR" (640%Z, 480%Z) false
              Sample.staged)
    as (w' & Hrun & Hspawned & _ & Hlen & _).
  - apply perm_swap.
  - exists w'. split; [exact Hrun|]. split; [|exact Hlen].
    rewrite Hspawned. vm_compute. reflexivity.
Defined.

Lemma last_upscale_cmd path in_frame out_frame alg mf s m W H :
  List.last (upscale_cmd path in_frame out_frame alg mf s m W H) "" = out_frame.
Proof. unfold upscale_cmd. by destruct (PyFloat.neqb s m). Qed.

(** Running the calls of a list of frames with a resizer that succeeds on
    each of them and leaves the upscaled file behind. *)
Lemma run_submitted_writes env temp path s mf alg ow oh W H m (indices : list nat) :
  scaled ow s = Some W → scaled oh s = Some H → float_of_string env mf = Some m →
  (∀ i f, i ∈ indices → ∃ out err f',
     spawn env (upscale_cmd path (frame_path temp i) (upscaled_path temp i) alg mf s m W H) f
       = (Exited 0 out err, f') ∧
     f ⊆ f' ∧ is_Some (f' !! upscaled_path temp i)) →
  ∀ w, ∃ futures w',
    run_submitted (map (fun i => upscale_frame env i temp path s mf alg (ow, oh) false)
                       indices) w = (Ok futures, w') ∧
    fs w ⊆ fs w' ∧ printed w' = printed w ∧
    Forall (fun future => future = None) futures ∧
    ∀ i, i ∈ indices → Os.exists_ (fs w') (upscaled_path temp i) = true.
Proof.
  intros HW HH Hm. induction indices as [|i indices IH]; intros Htool w.
  - exists [], w. split; [done|]. split; [done|]. split; [done|]. split; [done|].
    intros i Hi. by apply elem_of_nil in Hi.
  - cbn [map run_submitted].
    set (cmd := upscale_cmd path (frame_path temp i) (upscaled_path temp i) alg mf s m W H).
    destruct (Htool i (fs w)) as (out & err & f' & Hspawn & Hsub & Hlast); [left|].
    fold cmd in Hspawn.
    assert (Hcall : upscale_frame env i temp path s mf alg (ow, oh) false w =
              (Ok tt, mkWorld f' (printed w) (spawned w ++ [cmd]) (exit_event w) (temp_dir w))).
    { rewrite (upscale_frame_try _ _ _ _ _ _ _ _ _ _ _ _ _ HW HH), Hm. fold cmd.
      unfold try_except, when, mbind, M_bind, mret, M_ret, subprocess_run.
      by rewrite Hspawn. }
    assert (Hfut : future_of (upscale_frame env i temp path s mf alg (ow, oh) false) w =
              (Ok None, mkWorld f' (printed w) (spawned w ++ [cmd]) (exit_event w) (temp_dir w))).
    { unfold future_of, attempt, mbind, M_bind. by rewrite Hcall. }
    rewrite (bind_ok _ _ _ _ _ Hfut).
    destruct (IH (fun j f Hj => Htool j f (list_elem_of_further _ _ _ Hj))
                 (mkWorld f' (printed w) (spawned w ++ [cmd]) (exit_event w) (temp_dir w)))
      as (futures & w' & E & Hsub' & Hpr & Hnone & Hex).
    rewrite (bind_ok _ _ _ _ _ E).
    exists (None :: futures), w'. split; [done|].
    simpl in Hsub', Hpr. split; [by etrans|]. split; [done|]. split; [by constructor|].
    intros j [->|Hj]%elem_of_cons; [|by apply Hex].
    destruct Hlast as [n Hn].
    unfold Os.exists_. by rewrite (lookup_weaken _ _ _ _ Hn Hsub').
Qed.

(** X13. Dispatch, then verification.  With a resizer that, on every
    frame's command, exits with status 0 and leaves the upscaled file behind
    (keeping what is already there), a quiet [upscale_frames] returns without
    printing anything, every path that existed still exists, and the
    completeness scan that follows finds no frame missing. *)
Theorem dispatch_then_nothing_missing (env : Env) (temp : string) (total_frames : nat)
    (path : string) (scale_factor : PyFloat.float) (magnification_factor algorithm : string)
    (width height : Z) (w : World) (W H : Z) (magnification : PyFloat.float) :
  scaled width scale_factor = Some W → scaled height scale_factor = Some H →
  float_of_string env magnification_factor = Some magnification →
  (∀ i f, i < total_frames → ∃ out err f',
     spawn env (upscale_cmd path (frame_path temp i) (upscaled_path temp i) algorithm
                  magnification_factor scale_factor magnification W H) f
       = (Exited 0 out err, f') ∧
     f ⊆ f' ∧ is_Some (f' !! upscaled_path temp i)) →
  ∃ w',
    upscale_frames env temp total_frames path scale_factor magnification_factor algorithm
      (width, height) false w = (Ok tt, w') ∧
    fs w ⊆ fs w' ∧ printed w' = printed w ∧
    get_missing_frames total_frames temp w' = (Ok [], w').
Proof.
  intros HW HH Hm Htool.
  destruct (run_submitted_writes env temp path scale_factor magnification_factor algorithm
              width height W H magnification (seq 0 total_frames) HW HH Hm) with (w := w)
    as (futures & w' & E & Hsub & Hpr & _ & Hex).
  { intros i f Hi%elem_of_seq. apply Htool. lia. }
  exists w'. split.
  { unfold upscale_frames. rewrite (bind_ok _ _ _ _ _ E). apply for_each_pass. }
  split; [done|]. split; [done|].
  unfold get_missing_frames. rewrite missing_among_scan. do 2 f_equal.
  destruct (filter _ (seq 0 total_frames)) as [|i l] eqn:Ef; [done|].
  assert (Hin : i ∈ i :: l) by left. rewrite <- Ef in Hin.
  apply list_elem_of_filter in Hin as [Hi Hseq]. by rewrite (Hex i Hseq) in Hi.
Qed.

(** The sample clip with a resizer that writes its output. *)
Lemma dispatch_then_nothing_missing_witness :
  ∃ w',
    upscale_frames (Sample.env_with Sample.writing_tool) ".temp_frames" 2 "ImageResizer.exe"
      Sample.twice "2" "XBR" (640%Z, 480%Z) false Sample.staged = (Ok tt, w') ∧
    fs Sample.staged ⊆ fs w' ∧ printed w' = printed Sample.staged ∧
    get_missing_frames 2 ".temp_frames" w' = (Ok [], w').
Proof.
  apply (dispatch_then_nothing_missing (Sample.env_with Sample.writing_tool) ".temp_frames"
           2 "ImageResizer.exe" Sample.twice "2" "XBR" 640 480 Sample.staged 1280 960
           (Sample.float_of_Z 2)).
  - vm_compute. reflexivity.
  - vm_compute. reflexivity.
  - vm_compute. reflexivity.
  - intros i f _. unfold Sample.env_with, Sample.writing_tool. cbn [spawn].
    rewrite last_upscale_cmd.
    destruct (f !! upscaled_path ".temp_frames" i) as [n|] eqn:E.
    + do 3 eexists. split; [reflexivity|]. split; [done|]. by eexists.
    + do 3 eexists. split; [reflexivity|]. split; [by apply insert_subseteq|].
      rewrite lookup_insert_eq. by eexists.
Defined.

(** ** Reassembly *)

(** [encode_video] up to its [try] block, when the input is a file and no
    upscaled frame is missing. *)
Lemma encode_video_try env input out temp total_frames args verbose w :
  Os.isfile_ (fs w) input = true →
  (get_missing_frames total_frames temp w).1 = Ok [] →
  let cmd := ffmpeg_command (float_repr env (probed_fps env (fs w) input)) temp input args out in
  let w1 := mkWorld (fs w)
              (printed w ++ if negb (String.eqb args "") then []
                            else ["Falling back to the default ffmpeg arguments."])
              (spawned w) (exit_event w) (temp_dir w) in
  encode_video env input out temp total_frames args verbose w =
  try_except
    (if verbose
     then print ("Running command: " +:+ PyStr.join " " cmd);;
          process_output ← subprocess_run env cmd;
          o ← decode process_output.1;
          print o;;
          e ← decode process_output.2;
          print e
     else subprocess_run env cmd;; mret tt)
    (encode_video_except verbose cmd) w1.
Proof.
  intros Hfile Hall cmd w1. unfold encode_video.
  rewrite (bind_ok _ _ _ _ _ (get_fps_of_file env input w Hfile)).
  unfold get_missing_frames in *. rewrite missing_among_scan in Hall.
  rewrite (bind_ok _ _ _ _ _ (missing_among_scan temp (seq 0 total_frames) w)).
  injection Hall as ->. cbn [length Nat.eqb negb when].
  rewrite (bind_ok (mret tt) _ w tt w eq_refl).
  fold (probed_fps env (fs w) input). unfold cmd, ffmpeg_command, w1.
  destruct (negb (String.eqb args "")).
  - rewrite (bind_ok (mret _) _ w _ w eq_refl). rewrite app_nil_r. by destruct w.
  - by rewrite (bind_ok (print _ ≫= _) _ w _ _ eq_refl).
Qed.

(** X14. A reassembly in which ffmpeg exits with status 0: [encode_video]
    spawns the one ffmpeg command, returns normally and leaves the
    filesystem as ffmpeg left it.  In quiet mode the only thing it may print
    is the notice that the default arguments are used (when the configured
    arguments are empty); in verbose mode it also prints the command line
    and the two decoded streams. *)
Theorem encode_video_success (env : Env) (input out temp : string) (total_frames : nat)
    (args : string) (w : World) (captured_out captured_err : string) (f' : filesystem) :
  let cmd := ffmpeg_command (float_repr env (probed_fps env (fs w) input)) temp input args out in
  let notice := if negb (String.eqb args "") then []
                else ["Falling back to the default ffmpeg arguments."] in
  Os.isfile_ (fs w) input = true →
  (get_missing_frames total_frames temp w).1 = Ok [] →
  spawn env cmd (fs w) = (Exited 0 (Some captured_out) (Some captured_err), f') →
  encode_video env input out temp total_frames args false w
  = (Ok tt, mkWorld f' (printed w ++ notice) (spawned w ++ [cmd])
              (exit_event w) (temp_dir w)) ∧
  encode_video env input out temp total_frames args true w
  = (Ok tt, mkWorld f'
              (printed w ++ notice ++
               ["Running command: " +:+ PyStr.join " " cmd; captured_out; captured_err])
              (spawned w ++ [cmd]) (exit_event w) (temp_dir w)).
Proof.
  intros cmd notice Hfile Hall Hspawn.
  rewrite !(encode_video_try _ _ _ _ _ _ _ _ Hfile Hall). fold cmd notice.
  unfold try_except, mbind, M_bind, mret, M_ret, print, subprocess_run, decode.
  cbn [fs printed spawned exit_event temp_dir]. rewrite Hspawn. simpl.
  split; [done|]. by rewrite <- !app_assoc.
Qed.

(** X15. A reassembly in which ffmpeg cannot even be started
    ([subprocess.run] raises, for instance because the executable has
    disappeared): the [except Exception] clause prints the error text (and
    the command line in verbose mode) and [encode_video] returns normally,
    as if nothing had gone wrong. *)
Theorem encode_video_spawn_error_swallowed (env : Env) (input out temp : string)
    (total_frames : nat) (args : string) (verbose : bool) (w : World)
    (cls : errclass) (msg : string) (f' : filesystem) :
  let cmd := ffmpeg_command (float_repr env (probed_fps env (fs w) input)) temp input args out in
  let notice := if negb (String.eqb args "") then []
                else ["Falling back to the default ffmpeg arguments."] in
  Os.isfile_ (fs w) input = true →
  (get_missing_frames total_frames temp w).1 = Ok [] →
  spawn env cmd (fs w) = (SpawnFailed cls msg, f') →
  encode_video env input out temp total_frames args verbose w
  = (Ok tt,
     mkWorld f'
       (printed w ++ notice ++
        (if verbose then ["Running command: " +:+ PyStr.join " " cmd] else []) ++
        ["Unexpected error occurred during video encoding: " +:+ msg] ++
        (if verbose then ["Command: " +:+ PyStr.join " " cmd] else []))
       (spawned w ++ [cmd]) (exit_event w) (temp_dir w)).
Proof.
  intros cmd notice Hfile Hall Hspawn.
  rewrite (encode_video_try _ _ _ _ _ _ _ _ Hfile Hall). fold cmd notice.
  unfold try_except, mbind, M_bind, mret, M_ret, print, subprocess_run.
  cbn [fs printed spawned exit_event temp_dir]. destruct verbose.
  - cbn [fs printed spawned exit_event temp_dir]. rewrite Hspawn.
    unfold encode_video_except, when, exc_str, mbind, M_bind, print. simpl.
    by rewrite <- !app_assoc.
  - cbn [fs printed spawned exit_event temp_dir]. rewrite Hspawn.
    unfold encode_video_except, when, exc_str, mbind, M_bind, print, mret, M_ret. simpl.
    by rewrite <- !app_assoc.
Qed.

(** The sample after a complete dispatch, with an ffmpeg that writes the
    output file. *)
Lemma encode_video_success_witness :
  let env := Sample.env_with Sample.writing_tool in
  (encode_video env "clip.mp4" "clip_upscaled_XBR2x.mp4" ".temp_frames" 2 "" false
     Sample.upscaled).1 = Ok tt ∧
  printed (encode_video env "clip.mp4" "clip_upscaled_XBR2x.mp4" ".temp_frames" 2 "" false
             Sample.upscaled).2
    = ["Extracting frames..."; "Falling back to the default ffmpeg arguments."] ∧
  fs (encode_video env "clip.mp4" "clip_upscaled_XBR2x.mp4" ".temp_frames" 2 "" false
        Sample.upscaled).2 !! "clip_upscaled_XBR2x.mp4" = Some File.
Proof.
  intros env.
  destruct (encode_video_success env "clip.mp4" "clip_upscaled_XBR2x.mp4" ".temp_frames" 2 ""
              Sample.upscaled "" ""
              (<["clip_upscaled_XBR2x.mp4" := File]> (fs Sample.upscaled)))
    as [Hquiet _]; [vm_compute; reflexivity..|].
  rewrite Hquiet. vm_compute. repeat split.
Defined.

(** The sample after a complete dispatch, with ffmpeg gone. *)
Lemma encode_video_spawn_error_swallowed_witness :
  (encode_video (Sample.env_with Sample.absent_tool) "clip.mp4" "clip_upscaled_XBR2x.mp4"
     ".temp_frames" 2 "-c:v libx264" false Sample.upscaled).1 = Ok tt ∧
  printed (encode_video (Sample.env_with Sample.absent_tool) "clip.mp4"
             "clip_upscaled_XBR2x.mp4" ".temp_frames" 2 "-c:v libx264" false
             Sample.upscaled).2
    = ["Extracting frames...";
       "Unexpected error occurred during video encoding: [Errno 2] No such file or directory: 'ffmpeg'"].
Proof.
  rewrite (encode_video_spawn_error_swallowed (Sample.env_with Sample.absent_tool) "clip.mp4"
             "clip_upscaled_XBR2x.mp4" ".temp_frames" 2 "-c:v libx264" false Sample.upscaled
             FileNotFoundError "[Errno 2] No such file or directory: 'ffmpeg'"
             (fs Sample.upscaled));
    [|vm_compute; reflexivity..].
  vm_compute. split; reflexivity.
Defined.

(** ** Frame extraction *)

(** X16. [extract_frames] never tests its path.  It either returns the
    number of frames OpenCV read from the capture without printing
    anything, or stops at a frame [k] below that number whose image was not
    written, printing [Frame extraction failed for frame k] and raising
    [SystemExit(1)].  It never spawns a process and never touches the flag
    or [temp_dir]. *)
Theorem extract_frames_outcome (env : Env) (video temp : string) (w : World) :
  let frames := frame_count (video_open env video (fs w)) in
  let r := extract_frames env video temp w in
  spawned r.2 = spawned w ∧ exit_event r.2 = exit_event w ∧ temp_dir r.2 = temp_dir w ∧
  (r.1 = Ok frames ∧ printed r.2 = printed w ∨
   r.1 = Raise (SystemExit 1) ∧
   ∃ k, k < frames ∧
        printed r.2 = printed w ++ ["Frame extraction failed for frame " +:+ PyStr.of_nat k]).
Proof.
  intros frames r. subst r.
  unfold extract_frames.
  rewrite (bind_ok (video_capture env video) _ w _ w eq_refl). fold frames.
  destruct (extract_loop_outcome env temp frames 0 w) as (r & w' & E & Hsp & Hev & Htd & Hcase).
  rewrite E. simpl.
  split; [done|]. split; [done|]. split; [done|].
  destruct Hcase as [[Hr Hpr]|[Hr (k & Hk & Hpr)]]; [by left|].
  right. split; [done|]. exists k. split; [lia|done].
Qed.

Lemma extract_loop_writes env temp remaining : ∀ count w,
  (∀ p f, ∃ f', imwrite env p f = (true, f') ∧ f ⊆ f' ∧ is_Some (f' !! p)) →
  ∃ w',
    extract_loop env temp remaining count w = (Ok (count + remaining), w') ∧
    fs w ⊆ fs w' ∧ printed w' = printed w ∧ spawned w' = spawned w ∧
    ∀ i, count ≤ i < count + remaining → Os.exists_ (fs w') (frame_path temp i) = true.
Proof.
  induction remaining as [|remaining IH]; intros count w Hwrite.
  - exists w. rewrite Nat.add_0_r. split; [done|]. split; [done|]. split; [done|].
    split; [done|]. intros i Hi. lia.
  - cbn [extract_loop]. fold (frame_path temp count).
    destruct (Hwrite (frame_path temp count) (fs w)) as (f' & Hw & Hsub & [n Hn]).
    rewrite (bind_ok _ _ _ _ _ (cv2_imwrite_step _ _ _ _ _ Hw)).
    rewrite (bind_ok _ _ _ _ _ (path_exists_step _ _)).
    cbn [fs with_fs]. unfold Os.exists_ at 1. rewrite Hn. cbn [negb orb].
    destruct (IH (S count) (with_fs w f') Hwrite) as (w' & E & Hsub' & Hpr & Hsp & Hex).
    exists w'. split; [by rewrite E, Nat.add_succ_r|].
    simpl in Hsub'. split; [by etrans|]. split; [done|]. split; [done|].
    intros i Hi. destruct (decide (i = count)) as [->|Hne].
    + unfold Os.exists_. by rewrite (lookup_weaken _ _ _ _ Hn Hsub').
    + apply Hex. lia.
Qed.

(** X17. With a writer that succeeds and leaves the named file behind
    (keeping what is already there), [extract_frames] returns exactly the
    number of frames OpenCV reads from the capture, prints and spawns
    nothing, keeps every path that existed, and afterwards the frame files
    [frame_00000.png], [frame_00001.png], ... of all indices below that
    number exist in the staging directory. *)
Theorem extract_frames_writes_every_frame (env : Env) (video temp : string) (w : World) :
  (∀ p f, ∃ f', imwrite env p f = (true, f') ∧ f ⊆ f' ∧ is_Some (f' !! p)) →
  let frames := frame_count (video_open env video (fs w)) in
  ∃ w',
    extract_frames env video temp w = (Ok frames, w') ∧
    fs w ⊆ fs w' ∧ printed w' = printed w ∧ spawned w' = spawned w ∧
    ∀ i, i < frames → Os.exists_ (fs w') (frame_path temp i) = true.
Proof.
  intros Hwrite frames.
  destruct (extract_loop_writes env temp frames 0 w Hwrite)
    as (w' & E & Hsub & Hpr & Hsp & Hex).
  exists w'. split.
  { unfold extract_frames.
    by rewrite (bind_ok (video_capture env video) _ w _ w eq_refl). }
  split; [done|]. split; [done|]. split; [done|]. intros i Hi. apply Hex. lia.
Qed.

(** The two-frame sample clip extracted into an empty staging directory. *)
Lemma extract_frames_writes_every_frame_witness :
  let env := mkEnv Sample.float_of_digits (fun _ => "30.0") (fun _ => true) (fun _ => true)
               Sample.open_clip Sample.keeping_writer Sample.writing_tool in
  let w := with_fs Sample.fresh (<[".temp_frames" := Dir]> (fs Sample.fresh)) in
  ∃ w',
    extract_frames env "clip.mp4" ".temp_frames" w = (Ok 2, w') ∧
    fs w ⊆ fs w' ∧ printed w' = printed w ∧ spawned w' = spawned w ∧
    ∀ i, i < 2 → Os.exists_ (fs w') (frame_path ".temp_frames" i) = true.
Proof.
  intros env w.
  apply (extract_frames_writes_every_frame env "clip.mp4" ".temp_frames" w).
  intros p f. unfold env, Sample.keeping_writer. cbn [imwrite].
  destruct (f !! p) as [n|] eqn:E.
  - eexists. split; [reflexivity|]. split; [done|]. by eexists.
  - eexists. split; [reflexivity|]. split; [by apply insert_subseteq|].
    rewrite lookup_insert_eq. by eexists.
Defined.

(** ** The end of a successful run *)

(** X18. A run that reaches the reassembly step with every frame upscaled
    and whose ffmpeg exits with status 0 ends normally: the exit status is
    0, the one ffmpeg command was spawned after the dispatch, the staging
    directory and the frames in it are removed by the final [cleanup], and
    every other path is as ffmpeg left it, the output file included. *)
Theorem successful_run_removes_staging (env : Env) (input : string) (verbose : bool)
    (config : Config) (w0 w : World) (p : Prepared) (args : string)
    (captured_out captured_err : string) (f' : filesystem) :
  let cmd := ffmpeg_command (float_repr env (probed_fps env (fs w) input)) ".temp_frames" input args
               (prep_out_filename p) in
  main_upscale env input verbose config w0 = (Ok p, w) →
  config !! "ffmpeg" ≫= (fun section => section !! "args") = Some args →
  Os.isfile_ (fs w) input = true →
  (get_missing_frames (prep_total_frames p) ".temp_frames" w).1 = Ok [] →
  spawn env cmd (fs w) = (Exited 0 (Some captured_out) (Some captured_err), f') →
  holds_only_files f' ".temp_frames" →
  ∃ w',
    main env input verbose config w0 = (Ok tt, w') ∧
    exit_status (main env input verbose config w0).1 = 0%Z ∧
    spawned w' = spawned w ++ [cmd] ∧
    fs w' !! ".temp_frames" = None ∧
    (∀ q, Os.is_entry ".temp_frames" q = true → fs w' !! q = None) ∧
    (∀ q, q ≠ ".temp_frames" → Os.is_entry ".temp_frames" q = false → fs w' !! q = f' !! q).
Proof.
  intros cmd Hprep Hargs Hfile Hall Hspawn Hok.
  assert (Hget : config_get config "ffmpeg" "args" w = (Ok args, w)).
  { unfold config_get. destruct (config !! "ffmpeg") as [section|]; [|done].
    simpl in Hargs. by rewrite Hargs. }
  assert (Henc : ∃ pr, encode_video env input (prep_out_filename p) ".temp_frames"
                         (prep_total_frames p) args verbose w
                       = (Ok tt, mkWorld f' pr (spawned w ++ [cmd]) (exit_event w) (temp_dir w))).
  { rewrite (encode_video_try _ _ _ _ _ _ _ _ Hfile Hall). fold cmd.
    unfold try_except, mbind, M_bind, mret, M_ret, print, subprocess_run, decode.
    destruct verbose; cbn [fs printed spawned exit_event temp_dir]; rewrite Hspawn; simpl;
      by eexists. }
  destruct Henc as [pr Henc].
  set (w1 := mkWorld f' pr (spawned w ++ [cmd]) (exit_event w) (temp_dir w)) in Henc.
  assert (Hmain : main env input verbose config w0
                  = (Ok tt, with_fs w1 (released ".temp_frames" f'))).
  { unfold main. rewrite (bind_ok _ _ _ _ _ Hprep). rewrite (bind_ok _ _ _ _ _ Hget).
    rewrite (bind_ok _ _ _ _ _ Henc). by apply cleanup_releases. }
  exists (with_fs w1 (released ".temp_frames" f')).
  split; [done|]. split; [by rewrite Hmain|]. split; [done|].
  split; [simpl; rewrite lookup_released; by rewrite decide_True|].
  split.
  - intros q Hq. simpl. rewrite lookup_released, Hq. by case_decide.
  - intros q Hne Hq. simpl. rewrite lookup_released, Hq. by rewrite decide_False.
Qed.

(** The whole sample run with tools that do their work. *)
Lemma successful_run_removes_staging_witness :
  let env := mkEnv Sample.float_of_digits (fun _ => "30.0") (fun _ => true) (fun _ => true)
               Sample.open_clip Sample.keeping_writer Sample.writing_tool in
  ∃ w',
    main env "clip.mp4" false Sample.config Sample.fresh = (Ok tt, w') ∧
    exit_status (main env "clip.mp4" false Sample.config Sample.fresh).1 = 0%Z ∧
    length (spawned w') = 3 ∧
    fs w' !! ".temp_frames" = None ∧
    fs w' !! ".temp_frames/frame_00000_up.png" = None ∧
    fs w' !! "clip_upscaled_XBR2x.mp4" = Some File.
Proof.
  intros env.
  destruct (successful_run_removes_staging env "clip.mp4" false Sample.config Sample.fresh
              (main_upscale env "clip.mp4" false Sample.config Sample.fresh).2
              (mkPrepared 2 "clip_upscaled_XBR2x.mp4") "" "" ""
              (<["clip_upscaled_XBR2x.mp4" := File]>
                 (fs (main_upscale env "clip.mp4" false Sample.config Sample.fresh).2)))
    as (w' & Hmain & Hstatus & Hspawned & Hgone & Hentries & Hrest).
  - vm_compute. reflexivity.
  - vm_compute. reflexivity.
  - vm_compute. reflexivity.
  - vm_compute. reflexivity.
  - vm_compute. reflexivity.
  - apply holds_only_files_check; vm_compute; reflexivity.
  - exists w'. split; [exact Hmain|]. split; [exact Hstatus|].
    split; [rewrite Hspawned; vm_compute; reflexivity|].
    split; [exact Hgone|]. split; [apply Hentries; vm_compute; reflexivity|].
    rewrite Hrest; vm_compute; [reflexivity|discriminate|reflexivity].
Defined.

(** ** More on output naming *)

Lemma no_overwrite_on_free (f : filesystem) (name : string) :
  Os.exists_ f name = false → no_overwrite_on f name = Some name.
Proof.
  intros Hfree. unfold no_overwrite_on. destruct (OsPath.splitext name) as [root ext].
  cbn [no_overwrite_loop]. by rewrite Hfree.
Qed.

Lemma no_overwrite_on_fresh (f : filesystem) (name r : string) :
  no_overwrite_on f name = Some r → Os.exists_ f r = false.
Proof.
  unfold no_overwrite_on. destruct (OsPath.splitext name) as [root ext].
  intros H. by apply no_overwrite_loop_some in H as [? _].
Qed.

(** X19. [no_overwrite] settles: applied to the name it has just returned
    it returns that name again.  And two runs in a row never share an output
    name: once the returned name exists as a file, [no_overwrite] on the same
    derived name returns a different one. *)
Theorem no_overwrite_settles (name : string) (w : World) :
  ∃ r,
    no_overwrite name w = (Ok r, w) ∧
    no_overwrite r w = (Ok r, w) ∧
    ∀ w2, fs w2 = <[r := File]> (fs w) →
      ∃ r2, no_overwrite name w2 = (Ok r2, w2) ∧ r2 ≠ r.
Proof.
  destruct (no_overwrite_on_total (fs w) name) as [r Hr].
  pose proof (no_overwrite_on_fresh _ _ _ Hr) as Hfree.
  exists r. split.
  { unfold no_overwrite, mbind, M_bind, get_fs. by rewrite Hr. }
  split.
  { unfold no_overwrite, mbind, M_bind, get_fs. by rewrite (no_overwrite_on_free _ _ Hfree). }
  intros w2 Hw2.
  destruct (no_overwrite_on_total (fs w2) name) as [r2 Hr2].
  exists r2. split.
  { unfold no_overwrite, mbind, M_bind, get_fs. by rewrite Hr2. }
  apply no_overwrite_on_fresh in Hr2. intros ->.
  unfold Os.exists_ in Hr2. by rewrite Hw2, lookup_insert_eq in Hr2.
Qed.

(** ** The extra ffmpeg arguments *)

Lemma rev_app_append (a b c : string) :
  String.rev_app a b +:+ c = String.rev_app a (b +:+ c).
Proof. revert b. induction a as [|x a IH]; intros b; [done|]. simpl. by rewrite IH. Qed.

Lemma split_space_go_not_nil cur s : PyStr.split_space_go cur s ≠ [].
Proof. revert cur. induction s as [|c s IH]; intros cur; simpl; [done|]. by destruct (Ascii.eqb c " "). Qed.

Lemma join_cons sep x l : l ≠ [] → PyStr.join sep (x :: l) = x +:+ sep +:+ PyStr.join sep l.
Proof. by destruct l. Qed.

Lemma join_split_space_go s : ∀ cur,
  PyStr.join " " (PyStr.split_space_go cur s) = String.rev cur +:+ s.
Proof.
  induction s as [|c s IH]; intros cur; simpl.
  - unfold String.rev. rewrite rev_app_append. done.
  - destruct (Ascii.eqb c " ") eqn:Ec.
    + apply Ascii.eqb_eq in Ec as ->.
      rewrite join_cons by apply split_space_go_not_nil. rewrite IH.
      unfold String.rev. by rewrite !rev_app_append.
    + rewrite IH. unfold String.rev. simpl. by rewrite !rev_app_append.
Qed.

Lemma contains_rev_app c a b :
  contains c (String.rev_app a b) = (contains c a || contains c b)%bool.
Proof.
  revert b. induction a as [|x a IH]; intros b; [done|].
  simpl. rewrite IH. simpl. destruct (Ascii.eqb x c), (contains c a), (contains c b); done.
Qed.

Lemma split_space_go_no_space s : ∀ cur,
  contains " " cur = false →
  Forall (fun piece => contains " " piece = false) (PyStr.split_space_go cur s).
Proof.
  induction s as [|c s IH]; intros cur Hcur; simpl.
  - constructor; [|done]. unfold String.rev. rewrite contains_rev_app, Hcur. done.
  - destruct (Ascii.eqb c " ") eqn:Ec.
    + constructor; [|by apply IH].
      unfold String.rev. rewrite contains_rev_app, Hcur. done.
    + apply IH. simpl. by rewrite Ec, Hcur.
Qed.

(** X20. Splitting the configured ffmpeg arguments at spaces loses nothing:
    joining the pieces with single spaces gives the configured string back
    (so the command line printed in verbose mode shows the arguments as they
    were typed), no piece contains a space, and there is always at least one
    piece, empty pieces standing for doubled, leading or trailing spaces. *)
Theorem split_space_round_trip (ffmpeg_args : string) :
  PyStr.join " " (PyStr.split_space ffmpeg_args) = ffmpeg_args ∧
  Forall (fun piece => contains " " piece = false) (PyStr.split_space ffmpeg_args) ∧
  PyStr.split_space ffmpeg_args ≠ [].
Proof.
  unfold PyStr.split_space. split; [apply join_split_space_go|].
  split; [by apply split_space_go_no_space|apply split_space_go_not_nil].
Qed.

(** ** The report of missing frames *)

(** X21. What [encode_video] prints when upscaled frames are missing: with
    at most ten missing it prints their indices as a list, in ascending
    order; with more than ten it prints only the smallest and the largest
    missing index, as a range, whether or not the indices in between are
    missing too.  That line is the only one printed. *)
Theorem missing_frames_report (env : Env) (input out temp : string) (total_frames : nat)
    (args : string) (verbose : bool) (w : World) (missing : list nat) :
  Os.isfile_ (fs w) input = true →
  (get_missing_frames total_frames temp w).1 = Ok missing →
  missing ≠ [] →
  printed (encode_video env input out temp total_frames args verbose w).2
  = printed w ++
    [if (10 <? length missing)%nat
     then "Missing upscaled frames: from " +:+ PyStr.of_nat (List.hd 0 missing) +:+
          " to " +:+ PyStr.of_nat (List.last missing 0)
     else "Missing upscaled frames: " +:+ PyStr.of_nat_list missing].
Proof.
  intros Hfile Hmissing Hne. unfold encode_video.
  rewrite (bind_ok _ _ _ _ _ (get_fps_of_file env input w Hfile)).
  unfold get_missing_frames in *. rewrite missing_among_scan in Hmissing.
  rewrite (bind_ok _ _ _ _ _ (missing_among_scan temp (seq 0 total_frames) w)).
  injection Hmissing as ->.
  assert (Hlen : negb (Nat.eqb (length missing) 0) = true) by (by destruct missing).
  rewrite Hlen. cbn [when].
  set (text := if (10 <? length missing)%nat
               then "Missing upscaled frames: from " +:+ PyStr.of_nat (List.hd 0 missing) +:+
                    " to " +:+ PyStr.of_nat (List.last missing 0)
               else "Missing upscaled frames: " +:+ PyStr.of_nat_list missing).
  assert (Hline : (if (10 <? length missing)%nat
                   then print ("Missing upscaled frames: from " +:+
                               PyStr.of_nat (List.hd 0 missing) +:+ " to " +:+
                               PyStr.of_nat (List.last missing 0))
                   else print ("Missing upscaled frames: " +:+ PyStr.of_nat_list missing)) w
                  = (Ok tt, mkWorld (fs w) (printed w ++ [text]) (spawned w)
                              (exit_event w) (temp_dir w))).
  { unfold text. by destruct (10 <? length missing)%nat. }
  set (w1 := mkWorld (fs w) (printed w ++ [text]) (spawned w) (exit_event w) (temp_dir w)) in *.
  destruct (cleanup_outcome temp w1) as (r & w2 & Ec & Hr & _ & Hpr & _).
  assert (Hblock : ∃ e, ((if (10 <? length missing)%nat
                   then print ("Missing upscaled frames: from " +:+
                               PyStr.of_nat (List.hd 0 missing) +:+ " to " +:+
                               PyStr.of_nat (List.last missing 0))
                   else print ("Missing upscaled frames: " +:+ PyStr.of_nat_list missing))
                  ≫= fun _ => cleanup temp ≫= fun _ => sys_exit (A:=unit) 1) w = (Raise e, w2)).
  { rewrite (bind_ok _ _ _ _ _ Hline).
    destruct Hr as [->|(c & m & ->)].
    - rewrite (bind_ok _ _ _ _ _ Ec). by eexists.
    - rewrite (bind_raise _ _ _ _ _ Ec). by eexists. }
  destruct Hblock as [e Hblock].
  rewrite (bind_raise _ _ _ _ _ Hblock). simpl. by rewrite Hpr.
Qed.

(** The sample staging directory with no frame upscaled yet. *)
Lemma missing_frames_report_witness :
  printed (encode_video (Sample.env_with Sample.failing_tool) "clip.mp4" "out.mp4"
             ".temp_frames" 2 "" false Sample.staged).2
  = printed Sample.staged ++
    [if (10 <? length [0; 1])%nat
     then "Missing upscaled frames: from " +:+ PyStr.of_nat (List.hd 0 [0; 1]) +:+
          " to " +:+ PyStr.of_nat (List.last [0; 1] 0)
     else "Missing upscaled frames: " +:+ PyStr.of_nat_list [0; 1]].
Proof.
  apply (missing_frames_report (Sample.env_with Sample.failing_tool) "clip.mp4" "out.mp4"
           ".temp_frames" 2 "" false Sample.staged [0; 1]).
  - vm_compute. reflexivity.
  - vm_compute. reflexivity.
  - discriminate.
Defined.

(** ** Frame file names *)

Lemma digit_of_pretty_char (d : N) : (d < 10)%N → (N_of_ascii (pretty_N_char d) - 48 = d)%N.
Proof.
  intros Hd.
  assert (d = 0 ∨ d = 1 ∨ d = 2 ∨ d = 3 ∨ d = 4 ∨ d = 5 ∨ d = 6 ∨ d = 7 ∨ d = 8 ∨ d = 9)%N
    as Hcases by lia.
  repeat (destruct Hcases as [->|Hcases]; [reflexivity|]). by subst.
Qed.

Lemma read_decimal_pretty_go (x : N) : ∀ acc s,
  ∃ k : N, read_decimal acc (pretty_N_go x s) = read_decimal (acc * 10 ^ k + x) s.
Proof.
  induction (N.lt_wf_0 x) as [x _ IH]. intros acc s.
  assert (x = 0 ∨ 0 < x)%N as [->|Hpos] by lia.
  - exists 0%N. rewrite pretty_N_go_0. f_equal. lia.
  - rewrite pretty_N_go_step by done.
    destruct (IH (x `div` 10)%N (N.div_lt x 10 Hpos eq_refl) acc
                 (String (pretty_N_char (x `mod` 10)) s)) as [k Hk].
    exists (k + 1)%N. rewrite Hk. cbn [read_decimal].
    rewrite digit_of_pretty_char by (apply N.mod_lt; lia). f_equal.
    rewrite N.pow_add_r, N.pow_1_r.
    pose proof (N.div_mod x 10 ltac:(lia)). lia.
Qed.

Lemma read_decimal_pretty (x : N) : read_decimal 0 (pretty x) = x.
Proof.
  unfold pretty, pretty_N. case_decide as Hx; [by subst|].
  destruct (read_decimal_pretty_go x 0 "") as [k Hk]. rewrite Hk. simpl. lia.
Qed.

Lemma read_decimal_zeros (k : nat) (s : string) :
  read_decimal 0 (PyStr.zeros k +:+ s) = read_decimal 0 s.
Proof. induction k as [|k IH]; [done|]. simpl. exact IH. Qed.

Lemma frame_index_fmt05 (i : nat) : frame_index (PyStr.fmt05 i) = i.
Proof.
  unfold frame_index, PyStr.fmt05, PyStr.of_nat. rewrite read_decimal_zeros.
  unfold pretty, pretty_nat. rewrite read_decimal_pretty. lia.
Qed.

Lemma join_frame_name_inj temp (a b : string) :
  OsPath.join temp ("frame_" +:+ a) = OsPath.join temp ("frame_" +:+ b) → a = b.
Proof.
  unfold OsPath.join. cbn [PyStr.starts_with_slash String.append].
  change (Ascii.eqb "f" "/") with false. cbv iota.
  destruct (String.eqb temp "" || PyStr.ends_with_slash temp)%bool; intros H.
  - apply (inj (String.append temp)) in H. by injection H.
  - apply (inj (String.append temp)) in H. by injection H.
Qed.

(** X22. A frame's file name determines its index: reading the zero-padded
    field of [f"{i:05}"] back as a decimal number gives [i], for every
    index, also beyond 99999.  So the raw frame files of two different
    indices are different paths, and so are their upscaled files: no two
    calls of [upscale_frame] write to the same file. *)
Theorem frame_names_determine_index (temp : string) (i j : nat) :
  frame_index (PyStr.fmt05 i) = i ∧
  (frame_path temp i = frame_path temp j → i = j) ∧
  (upscaled_path temp i = upscaled_path temp j → i = j).
Proof.
  split; [apply frame_index_fmt05|].
  split; intros H%join_frame_name_inj; apply string_app_inv_tail in H;
    apply (f_equal frame_index) in H; by rewrite !frame_index_fmt05 in H.
Qed.

Lemma pretty_go_no_p (x : N) : ∀ s, contains "p" (pretty_N_go x s) = contains "p" s.
Proof.
  induction (N.lt_wf_0 x) as [x _ IH]. intros s.
  assert (x = 0 ∨ 0 < x)%N as [->|Hpos] by lia; [by rewrite pretty_N_go_0|].
  rewrite pretty_N_go_step by done.
  rewrite (IH (x `div` 10)%N (N.div_lt x 10 Hpos eq_refl)). simpl.
  unfold pretty_N_char. by repeat case_match.
Qed.

Lemma fmt05_no_p (i : nat) : contains "p" (PyStr.fmt05 i) = false.
Proof.
  unfold PyStr.fmt05, PyStr.of_nat. rewrite contains_app.
  assert (Hz : ∀ k, contains "p" (PyStr.zeros k) = false) by (induction k; done).
  rewrite Hz. simpl. unfold pretty, pretty_nat, pretty, pretty_N.
  case_decide; [done|]. by rewrite pretty_go_no_p.
Qed.

(** X23. An upscaled file never takes the place of a raw frame: for all
    indices [i] and [j], whether equal or not, the path of the raw frame [i]
    and the path of the upscaled frame [j] are different. *)
Theorem raw_and_upscaled_names_differ (temp : string) (i j : nat) :
  frame_path temp i ≠ upscaled_path temp j.
Proof.
  intros H%join_frame_name_inj.
  change (PyStr.fmt05 i +:+ ".png" = PyStr.fmt05 j +:+ "_up" +:+ ".png") in H.
  rewrite <- string_app_assoc in H. apply string_app_inv_tail in H.
  pose proof (fmt05_no_p i) as Hi. rewrite H, contains_app in Hi.
  simpl in Hi. by rewrite orb_true_r in Hi.
Qed.

Lemma pretty_go_length_ge (x : N) : ∀ s, String.length s ≤ String.length (pretty_N_go x s).
Proof.
  induction (N.lt_wf_0 x) as [x _ IH]. intros s.
  assert (x = 0 ∨ 0 < x)%N as [->|Hpos] by lia; [by rewrite pretty_N_go_0|].
  rewrite pretty_N_go_step by done.
  etrans; [|apply (IH (x `div` 10)%N (N.div_lt x 10 Hpos eq_refl))]. simpl. lia.
Qed.

Lemma pretty_go_length_upper (k : nat) : ∀ x s,
  (x < 10 ^ N.of_nat k)%N → String.length (pretty_N_go x s) ≤ String.length s + k.
Proof.
  induction k as [|k IH]; intros x s Hx.
  - assert (x = 0)%N as -> by (simpl in Hx; lia). rewrite pretty_N_go_0. lia.
  - assert (x = 0 ∨ 0 < x)%N as [->|Hpos] by lia; [rewrite pretty_N_go_0; lia|].
    rewrite pretty_N_go_step by done.
    etrans; [apply IH|simpl; lia].
    apply N.Div0.div_lt_upper_bound.
    rewrite Nat2N.inj_succ, N.pow_succ_r' in Hx. lia.
Qed.

Lemma pretty_go_length_lower (k : nat) : ∀ x s,
  (10 ^ N.of_nat k ≤ x)%N → String.length s + k + 1 ≤ String.length (pretty_N_go x s).
Proof.
  induction k as [|k IH]; intros x s Hx.
  - assert (0 < x)%N as Hpos by (simpl in Hx; lia).
    rewrite pretty_N_go_step by done.
    etrans; [|apply pretty_go_length_ge]. simpl. lia.
  - assert (0 < 10 ^ N.of_nat (S k))%N by (apply N.neq_0_lt_0, N.pow_nonzero; lia).
    assert (0 < x)%N as Hpos by lia.
    rewrite pretty_N_go_step by done.
    etrans; [|apply IH].
    + simpl. lia.
    + apply N.div_le_lower_bound; [lia|].
      rewrite Nat2N.inj_succ, N.pow_succ_r' in Hx. lia.
Qed.

Lemma zeros_length (k : nat) : String.length (PyStr.zeros k) = k.
Proof. induction k as [|k IH]; [done|]. simpl. by rewrite IH. Qed.

(** X24. The frame field is exactly five characters wide up to index
    99999, which is where the zero padding ends: from index 100000 on the
    field is the plain decimal number, six or more characters wide, so
    names are no longer all of one length. *)
Theorem frame_field_width (i : nat) :
  ((N.of_nat i < 100000)%N → String.length (PyStr.fmt05 i) = 5) ∧
  ((100000 ≤ N.of_nat i)%N →
     PyStr.fmt05 i = PyStr.of_nat i ∧ 5 < String.length (PyStr.fmt05 i)).
Proof.
  unfold PyStr.fmt05, PyStr.of_nat.
  set (text := pretty i).
  assert (Hlow : (N.of_nat i < 100000)%N → 1 ≤ String.length text ≤ 5).
  { intros Hi. unfold text, pretty, pretty_nat, pretty, pretty_N.
    case_decide as Hz; [simpl; lia|].
    split.
    - pose proof (pretty_go_length_lower 0 (N.of_nat i) "") as Hl.
      simpl in Hl. apply Hl. lia.
    - apply (pretty_go_length_upper 5 (N.of_nat i) ""). exact Hi. }
  assert (Hhigh : (100000 ≤ N.of_nat i)%N → 6 ≤ String.length text).
  { intros Hi. unfold text, pretty, pretty_nat, pretty, pretty_N.
    case_decide as Hz; [lia|].
    apply (pretty_go_length_lower 5 (N.of_nat i) ""). exact Hi. }
  clearbody text. split.
  - intros Hi. rewrite string_length_app, zeros_length. specialize (Hlow Hi). lia.
  - intros Hi. specialize (Hhigh Hi).
    assert (5 - String.length text = 0) as -> by lia.
    change (PyStr.zeros 0 +:+ text) with text. split; [done|lia].
Qed.
